(** * Audiobookshelf sync plugin for calibre: the linking and reconciliation core

    A shallow embedding of [action.py]: the Python values the plugin
    handles, the helpers [get_nested_value] and [update_metadata], the
    reconciliation loop of [sync_from_audiobookshelf], the identifier based
    [quick_link_books] and the ordering used by [LinkDialog]. *)

From Stdlib Require Import ZArith QArith Bool List String Ascii Lia Permutation Sorted DecimalString.
From stdpp Require Import base option gmap strings list fin_maps.

Local Open Scope string_scope.
Local Open Scope Z_scope.
Local Open Scope list_scope.

(** ** Python values *)

(** The values the plugin moves around are what [json.loads] produces and
    what the calibre metadata object stores: [None], booleans, integers,
    finite floats (held as the rational they denote; JSON has neither NaN
    nor infinities), strings, lists, and dictionaries with string keys. A
    dictionary is an association list read by first match, so every list
    denotes a dictionary. *)
#[local] Unset Elimination Schemes.
Inductive pyval : Type :=
| PNone
| PBool (b : bool)
| PInt (n : Z)
| PFloat (q : Q)
| PStr (s : string)
| PList (l : list pyval)
| PDict (d : list (string * pyval)).
#[local] Set Elimination Schemes.

Module Dict.
Section Ops.
Context {V : Type}.

(** [d.get(k)] *)
Fixpoint get (k : string) (d : list (string * V)) : option V :=
  match d with
  | [] => None
  | (k', v) :: d' => if String.eqb k k' then Some v else get k d'
  end.

(** [k in d] *)
Definition mem (k : string) (d : list (string * V)) : bool :=
  match get k d with Some _ => true | None => false end.

(** [d[k] = v]: an existing key keeps its place, a new key goes last. *)
Fixpoint set (k : string) (v : V) (d : list (string * V)) : list (string * V) :=
  match d with
  | [] => [(k, v)]
  | (k', v') :: d' =>
      if String.eqb k k' then (k, v) :: d' else (k', v') :: set k v d'
  end.

Definition keys (d : list (string * V)) : list string := map fst d.
End Ops.
End Dict.

(** Numeric reading of a value: Python compares [bool], [int] and [float]
    by the number they denote ([True == 1], [1 == 1.0]). *)
Definition py_num (v : pyval) : option Q :=
  match v with
  | PBool b => Some (inject_Z (if b then 1 else 0))
  | PInt n => Some (inject_Z n)
  | PFloat q => Some q
  | _ => None
  end.

(** Equality of lists and of dictionaries, given the equality of their
    elements. Two lists are equal when they agree position by position.
    Two dictionaries are equal when they hold the same keys with equal
    values, in whatever order: [dict_covered] checks each key of [l] at its
    first occurrence against [e]. *)
Section Containers.
Context {A : Type}.
Variable eq : A -> A -> bool.

Fixpoint list_eq (l m : list A) {struct l} : bool :=
  match l, m with
  | [], [] => true
  | x :: l', y :: m' => eq x y && list_eq l' m'
  | _, _ => false
  end.

Fixpoint dict_covered (e l : list (string * A)) (seen : list string) {struct l} : bool :=
  match l with
  | [] => true
  | (k, v) :: l' =>
      (if existsb (String.eqb k) seen then true
       else match Dict.get k e with
            | Some w => eq v w
            | None => false
            end)
      && dict_covered e l' (k :: seen)
  end.
End Containers.

(** [a == b] *)
Fixpoint py_eq (a b : pyval) {struct a} : bool :=
  match a with
  | PNone => match b with PNone => true | _ => false end
  | PStr s => match b with PStr t => String.eqb s t | _ => false end
  | PList l => match b with PList m => list_eq py_eq l m | _ => false end
  | PDict d =>
      match b with
      | PDict e => dict_covered py_eq e d [] && forallb (fun kw => Dict.mem (fst kw) d) e
      | _ => false
      end
  | PBool _ | PInt _ | PFloat _ =>
      match py_num a, py_num b with
      | Some x, Some y => Qeq_bool x y
      | _, _ => false
      end
  end.

(** [bool(v)] *)
Definition py_truthy (v : pyval) : bool :=
  match v with
  | PNone => false
  | PBool b => b
  | PInt n => negb (Z.eqb n 0)
  | PFloat q => negb (Qeq_bool q 0)
  | PStr s => negb (String.eqb s "")
  | PList l => match l with [] => false | _ => true end
  | PDict d => match d with [] => false | _ => true end
  end.

(** Whether a value can be a dictionary key. *)
Definition py_hashable (v : pyval) : bool :=
  match v with
  | PList _ | PDict _ => false
  | _ => true
  end.

(** [for x in v]: the elements a [for] loop visits, [None] for a
    [TypeError]. A string yields its characters, a dictionary its keys. *)
Definition py_iter (v : pyval) : option (list pyval) :=
  match v with
  | PList l => Some l
  | PDict d => Some (map (fun kv => PStr (fst kv)) d)
  | PStr s => Some (map (fun c => PStr (String c EmptyString)) (list_ascii_of_string s))
  | _ => None
  end.

(** [v.get(key)] and [v.get(key, dflt)] on a value that should be a
    dictionary: [None] stands for the [AttributeError] that any other value
    raises. *)
Definition py_get_default (v : pyval) (key : string) (dflt : pyval) : option pyval :=
  match v with
  | PDict d => Some (default dflt (Dict.get key d))
  | _ => None
  end.

Definition py_get (v : pyval) (key : string) : option pyval :=
  py_get_default v key PNone.

(** Dictionaries the plugin builds itself, keyed by values taken from the
    payload. Python finds a key by hash and [==], so the lookup is by
    [py_eq]; the checked operations fail on an unhashable key. *)
Module KDict.
Section Ops.
Context {V : Type}.

Fixpoint get (k : pyval) (d : list (pyval * V)) : option V :=
  match d with
  | [] => None
  | (k', v) :: d' => if py_eq k k' then Some v else get k d'
  end.

Fixpoint set (k : pyval) (v : V) (d : list (pyval * V)) : list (pyval * V) :=
  match d with
  | [] => [(k, v)]
  | (k', v') :: d' =>
      if py_eq k k' then (k', v) :: d' else (k', v') :: set k v d'
  end.

(** [d.get(k)] *)
Definition lookup (k : pyval) (d : list (pyval * V)) : option (option V) :=
  if py_hashable k then Some (get k d) else None.

(** [d[k] = v] *)
Definition store (k : pyval) (v : V) (d : list (pyval * V)) : option (list (pyval * V)) :=
  if py_hashable k then Some (set k v d) else None.
End Ops.

(** [d.setdefault(k, []).append(v)] *)
Definition append {V : Type} (k : pyval) (v : V) (d : list (pyval * list V))
  : option (list (pyval * list V)) :=
  if py_hashable k then Some (set k (default [] (get k d) ++ [v]) d) else None.
End KDict.

(** ** The local store *)

(** The book record calibre hands out: named fields, and the identifiers
    sub-mapping the plugin reads and writes as a dictionary. The plugin
    reaches the identifiers only through [metadata.get('identifiers', {})]
    and [metadata.set('identifiers', ...)], which are [md_identifiers] and
    [md_set_identifiers] here; every other [get] and [set] names one of
    the fields: the uuid, the title, the authors, or a configured column. *)
Record Metadata : Type := mkMetadata {
  md_fields : gmap string pyval;
  md_identifiers : list (string * pyval)
}.

Definition empty_metadata : Metadata :=
  {| md_fields := ∅; md_identifiers := [] |}.

(** [metadata.get(key)] and [metadata.get(key, dflt)] for a key that names a
    field. Under the key ['identifiers'] calibre answers with the
    identifiers mapping, which is [md_identifiers] here: a column whose
    configured destination is ['identifiers'] is outside what [md_get] and
    [md_set] describe, and the statements below that speak of the
    identifiers exclude it. *)
Definition md_get_default (md : Metadata) (key : string) (dflt : pyval) : pyval :=
  default dflt (md_fields md !! key).

Definition md_get (md : Metadata) (key : string) : pyval :=
  md_get_default md key PNone.

(** [metadata.set(key, v)] for a key that names a field (not
    ['identifiers']). *)
Definition md_set (md : Metadata) (key : string) (v : pyval) : Metadata :=
  {| md_fields := <[key := v]> (md_fields md); md_identifiers := md_identifiers md |}.

(** [metadata.set('identifiers', ids)] *)
Definition md_set_identifiers (md : Metadata) (ids : list (string * pyval)) : Metadata :=
  {| md_fields := md_fields md; md_identifiers := ids |}.

(** The database: the books by numeric handle, and the log of the handles
    [set_metadata] was called on. *)
Record DB : Type := mkDB {
  db_books : gmap Z Metadata;
  db_writes : list Z
}.

(** [db.search('')]: every book handle. *)
Definition db_search (db : DB) : list Z :=
  map fst (map_to_list (db_books db)).

(** [db.get_metadata(book_id)] *)
Definition get_metadata (db : DB) (book_id : Z) : Metadata :=
  default empty_metadata (db_books db !! book_id).

(** [db.lookup_by_uuid(uuid)]: the handle of the book carrying this uuid,
    found by its [uuid] field. *)
Definition lookup_by_uuid (db : DB) (uuid : pyval) : option Z :=
  fst <$> List.find
    (fun entry => match md_fields (snd entry) !! "uuid" with
                  | Some u => py_eq u uuid
                  | None => false
                  end)
    (map_to_list (db_books db)).

(** A field of [mi] that the write must leave as stored. *)
Definition keep_stored (key : string) (stored : Metadata) (fields : gmap string pyval)
  : gmap string pyval :=
  match md_fields stored !! key with
  | Some v => <[key := v]> fields
  | None => delete key fields
  end.

(** Modelled from the spec: [db.set_metadata(book_id, mi, set_title=False,
    set_authors=False)] belongs to calibre; the store interface writes the
    field map under the handle and, with both preserve flags set, leaves
    the stored title and authors as they are. *)
Definition set_metadata (db : DB) (book_id : Z) (mi : Metadata) : DB :=
  let stored := get_metadata db book_id in
  let written :=
    {| md_fields := keep_stored "authors" stored (keep_stored "title" stored (md_fields mi));
       md_identifiers := md_identifiers mi |} in
  {| db_books := <[book_id := written]> (db_books db);
     db_writes := db_writes db ++ [book_id] |}.

(** ** Applying an update set *)

(** The second component of what [update_metadata] returns. *)
Inductive update_detail : Type :=
| BookNotFound (book_uuid : pyval)
| Updated (updates : list string) (book_id : Z).

(** The loop of [update_metadata] over [keys_values_to_update.items()]. *)
Fixpoint apply_updates (kvs : list (string * pyval)) (metadata : Metadata)
    (updates : list string) : Metadata * list string :=
  match kvs with
  | [] => (metadata, updates)
  | (key, new_value) :: rest =>
      let old_value := md_get metadata key in
      if negb (py_eq new_value old_value)
      then apply_updates rest (md_set metadata key new_value) (updates ++ [key])
      else apply_updates rest metadata updates
  end.

(** [update_metadata(book_uuid, keys_values_to_update)]. A lookup that
    raises and one that returns nothing end in the same result, so both
    are the [None] of [lookup_by_uuid]. *)
Definition update_metadata (db : DB) (book_uuid : pyval) (kvs : list (string * pyval))
  : DB * (bool * update_detail) :=
  match lookup_by_uuid db book_uuid with
  | None => (db, (false, BookNotFound book_uuid))
  | Some book_id =>
      if Z.eqb book_id 0 then (db, (false, BookNotFound book_uuid))
      else
        let metadata := get_metadata db book_id in
        let '(metadata', updates) := apply_updates kvs metadata [] in
        let db' := match updates with
                   | [] => db
                   | _ :: _ => set_metadata db book_id metadata'
                   end in
        (db', (true, Updated updates book_id))
  end.

(** ** Nested extraction *)

(** [get_nested_value(data, path)] *)
Fixpoint get_nested_value (data : pyval) (path : list string) : pyval :=
  match path with
  | [] => data
  | key :: rest =>
      match data with
      | PNone => PNone
      | PDict d => get_nested_value (default PNone (Dict.get key d)) rest
      | _ => PNone
      end
  end.

(** ** The field mapping table and the configuration *)

(** One entry of [CUSTOM_COLUMN_DEFAULTS], with the keys the action reads.
    The table itself lives in the plugin's configuration module and is a
    parameter of everything below. *)
Record col_meta : Type := mkColMeta {
  column_heading : string;
  data_location : list string;
  api_source : string;
  transform : option (pyval -> pyval)
}.

Definition is_none (v : pyval) : bool :=
  match v with PNone => true | _ => false end.

(** ** The run report *)

(** What a report row holds under one of its keys. The plugin formats
    these into text for display; the parts are kept apart here. *)
Inductive cell : Type :=
| CValue (v : pyval)
| CChange (old_value value : pyval)
| CText (s : string)
| CBookNotFound (book_uuid : pyval)
| CLinkedTo (abs_title : pyval).

(** [metadata.get('title', f'Book {book_id}')] *)
Definition book_title (metadata : Metadata) (book_id : Z) : pyval :=
  md_get_default metadata "title"
    (PStr (String.append "Book " (NilZero.string_of_int (Z.to_int book_id)))).

(** The unwrapping of the items payload: a [results] container, the list
    itself, or nothing. *)
Definition unwrap_items (items_data : pyval) : pyval :=
  match items_data with
  | PDict d =>
      match Dict.get "results" d with
      | Some r => r
      | None => PList []
      end
  | PList l => PList l
  | _ => PList []
  end.

(** The loop building [items_dict] (with [key = "id"]) and
    [media_progress_dict] (with [key = "libraryItemId"]). *)
Fixpoint index_by (key : string) (entries : list pyval) (acc : list (pyval * pyval))
  : option (list (pyval * pyval)) :=
  match entries with
  | [] => Some acc
  | entry :: rest =>
      entry_id ← py_get entry key;
      if py_truthy entry_id
      then acc' ← KDict.store entry_id entry acc; index_by key rest acc'
      else index_by key rest acc
  end.

(** ** Reconciliation *)

Record sync_state : Type := mkSyncState {
  st_db : DB;
  num_success : nat;
  num_fail : nat;
  num_skip : nat;
  results : list (list (string * cell))
}.

Inductive sync_outcome : Type :=
| ConfigurationError
| APIError
| SyncCompleted (st : sync_state).

Section Reconciliation.
Variable COLUMNS : list (string * col_meta).
Variable CONFIG : gmap string string.

(** [CONFIG.get(name, '')] *)
Definition config_get (name : string) : string := default "" (CONFIG !! name).

(** The value read for one column, before any transform: the branch on
    [api_source], with the default of the "Audiobook Started" column. *)
Definition extract_value (col : col_meta) (progress_data item_data me_data : pyval) : pyval :=
  if String.eqb (api_source col) "mediaProgress" then
    let value := get_nested_value progress_data (data_location col) in
    if String.eqb (column_heading col) "Audiobook Started" && is_none value
    then PBool true
    else value
  else if String.eqb (api_source col) "lib_items" then
    get_nested_value item_data (data_location col)
  else if String.eqb (api_source col) "me" then
    get_nested_value me_data (data_location col)
  else PNone.

(** The value after the transform, when the column has one. *)
Definition computed_value (col : col_meta) (progress_data item_data me_data : pyval) : pyval :=
  let value := extract_value col progress_data item_data me_data in
  if is_none value then PNone
  else match transform col with
       | Some f => f value
       | None => value
       end.

(** One turn of the loop over [COLUMNS.items()]. *)
Definition sync_column (metadata : Metadata) (progress_data item_data me_data : pyval)
    (acc : list (string * pyval) * list (string * cell)) (entry : string * col_meta)
  : list (string * pyval) * list (string * cell) :=
  let '(keys_values_to_update, result) := acc in
  let '(config_name, col) := entry in
  let column_name := config_get config_name in
  if String.eqb column_name "" then acc
  else
    let value := computed_value col progress_data item_data me_data in
    if is_none value then acc
    else
      let old_value := md_get metadata column_name in
      if negb (py_eq old_value value)
      then (Dict.set column_name value keys_values_to_update,
            Dict.set (column_heading col) (CChange old_value value) result)
      else acc.

(** The update set and the report row computed for one linked book. *)
Definition reconcile (metadata : Metadata) (book_id : Z)
    (progress_data item_data me_data : pyval)
  : list (string * pyval) * list (string * cell) :=
  fold_left (sync_column metadata progress_data item_data me_data) COLUMNS
    ([], [("title", CValue (book_title metadata book_id))]).

Definition not_found_row (metadata : Metadata) (book_id : Z) : list (string * cell) :=
  [("title", CValue (book_title metadata book_id));
   ("error", CText "Audiobookshelf item not found")].

(** The body of the loop over [all_book_ids]. *)
Definition sync_book (items_dict media_progress_dict : list (pyval * pyval))
    (me_data : pyval) (book_id : Z) (st : sync_state) : option sync_state :=
  let metadata := get_metadata (st_db st) book_id in
  let book_uuid := md_get metadata "uuid" in
  let identifiers := md_identifiers metadata in
  let abs_id := default PNone (Dict.get "audiobookshelf_id" identifiers) in
  if negb (py_truthy abs_id) then Some st
  else
    found ← KDict.lookup abs_id items_dict;
    let item_data := default PNone found in
    if negb (py_truthy item_data) then
      Some {| st_db := st_db st;
              num_success := num_success st;
              num_fail := num_fail st;
              num_skip := S (num_skip st);
              results := results st ++ [not_found_row metadata book_id] |}
    else
      progress ← KDict.lookup abs_id media_progress_dict;
      let progress_data := default (PDict []) progress in
      let '(keys_values_to_update, result) :=
        reconcile metadata book_id progress_data item_data me_data in
      match keys_values_to_update with
      | _ :: _ =>
          let '(db', (status, detail)) :=
            update_metadata (st_db st) book_uuid keys_values_to_update in
          if status then
            Some {| st_db := db';
                    num_success := S (num_success st);
                    num_fail := num_fail st;
                    num_skip := num_skip st;
                    results := results st ++ [result] |}
          else
            let error :=
              match detail with
              | BookNotFound u => CBookNotFound u
              | Updated _ _ => CText "Unknown error"
              end in
            Some {| st_db := db';
                    num_success := num_success st;
                    num_fail := S (num_fail st);
                    num_skip := num_skip st;
                    results := results st ++ [Dict.set "error" error result] |}
      | [] =>
          Some {| st_db := st_db st;
                  num_success := num_success st;
                  num_fail := num_fail st;
                  num_skip := S (num_skip st);
                  results := results st ++ [result] |}
      end.

Fixpoint sync_books (items_dict media_progress_dict : list (pyval * pyval))
    (me_data : pyval) (all_book_ids : list Z) (st : sync_state) : option sync_state :=
  match all_book_ids with
  | [] => Some st
  | book_id :: rest =>
      st' ← sync_book items_dict media_progress_dict me_data book_id st;
      sync_books items_dict media_progress_dict me_data rest st'
  end.

(** [sync_from_audiobookshelf], from the two payloads [api_request]
    returned ([PNone] for a failed request) and the database. [None] is
    an exception that escapes the method. *)
Definition sync_from_audiobookshelf (items_data me_data : pyval) (db : DB)
  : option sync_outcome :=
  if String.eqb (config_get "abs_key") "" || String.eqb (config_get "abs_library_id") ""
  then Some ConfigurationError
  else if is_none items_data || is_none me_data then Some APIError
  else
    items_list ← py_iter (unwrap_items items_data);
    items_dict ← index_by "id" items_list [];
    media_progress ← py_get_default me_data "mediaProgress" (PList []);
    media_progress_list ← py_iter media_progress;
    media_progress_dict ← index_by "libraryItemId" media_progress_list [];
    st ← sync_books items_dict media_progress_dict me_data (db_search db)
           {| st_db := db; num_success := 0; num_fail := 0; num_skip := 0; results := [] |};
    Some (SyncCompleted st).
End Reconciliation.

(** ** Linking by identifier *)

Record link_state : Type := mkLinkState {
  ls_db : DB;
  num_linked : nat;
  num_failed : nat;
  link_results : list (list (string * cell))
}.

Inductive link_outcome : Type :=
| LinkConfigurationError
| LinkAPIError
| LinkCompleted (st : link_state).

(** The loop building [isbn_index] and [asin_index]. *)
Fixpoint index_identifiers (abs_items : list pyval)
    (isbn_index asin_index : list (pyval * list pyval))
  : option (list (pyval * list pyval) * list (pyval * list pyval)) :=
  match abs_items with
  | [] => Some (isbn_index, asin_index)
  | item :: rest =>
      media ← py_get_default item "media" (PDict []);
      metadata_item ← py_get_default media "metadata" (PDict []);
      isbn ← py_get metadata_item "isbn";
      asin ← py_get metadata_item "asin";
      isbn_index' ← (if py_truthy isbn then KDict.append isbn item isbn_index
                      else Some isbn_index);
      asin_index' ← (if py_truthy asin then KDict.append asin item asin_index
                      else Some asin_index);
      index_identifiers rest isbn_index' asin_index'
  end.

(** [key and key in index and len(index[key]) == 1], giving [index[key][0]]
    when the test holds. *)
Definition unique_match (key : pyval) (index : list (pyval * list pyval))
  : option (option pyval) :=
  if py_truthy key then
    found ← KDict.lookup key index;
    Some (match found with
          | Some [item] => Some item
          | _ => None
          end)
  else Some None.

(** The [if ... elif ...] choosing [matched_item]: ISBN first, ASIN only
    when the ISBN test fails. *)
Definition find_match (book_isbn book_asin : pyval)
    (isbn_index asin_index : list (pyval * list pyval)) : option (option pyval) :=
  by_isbn ← unique_match book_isbn isbn_index;
  match by_isbn with
  | Some item => Some (Some item)
  | None => unique_match book_asin asin_index
  end.

(** [item.get('media', {}).get('metadata', {}).get(key, dflt)] *)
Definition item_metadata_get (item : pyval) (key : string) (dflt : pyval) : option pyval :=
  media ← py_get_default item "media" (PDict []);
  metadata ← py_get_default media "metadata" (PDict []);
  py_get_default metadata key dflt.

(** The body of the loop of [quick_link_books] over [all_book_ids]. *)
Definition quick_link_book (isbn_index asin_index : list (pyval * list pyval))
    (book_id : Z) (st : link_state) : option link_state :=
  let metadata := get_metadata (ls_db st) book_id in
  let identifiers := md_identifiers metadata in
  if Dict.mem "audiobookshelf_id" identifiers then Some st
  else
    let book_isbn := default PNone (Dict.get "isbn" identifiers) in
    let book_asin := default PNone (Dict.get "asin" identifiers) in
    matched ← find_match book_isbn book_asin isbn_index asin_index;
    let matched_item := default PNone matched in
    if py_truthy matched_item then
      abs_id ← py_get matched_item "id";
      abs_title ← item_metadata_get matched_item "title" (PStr "Unknown Title");
      let metadata' :=
        md_set_identifiers metadata (Dict.set "audiobookshelf_id" abs_id identifiers) in
      Some {| ls_db := set_metadata (ls_db st) book_id metadata';
              num_linked := S (num_linked st);
              num_failed := num_failed st;
              link_results := link_results st ++
                [[("title", CValue (book_title metadata' book_id));
                  ("linked", CLinkedTo abs_title)]] |}
    else
      Some {| ls_db := ls_db st;
              num_linked := num_linked st;
              num_failed := S (num_failed st);
              link_results := link_results st ++
                [[("title", CValue (book_title metadata book_id));
                  ("error", CText "No unique match found")]] |}.

Fixpoint quick_link_loop (isbn_index asin_index : list (pyval * list pyval))
    (all_book_ids : list Z) (st : link_state) : option link_state :=
  match all_book_ids with
  | [] => Some st
  | book_id :: rest =>
      st' ← quick_link_book isbn_index asin_index book_id st;
      quick_link_loop isbn_index asin_index rest st'
  end.

(** [quick_link_books], from the configuration, the items payload and the
    database. *)
Definition quick_link_books (CONFIG : gmap string string) (items_data : pyval) (db : DB)
  : option link_outcome :=
  if String.eqb (config_get CONFIG "abs_key") ""
     || String.eqb (config_get CONFIG "abs_library_id") ""
  then Some LinkConfigurationError
  else if is_none items_data then Some LinkAPIError
  else
    abs_items ← py_iter (unwrap_items items_data);
    '(isbn_index, asin_index) ← index_identifiers abs_items [] [];
    st ← quick_link_loop isbn_index asin_index (db_search db)
           {| ls_db := db; num_linked := 0; num_failed := 0; link_results := [] |};
    Some (LinkCompleted st).

(** ** The ordering of the link dialog *)

(** [v.lower()], an [AttributeError] when [v] is not a string. On a string
    it is Python's own lowering, which follows the Unicode case mapping: the
    definitions below take it as the parameter [lower]. *)
Definition py_lower (lower : string -> string) (v : pyval) : option string :=
  match v with
  | PStr s => Some (lower s)
  | _ => None
  end.

(** [calibre_title] as the dialog computes it. *)
Definition dialog_title (lower : string -> string) (calibre_metadata : option Metadata)
  : option string :=
  match calibre_metadata with
  | Some md => py_lower lower (md_get_default md "title" (PStr ""))
  | None => Some ""
  end.

(** [calibre_authors] as the dialog computes it: a single string becomes a
    one-element list, and every author is lowercased. *)
Definition dialog_authors (lower : string -> string) (calibre_metadata : option Metadata)
  : option (list string) :=
  match calibre_metadata with
  | Some md =>
      let authors := md_get_default md "authors" (PList []) in
      authors_list ← match authors with
                      | PStr _ => Some [authors]
                      | _ => py_iter authors
                      end;
      mapM (py_lower lower) authors_list
  | None => Some []
  end.

(** The score of [sort_key]: one point for the title, one for the author. *)
Definition match_score (calibre_title : string) (calibre_authors : list string)
    (abs_title abs_author : string) : Z :=
  (if String.eqb abs_title calibre_title then 1 else 0)
  + (if existsb (String.eqb abs_author) calibre_authors then 1 else 0).

(** [sort_key(item)] *)
Definition sort_key (lower : string -> string) (calibre_title : string)
    (calibre_authors : list string) (item : pyval)
  : option (Z * string) :=
  abs_title ← item_metadata_get item "title" (PStr "") ≫= py_lower lower;
  abs_author ← item_metadata_get item "authorName" (PStr "") ≫= py_lower lower;
  Some (- match_score calibre_title calibre_authors abs_title abs_author, abs_title).

(** [a < b] on the tuples [sort_key] returns. *)
Definition key_ltb (a b : Z * string) : bool :=
  Z.ltb (fst a) (fst b) || (Z.eqb (fst a) (fst b) && String.ltb (snd a) (snd b)).

Section Sorted.
Context {A : Type}.

Fixpoint insert_keyed (x : (Z * string) * A) (l : list ((Z * string) * A))
  : list ((Z * string) * A) :=
  match l with
  | [] => [x]
  | y :: l' => if key_ltb (fst y) (fst x) then y :: insert_keyed x l' else x :: y :: l'
  end.

(** The stable ascending sort on the computed keys. *)
Definition sort_keyed (l : list ((Z * string) * A)) : list ((Z * string) * A) :=
  fold_right insert_keyed [] l.

(** [sorted(items, key=key)]: the key of every item is computed first. *)
Definition py_sorted (key : A -> option (Z * string)) (items : list A) : option (list A) :=
  keyed ← mapM (fun item => k ← key item; Some (k, item)) items;
  Some (map snd (sort_keyed keyed)).
End Sorted.

(** The order in which [LinkDialog] shows the items. *)
Definition link_dialog_items (lower : string -> string) (calibre_metadata : option Metadata)
    (items : list pyval)
  : option (list pyval) :=
  calibre_title ← dialog_title lower calibre_metadata;
  calibre_authors ← dialog_authors lower calibre_metadata;
  py_sorted (sort_key lower calibre_title calibre_authors) items.

(** ** Reading the definitions *)

(** The object a column reads, by its [api_source]; a column with another
    source has nothing to read. *)
Definition source_data (col : col_meta) (progress_data item_data me_data : pyval) : pyval :=
  if String.eqb (api_source col) "mediaProgress" then progress_data
  else if String.eqb (api_source col) "lib_items" then item_data
  else if String.eqb (api_source col) "me" then me_data
  else PNone.

(** The one column with a default: "Audiobook Started" read from the
    media progress. *)
Definition has_started_default (col : col_meta) : bool :=
  String.eqb (api_source col) "mediaProgress"
  && String.eqb (column_heading col) "Audiobook Started".

(** The destination columns of the configured entries of the table. *)
Definition destinations (CONFIG : gmap string string) (COLUMNS : list (string * col_meta))
  : list string :=
  filter (fun k => k <> "") (map (fun entry => config_get CONFIG (fst entry)) COLUMNS).

(** The counts and rows of a completed run: updated, skipped, failed. *)
Definition sync_report (o : option sync_outcome)
  : option (nat * nat * nat * list (list (string * cell))) :=
  match o with
  | Some (SyncCompleted st) => Some (num_success st, num_skip st, num_fail st, results st)
  | _ => None
  end.

Definition sync_db (o : option sync_outcome) : option DB :=
  match o with
  | Some (SyncCompleted st) => Some (st_db st)
  | _ => None
  end.

(** The counts and rows of a completed linking run: linked, failed. *)
Definition link_report (o : option link_outcome)
  : option (nat * nat * list (list (string * cell))) :=
  match o with
  | Some (LinkCompleted st) => Some (num_linked st, num_failed st, link_results st)
  | _ => None
  end.

Definition link_db (o : option link_outcome) : option DB :=
  match o with
  | Some (LinkCompleted st) => Some (ls_db st)
  | _ => None
  end.

(** The remote identifier a record is linked to, [None] when it has none. *)
Definition abs_id_of (metadata : Metadata) : pyval :=
  default PNone (Dict.get "audiobookshelf_id" (md_identifiers metadata)).

(** The books a sync run processes: those whose remote identifier is set. *)
Definition linked_ids (db : DB) : list Z :=
  List.filter (fun book_id => py_truthy (abs_id_of (get_metadata db book_id))) (db_search db).

(** Whether a payload entry carries the identifier [k] under [key]: the
    test by which the index loops file an entry under [k]. *)
Definition carries (key : string) (k : pyval) (entry : pyval) : bool :=
  match py_get entry key with
  | Some entry_id => py_truthy entry_id && py_eq k entry_id
  | None => false
  end.

(** The sum of the three counts of a run. *)
Definition tally (st : sync_state) : nat :=
  (num_success st + num_skip st + num_fail st)%nat.

(** Whether every supplied value equals ([==]) the value the record holds
    under its key. *)
Definition all_unchanged (metadata : Metadata) (kvs : list (string * pyval)) : bool :=
  forallb (fun kv => py_eq (snd kv) (md_get metadata (fst kv))) kvs.

(** Whether a remote item has the identifier [k] as its ISBN or ASIN
    ([field]): the test by which [index_identifiers] files it under [k]. *)
Definition shares (field : string) (k : pyval) (item : pyval) : bool :=
  match item_metadata_get item field PNone with
  | Some value => py_truthy value && py_eq k value
  | None => false
  end.

(** The remote item that alone shares the identifier [k] of a record, when
    the record has that identifier and exactly one item shares it. *)
Definition unique_sharing (field : string) (k : pyval) (items : list pyval) : option pyval :=
  if py_truthy k then
    match List.filter (shares field k) items with
    | [item] => Some item
    | _ => None
    end
  else None.

(** The turn of the linking loop that took [st] to [st'] linked the book
    to [item]: the remote identifier of the item is written into the
    identifiers of the book, which are otherwise as before, and the run
    counts one more linked book. *)
Definition links_to (st st' : link_state) (book_id : Z) (item : pyval) : Prop :=
  exists abs_id,
    py_get item "id" = Some abs_id
    /\ md_identifiers (get_metadata (ls_db st') book_id)
       = Dict.set "audiobookshelf_id" abs_id
           (md_identifiers (get_metadata (ls_db st) book_id))
    /\ num_linked st' = S (num_linked st)
    /\ num_failed st' = num_failed st.

(** The state after a turn of the linking loop that found no match. *)
Definition no_match (st : link_state) (book_id : Z) : link_state :=
  {| ls_db := ls_db st;
     num_linked := num_linked st;
     num_failed := S (num_failed st);
     link_results := link_results st ++
       [[("title", CValue (book_title (get_metadata (ls_db st) book_id) book_id));
         ("error", CText "No unique match found")]] |}.

(** [a <= b] on the keyed items the sort works on: [b]'s key is not below
    [a]'s. *)
Definition keyed_le {A : Type} (a b : (Z * string) * A) : Prop :=
  key_ltb (fst b) (fst a) = false.

(** The lowercased title or author name [sort_key] reads from an item. *)
Definition item_lower (lower : string -> string) (item : pyval) (key : string)
  : option string :=
  item_metadata_get item key (PStr "") ≫= py_lower lower.

(** The score of a candidate in the words of the specification: one point
    for a lowercased title equal to the lowercased title of the record, plus
    one point for a lowercased author name that is a member of the
    lowercased authors of the record. *)
Definition spec_score (calibre_title : string) (calibre_authors : list string)
    (title author : string) : nat :=
  ((if decide (title = calibre_title) then 1 else 0)
   + (if decide (author ∈ calibre_authors) then 1 else 0))%nat.

(** [a] may come before [b] in the dialog: [a] scores more, or they score
    the same and the lowercased title of [a] is not after that of [b]. *)
Definition ranked_before (lower : string -> string) (calibre_title : string)
    (calibre_authors : list string) (a b : pyval) : Prop :=
  match item_lower lower a "title", item_lower lower a "authorName",
        item_lower lower b "title", item_lower lower b "authorName" with
  | Some title_a, Some author_a, Some title_b, Some author_b =>
      (spec_score calibre_title calibre_authors title_b author_b
       < spec_score calibre_title calibre_authors title_a author_a)%nat
      \/ (spec_score calibre_title calibre_authors title_a author_a
          = spec_score calibre_title calibre_authors title_b author_b
          /\ String.leb title_a title_b = true)
  | _, _, _, _ => False
  end.

(** A payload entry the index loops accept: a dictionary whose identifier
    under [key], when it is set, can be a dictionary key. *)
Definition indexable (key : string) (entry : pyval) : Prop :=
  exists entry_id,
    py_get entry key = Some entry_id
    /\ (py_truthy entry_id = true -> py_hashable entry_id = true).

(** A remote item [index_identifiers] accepts. *)
Definition item_indexable (item : pyval) : Prop :=
  exists isbn asin,
    item_metadata_get item "isbn" PNone = Some isbn
    /\ item_metadata_get item "asin" PNone = Some asin
    /\ (py_truthy isbn = true -> py_hashable isbn = true)
    /\ (py_truthy asin = true -> py_hashable asin = true).

(** The identifier of a book under [key], [None] when it has none. *)
Definition identifier_of (key : string) (metadata : Metadata) : pyval :=
  default PNone (Dict.get key (md_identifiers metadata)).

(** The keys of an update set whose value differs ([!=]) from the one the
    record holds, in the order of the update set. *)
Definition changed_keys (metadata : Metadata) (kvs : list (string * pyval)) : list string :=
  map fst (List.filter (fun kv => negb (py_eq (snd kv) (md_get metadata (fst kv)))) kvs).

(** The books a linking run processes: those whose identifiers have no
    remote identifier. *)
Definition unlinked_ids (db : DB) : list Z :=
  List.filter
    (fun book_id =>
       negb (Dict.mem "audiobookshelf_id" (md_identifiers (get_metadata db book_id))))
    (db_search db).

(** A book the linking loop has nothing to do for: it has a remote
    identifier, or its ISBN and ASIN find no match in the indexes. *)
Definition settled (isbn_index asin_index : list (pyval * list pyval)) (metadata : Metadata)
  : Prop :=
  Dict.mem "audiobookshelf_id" (md_identifiers metadata) = true
  \/ exists matched,
       find_match (identifier_of "isbn" metadata) (identifier_of "asin" metadata)
         isbn_index asin_index = Some matched
       /\ py_truthy (default PNone matched) = false.

(** ** Linking by hand *)

(** [isinstance(item, dict)] *)
Definition is_dict (v : pyval) : bool :=
  match v with
  | PDict _ => true
  | _ => false
  end.

(** [key in v] for a string [key]: a key of a dictionary, an element of a
    list, a substring of a string, and a [TypeError] on anything else. *)
Definition py_contains (key : string) (v : pyval) : option bool :=
  match v with
  | PDict d => Some (Dict.mem key d)
  | PList l => Some (existsb (py_eq (PStr key)) l)
  | PStr s => Some (match String.index 0 key s with Some _ => true | None => false end)
  | _ => None
  end.

(** [v[key]] for a string [key]: only a dictionary that has the key gives a
    value. *)
Definition py_getitem (v : pyval) (key : string) : option pyval :=
  match v with
  | PDict d => Dict.get key d
  | _ => None
  end.

(** The set comprehension of [LinkDialog.__init__]: the truthy
    [libraryItemId] of every progress record. *)
Fixpoint collect_reading_ids (media_progress : list pyval) : option (list pyval) :=
  match media_progress with
  | [] => Some []
  | prog :: rest =>
      lib_item_id ← py_get prog "libraryItemId";
      if py_truthy lib_item_id then
        if py_hashable lib_item_id then
          ids ← collect_reading_ids rest;
          Some (lib_item_id :: ids)
        else None
      else collect_reading_ids rest
  end.

(** [reading_ids], a set, kept as the list of its members. *)
Definition reading_ids (me_data : pyval) : option (list pyval) :=
  if py_truthy me_data then
    has_progress ← py_contains "mediaProgress" me_data;
    if (has_progress : bool) then
      media_progress ← py_getitem me_data "mediaProgress";
      progress_list ← py_iter media_progress;
      collect_reading_ids progress_list
    else Some []
  else Some [].

(** A row of the table of the dialog: the title and the author of the item,
    each with whether it is highlighted, and whether the row carries the
    reading mark. *)
Record dialog_row : Type := mkDialogRow {
  row_title : pyval;
  row_title_highlighted : bool;
  row_author : pyval;
  row_author_highlighted : bool;
  row_reading : bool
}.

(** The body of the loop of [LinkDialog.__init__] over the sorted items. *)
Definition make_dialog_row (lower : string -> string) (calibre_title : string)
    (calibre_authors : list string)
    (ids : list pyval) (item : pyval) : option dialog_row :=
  abs_title ← item_metadata_get item "title" (PStr "");
  abs_author ← item_metadata_get item "authorName" (PStr "");
  title_lower ← py_lower lower abs_title;
  author_lower ← py_lower lower abs_author;
  item_id ← py_get item "id";
  if py_hashable item_id then
    Some {| row_title := abs_title;
            row_title_highlighted := String.eqb title_lower calibre_title;
            row_author := abs_author;
            row_author_highlighted := existsb (String.eqb author_lower) calibre_authors;
            row_reading := existsb (py_eq item_id) ids |}
  else None.

(** What a constructed [LinkDialog] holds: [self.items] and the rows of
    [self.table]. *)
Record LinkDialog : Type := mkLinkDialog {
  dlg_items : list pyval;
  dlg_table : list dialog_row
}.

(** [LinkDialog.__init__]; [None] for an exception that escapes it. The
    text of the label is not kept: joining the authors raises only on a
    list with an author that is not a string, where [dialog_authors] raises
    too. *)
Definition link_dialog_init (lower : string -> string) (items : list pyval)
    (calibre_metadata : option Metadata)
    (me_data : pyval) : option LinkDialog :=
  calibre_title ← dialog_title lower calibre_metadata;
  calibre_authors ← dialog_authors lower calibre_metadata;
  sorted_items ← py_sorted (sort_key lower calibre_title calibre_authors) items;
  ids ← reading_ids me_data;
  table ← mapM (make_dialog_row lower calibre_title calibre_authors ids) sorted_items;
  Some {| dlg_items := sorted_items; dlg_table := table |}.

(** How the user leaves the dialog: closing it, the Skip button, or Link
    (or a double click) with [row] the current row of the table. *)
Inductive dialog_answer : Type :=
| DialogRejected
| DialogSkip
| DialogLink (row : Z).

(** [dlg.exec_()] *)
Definition dialog_accepted (answer : dialog_answer) : bool :=
  match answer with
  | DialogRejected => false
  | _ => true
  end.

(** [get_selected_item()] after [link] or [skip] *)
Definition selected_item_of (items : list pyval) (answer : dialog_answer) : pyval :=
  match answer with
  | DialogLink row =>
      if Z.leb 0 row && Z.ltb row (Z.of_nat (length items))
      then nth (Z.to_nat row) items PNone
      else PNone
  | _ => PNone
  end.

(** The [summary] of [link_audiobookshelf_book], with the database. *)
Record link_summary : Type := mkSummary {
  sm_db : DB;
  sm_linked : nat;
  sm_skipped : nat;
  sm_failed : nat;
  sm_details : list (list (string * cell))
}.

Definition summary_skip (summary : link_summary) (title : pyval) (how : string)
  : link_summary :=
  {| sm_db := sm_db summary;
     sm_linked := sm_linked summary;
     sm_skipped := S (sm_skipped summary);
     sm_failed := sm_failed summary;
     sm_details := sm_details summary ++
       [[("title", CValue title); ("mapped_title", CValue (PStr ""));
         ("skipped", CText how)]] |}.

(** The body of the loop over [selected_ids]; [choice] is a selected book
    with the answer the user gives to its dialog. *)
Definition link_book (lower : string -> string) (sorted_items : list pyval)
    (me_data : pyval)
    (choice : Z * dialog_answer) (summary : link_summary) : option link_summary :=
  let book_id := fst choice in
  let answer := snd choice in
  let metadata := get_metadata (sm_db summary) book_id in
  let title := book_title metadata book_id in
  dlg ← link_dialog_init lower sorted_items (Some metadata) me_data;
  if dialog_accepted answer then
    let selected_item := selected_item_of (dlg_items dlg) answer in
    if py_truthy selected_item then
      abs_id ← py_get selected_item "id";
      abs_title ← item_metadata_get selected_item "title" (PStr "Unknown Title");
      let identifiers := md_identifiers metadata in
      let metadata' :=
        md_set_identifiers metadata (Dict.set "audiobookshelf_id" abs_id identifiers) in
      Some {| sm_db := set_metadata (sm_db summary) book_id metadata';
              sm_linked := S (sm_linked summary);
              sm_skipped := sm_skipped summary;
              sm_failed := sm_failed summary;
              sm_details := sm_details summary ++
                [[("title", CValue title); ("mapped_title", CValue abs_title);
                  ("linked", CText "Linked successfully")]] |}
    else Some (summary_skip summary title "Skipped by user")
  else Some (summary_skip summary title "Dialog cancelled").

Fixpoint link_books (lower : string -> string) (sorted_items : list pyval)
    (me_data : pyval)
    (selected : list (Z * dialog_answer)) (summary : link_summary) : option link_summary :=
  match selected with
  | [] => Some summary
  | choice :: rest =>
      summary' ← link_book lower sorted_items me_data choice summary;
      link_books lower sorted_items me_data rest summary'
  end.

(** [sorted(filtered_items, key=lambda x: ...title.lower())]: the string
    key [s] is ordered as the pair [(0, s)]. *)
Definition sort_by_title (lower : string -> string) (items : list pyval)
  : option (list pyval) :=
  py_sorted (fun item => title ← item_lower lower item "title"; Some (0, title)) items.

Inductive manual_outcome : Type :=
| ManualConfigurationError
| ManualItemsError
| ManualUserDataError
| ManualNoSelection
| ManualCompleted (summary : link_summary).

(** [link_audiobookshelf_book], from the configuration, the two payloads
    [api_request] returned, the database and the selected books, each with
    the answer the user gives to its dialog. *)
Definition link_audiobookshelf_book (lower : string -> string)
    (CONFIG : gmap string string)
    (items_data me_data : pyval) (db : DB) (selected : list (Z * dialog_answer))
  : option manual_outcome :=
  if String.eqb (config_get CONFIG "abs_key") ""
     || String.eqb (config_get CONFIG "abs_library_id") ""
  then Some ManualConfigurationError
  else if is_none items_data then Some ManualItemsError
  else if is_none me_data then Some ManualUserDataError
  else
    items_list ← py_iter (unwrap_items items_data);
    let filtered_items := List.filter is_dict items_list in
    sorted_items ← sort_by_title lower filtered_items;
    match selected with
    | [] => Some ManualNoSelection
    | _ =>
        summary ← link_books lower sorted_items me_data selected
                    {| sm_db := db; sm_linked := 0; sm_skipped := 0; sm_failed := 0;
                       sm_details := [] |};
        Some (ManualCompleted summary)
    end.

(** The item the user's answer picks for a book with the record
    [metadata], when the dialog is given [items]. *)
Definition chosen_item (lower : string -> string) (items : list pyval) (metadata : Metadata)
    (answer : dialog_answer)
  : pyval :=
  selected_item_of (default [] (link_dialog_items lower (Some metadata) items)) answer.

(** The record of a book after its dialog was answered by an item: only
    its remote identifier is set, to the [id] of the item. *)
Definition linked_to (metadata : Metadata) (item : pyval) : Metadata :=
  md_set_identifiers metadata
    (Dict.set "audiobookshelf_id" (default PNone (py_get item "id"))
       (md_identifiers metadata)).

(** A remote item the dialog can show: its title and its author name can be
    lowercased, and its [id] can be looked up in a set. *)
Definition item_showable (lower : string -> string) (item : pyval) : Prop :=
  is_Some (item_lower lower item "title")
  /\ is_Some (item_lower lower item "authorName")
  /\ exists item_id, py_get item "id" = Some item_id /\ py_hashable item_id = true.

(** A book whose title and authors the dialog can lowercase. *)
Definition book_comparable (lower : string -> string) (metadata : Metadata) : Prop :=
  is_Some (dialog_title lower (Some metadata))
  /\ is_Some (dialog_authors lower (Some metadata)).

(** ** The table of a report *)

(** [all_headers.update(result.keys())]: the set is kept as the list of its
    members; the order has no part in what follows, which sorts them. *)
Definition add_header (all_headers : list string) (h : string) : list string :=
  if existsb (String.eqb h) all_headers then all_headers else all_headers ++ [h].

Definition all_headers (results : list (list (string * cell))) : list string :=
  fold_left (fun acc result => fold_left add_header (Dict.keys result) acc) results [].

(** [h not in ('title', 'error', 'linked', 'skipped')] *)
Definition is_custom_column (h : string) : bool :=
  negb (existsb (String.eqb h) ["title"; "error"; "linked"; "skipped"]).

(** [sorted] on strings: the key [s] is ordered as the pair [(0, s)]. *)
Definition sorted_strings (l : list string) : list string :=
  map snd (sort_keyed (map (fun h => ((0, h), h)) l)).

(** [headers] as [create_results_table] arranges them. *)
Definition table_headers (results : list (list (string * cell))) : list string :=
  let all := all_headers results in
  let custom_columns := sorted_strings (List.filter is_custom_column all) in
  ["title"] ++ custom_columns
  ++ (if existsb (String.eqb "linked") all then ["linked"] else [])
  ++ (if existsb (String.eqb "skipped") all then ["skipped"] else [])
  ++ ["error"].

(** The cells of the table, row by row: [result.get(key, "")], with [None]
    for the empty default. *)
Definition create_results_table (results : list (list (string * cell)))
  : list (list (option cell)) :=
  map (fun result => map (fun key => Dict.get key result) (table_headers results)) results.

(** ** A small library to run the definitions on *)

Module Sample.
(** The lowering of the examples, whose strings are ASCII: [s.lower()]
    changes the letters [A] to [Z] of such a string and nothing else. *)
Definition ascii_lower (c : ascii) : ascii :=
  let n := nat_of_ascii c in
  if Nat.leb 65 n && Nat.leb n 90 then ascii_of_nat (n + 32) else c.

Fixpoint lower (s : string) : string :=
  match s with
  | EmptyString => EmptyString
  | String c s' => String (ascii_lower c) (lower s')
  end.

Definition remote_item (id title author isbn asin : string) : pyval :=
  PDict [("id", PStr id);
         ("media", PDict [("metadata",
            PDict [("title", PStr title); ("authorName", PStr author);
                   ("isbn", PStr isbn); ("asin", PStr asin)])])].

Definition dune : pyval :=
  remote_item "li_dune" "Dune" "Frank Herbert" "9780441013593" "B00B7NPRY8".

Definition emma : pyval :=
  remote_item "li_emma" "Emma" "Jane Austen" "9780141439587" "B002RI9KAE".

Definition started_column : col_meta :=
  {| column_heading := "Audiobook Started";
     data_location := ["startedAt"];
     api_source := "mediaProgress";
     transform := None |}.

Definition progress_column : col_meta :=
  {| column_heading := "Audiobook Progress";
     data_location := ["progress"];
     api_source := "mediaProgress";
     transform := None |}.

Definition COLUMNS : list (string * col_meta) :=
  [("column_audiobook_started", started_column);
   ("column_audiobook_progress", progress_column)].

Definition CONFIG : gmap string string :=
  {[ "abs_key" := "secret"; "abs_library_id" := "main";
     "column_audiobook_started" := "#abs_started";
     "column_audiobook_progress" := "#abs_progress" ]}.

(** A book linked to [dune]. *)
Definition linked_book : Metadata :=
  {| md_fields := {[ "title" := PStr "Dune"; "uuid" := PStr "uuid-1" ]};
     md_identifiers := [("audiobookshelf_id", PStr "li_dune")] |}.

Definition library : DB := {| db_books := {[ 1 := linked_book ]}; db_writes := [] |}.

(** A book linked to an item the server no longer has, a book not linked
    yet, and a database with all three. *)
Definition stale_book : Metadata :=
  {| md_fields := {[ "title" := PStr "Persuasion"; "uuid" := PStr "uuid-2" ]};
     md_identifiers := [("audiobookshelf_id", PStr "li_gone")] |}.

Definition unlinked_book : Metadata :=
  {| md_fields := {[ "title" := PStr "Emma"; "uuid" := PStr "uuid-3";
                     "authors" := PList [PStr "Jane Austen"] ]};
     md_identifiers := [("isbn", PStr "9780141439587")] |}.

Definition shelf : DB :=
  {| db_books := {[ 1 := linked_book; 2 := stale_book; 3 := unlinked_book ]};
     db_writes := [] |}.

(** The state in which the loop of a sync run starts. *)
Definition start (db : DB) : sync_state :=
  {| st_db := db; num_success := 0; num_fail := 0; num_skip := 0; results := [] |}.

(** The profile payload with no progress record at all, and with one for
    [dune] that has a progress fraction but no [startedAt]. *)
Definition me_no_progress : pyval := PDict [("mediaProgress", PList [])].

Definition dune_progress : pyval :=
  PDict [("libraryItemId", PStr "li_dune"); ("progress", PFloat (42 # 100))].

Definition me_with_progress : pyval := PDict [("mediaProgress", PList [dune_progress])].

(** A table and a configuration that send two columns to one destination,
    and a progress record with a value for each. *)
Definition position_column : col_meta :=
  {| column_heading := "Audiobook Position";
     data_location := ["currentTime"];
     api_source := "mediaProgress";
     transform := None |}.

Definition COLUMNS_shared : list (string * col_meta) :=
  [("column_audiobook_progress", progress_column);
   ("column_audiobook_position", position_column)].

Definition CONFIG_shared : gmap string string :=
  {[ "abs_key" := "secret"; "abs_library_id" := "main";
     "column_audiobook_progress" := "#abs_value";
     "column_audiobook_position" := "#abs_value" ]}.

Definition dune_position : pyval :=
  PDict [("libraryItemId", PStr "li_dune"); ("progress", PFloat (42 # 100));
         ("currentTime", PInt 100)].

(** A second edition of [emma] with the same ISBN, the indexes of the
    fetches used below, and the state in which the linking loop starts. *)
Definition emma_again : pyval :=
  remote_item "li_emma_2" "Emma" "Jane Austen" "9780141439587" "B07EMMA002".

Definition isbn_index : list (pyval * list pyval) :=
  [(PStr "9780441013593", [dune]); (PStr "9780141439587", [emma])].

Definition asin_index : list (pyval * list pyval) :=
  [(PStr "B00B7NPRY8", [dune]); (PStr "B002RI9KAE", [emma])].

Definition isbn_index_twice : list (pyval * list pyval) :=
  [(PStr "9780441013593", [dune]); (PStr "9780141439587", [emma; emma_again])].

Definition asin_index_twice : list (pyval * list pyval) :=
  [(PStr "B00B7NPRY8", [dune]); (PStr "B002RI9KAE", [emma]);
   (PStr "B07EMMA002", [emma_again])].

Definition link_start (db : DB) : link_state :=
  {| ls_db := db; num_linked := 0; num_failed := 0; link_results := [] |}.

(** A book linked to [dune] that carries no uuid, alone in a database. *)
Definition nameless_book : Metadata :=
  {| md_fields := {[ "title" := PStr "Dune Messiah" ]};
     md_identifiers := [("audiobookshelf_id", PStr "li_dune")] |}.

Definition nameless_shelf : DB := {| db_books := {[ 7 := nameless_book ]}; db_writes := [] |}.

(** A fetch in which a later entry repeats the identifier of [dune]. *)
Definition dune_reissue : pyval :=
  remote_item "li_dune" "Dune (reissue)" "Frank Herbert" "9780441013593" "B00B7NPRY8".

(** The state in which the sync run over [shelf] with the fetch [[dune]]
    ends. *)
Definition synced : sync_state :=
  {| st_db := fst (update_metadata shelf (PStr "uuid-1")
                     [("#abs_started", PBool true); ("#abs_progress", PFloat (42 # 100))]);
     num_success := 1;
     num_fail := 0;
     num_skip := 1;
     results :=
       [[("title", CValue (PStr "Persuasion"));
         ("error", CText "Audiobookshelf item not found")];
        [("title", CValue (PStr "Dune"));
         ("Audiobook Started", CChange PNone (PBool true));
         ("Audiobook Progress", CChange PNone (PFloat (42 # 100)))]] |}.


(** A book whose ISBN no fetched item has, a database with a linked book, a
    book to link and that one, the items payload of the server, and the
    state in which the linking run over them ends. *)
Definition orphan_book : Metadata :=
  {| md_fields := {[ "title" := PStr "Ulysses"; "uuid" := PStr "uuid-4" ]};
     md_identifiers := [("isbn", PStr "9780199535675")] |}.

Definition mixed_shelf : DB :=
  {| db_books := {[ 1 := linked_book; 3 := unlinked_book; 4 := orphan_book ]};
     db_writes := [] |}.

Definition fetched : pyval := PDict [("results", PList [dune; emma])].

Definition quick_linked : link_state :=
  {| ls_db := set_metadata mixed_shelf 3
                (md_set_identifiers unlinked_book
                   [("isbn", PStr "9780141439587"); ("audiobookshelf_id", PStr "li_emma")]);
     num_linked := 1;
     num_failed := 1;
     link_results :=
       [[("title", CValue (PStr "Emma")); ("linked", CLinkedTo (PStr "Emma"))];
        [("title", CValue (PStr "Ulysses")); ("error", CText "No unique match found")]] |}.


(** A second item with the title and the author of [dune]. *)
Definition dune_reissue_same_title : pyval :=
  remote_item "li_dune_2" "Dune" "Frank Herbert" "9780441172719" "B0DUNE0002".


(** The answers of a user to the dialogs of three selected books: the
    second row for a book linked before, closing the dialog of the next, and
    a row the table does not have for the last; and the summary in which
    the run over them ends. *)
Definition answers : list (Z * dialog_answer) :=
  [(1, DialogLink 1); (3, DialogRejected); (4, DialogLink 5)].

Definition hand_linked : link_summary :=
  {| sm_db := set_metadata mixed_shelf 1 (linked_to linked_book emma);
     sm_linked := 1;
     sm_skipped := 2;
     sm_failed := 0;
     sm_details :=
       [[("title", CValue (PStr "Dune")); ("mapped_title", CValue (PStr "Emma"));
         ("linked", CText "Linked successfully")];
        [("title", CValue (PStr "Emma")); ("mapped_title", CValue (PStr ""));
         ("skipped", CText "Dialog cancelled")];
        [("title", CValue (PStr "Ulysses")); ("mapped_title", CValue (PStr ""));
         ("skipped", CText "Skipped by user")]] |}.

(** A book linked to [dune] that holds the position 100 in the column the
    shared configuration writes. *)
Definition positioned_book : Metadata :=
  {| md_fields := {[ "title" := PStr "Dune"; "uuid" := PStr "uuid-1";
                     "#abs_value" := PInt 100 ]};
     md_identifiers := [("audiobookshelf_id", PStr "li_dune")] |}.
End Sample.

(** * Properties *)

(** ** Python values *)

(** Induction over values that reaches inside lists and dictionaries. *)
Lemma pyval_ind (P : pyval -> Prop) :
  P PNone ->
  (forall b, P (PBool b)) ->
  (forall n, P (PInt n)) ->
  (forall q, P (PFloat q)) ->
  (forall s, P (PStr s)) ->
  (forall l, Forall P l -> P (PList l)) ->
  (forall d, Forall (fun kv => P (snd kv)) d -> P (PDict d)) ->
  forall v, P v.
Proof.
  intros HN HB HI HF HS HL HD. fix IH 1.
  intros [ | b | n | q | s | l | d].
  - exact HN.
  - apply HB.
  - apply HI.
  - apply HF.
  - apply HS.
  - apply HL. induction l as [| x l IHl]; constructor; [apply IH | exact IHl].
  - apply HD. induction d as [| [k x] d IHd]; constructor; [apply IH | exact IHd].
Qed.

Module DictFacts.
Section Facts.
Context {V : Type}.
Implicit Types (d : list (string * V)) (k : string) (v : V).

Lemma get_set_eq k v d : Dict.get k (Dict.set k v d) = Some v.
Proof.
  induction d as [| [k' v'] d IH]; simpl.
  - by rewrite String.eqb_refl.
  - destruct (String.eqb k k') eqn:E; simpl; rewrite ?String.eqb_refl, ?E; done.
Qed.

Lemma get_set_ne k k' v d : k <> k' -> Dict.get k (Dict.set k' v d) = Dict.get k d.
Proof.
  intros Hne. apply String.eqb_neq in Hne.
  induction d as [| [k0 v0] d IH]; simpl.
  - by rewrite Hne.
  - destruct (String.eqb k' k0) eqn:E; simpl.
    + apply String.eqb_eq in E. subst k0. by rewrite Hne.
    + by rewrite IH.
Qed.

Lemma get_set k k' v d :
  Dict.get k (Dict.set k' v d) = if String.eqb k k' then Some v else Dict.get k d.
Proof.
  destruct (String.eqb k k') eqn:E.
  - apply String.eqb_eq in E. subst. apply get_set_eq.
  - apply String.eqb_neq in E. by apply get_set_ne.
Qed.

Lemma get_app_None k d d' : Dict.get k d = None -> Dict.get k (d ++ d') = Dict.get k d'.
Proof.
  induction d as [| [k0 v0] d IH]; simpl; [done |].
  destruct (String.eqb k k0); [done | exact IH].
Qed.

Lemma get_None_keys k d : Dict.get k d = None <-> ~ In k (Dict.keys d).
Proof.
  induction d as [| [k0 v0] d IH]; simpl; [tauto |].
  destruct (String.eqb k k0) eqn:E.
  - apply String.eqb_eq in E. subst. split; [done | tauto].
  - apply String.eqb_neq in E. rewrite IH. split; [| tauto].
    intros Hn [Heq | Hin]; [congruence | tauto].
Qed.

Lemma get_Some_In k v d : Dict.get k d = Some v -> In (k, v) d.
Proof.
  induction d as [| [k0 v0] d IH]; simpl; [done |].
  destruct (String.eqb k k0) eqn:E.
  - apply String.eqb_eq in E. intros [= ->]. subst. by left.
  - intros H. right. by apply IH.
Qed.

Lemma set_not_nil k v d : Dict.set k v d <> [].
Proof. destruct d as [| [k0 v0] d]; simpl; [done |]. by destruct (String.eqb k k0). Qed.
  End Facts.
End DictFacts.

Lemma Qeq_bool_same q : Qeq_bool q q = true.
Proof. apply Qeq_bool_iff. reflexivity. Qed.

Lemma list_eq_refl {A : Type} (eq : A -> A -> bool) (l : list A) :
  Forall (fun x => eq x x = true) l -> list_eq eq l l = true.
Proof. induction 1 as [| x l Hx _ IH]; simpl; [done |]. by rewrite Hx, IH. Qed.

(** Reading a dictionary against itself: every key outside [seen] is found
    at its first occurrence. *)
Lemma dict_covered_refl {A : Type} (eq : A -> A -> bool) (pre l : list (string * A)) :
  Forall (fun kv => eq (snd kv) (snd kv) = true) l ->
  (forall k, existsb (String.eqb k) (rev (Dict.keys pre)) = Dict.mem k pre) ->
  dict_covered eq (pre ++ l) l (rev (Dict.keys pre)) = true.
Proof.
  intros Hl. revert pre. induction Hl as [| [k v] l Hv _ IH]; intros pre Hseen; simpl; [done |].
  apply andb_true_intro. split.
  - rewrite Hseen. unfold Dict.mem. destruct (Dict.get k pre) eqn:E; [done |].
    rewrite (DictFacts.get_app_None _ _ _ E). simpl. rewrite String.eqb_refl. exact Hv.
  - specialize (IH (pre ++ [(k, v)])).
    rewrite <- app_assoc in IH. simpl in IH.
    unfold Dict.keys in IH. rewrite map_app, rev_app_distr in IH. simpl in IH.
    apply IH. intros k0. simpl. rewrite Hseen. unfold Dict.mem.
    destruct (Dict.get k0 pre) eqn:E.
    + rewrite orb_true_r.
      assert (Dict.get k0 (pre ++ [(k, v)]) = Some a) as ->; [| done].
      clear -E. induction pre as [| [k1 v1] pre IHp]; simpl in *; [done |].
      destruct (String.eqb k0 k1); [done | by apply IHp].
    + rewrite (DictFacts.get_app_None _ _ _ E). simpl. rewrite orb_false_r.
      by destruct (String.eqb k0 k).
Qed.

Lemma forallb_mem_self {A : Type} (d : list (string * A)) :
  forallb (fun kw => Dict.mem (fst kw) d) d = true.
Proof.
  apply forallb_forall. intros [k v] Hin. unfold Dict.mem. simpl.
  destruct (Dict.get k d) eqn:E; [done |].
  apply DictFacts.get_None_keys in E. exfalso. apply E.
  apply in_map_iff. by exists (k, v).
Qed.

(** [v == v] holds for every value of the model. *)
Lemma py_eq_refl (v : pyval) : py_eq v v = true.
Proof.
  induction v as [ | b | n | q | s | l IH | d IH] using pyval_ind; simpl;
    try apply Qeq_bool_same; try done.
  - apply String.eqb_refl.
  - by apply list_eq_refl.
  - rewrite forallb_mem_self, andb_true_r.
    apply (dict_covered_refl py_eq [] d IH). intros k. done.
Qed.

Lemma is_none_true (v : pyval) : is_none v = true <-> v = PNone.
Proof. destruct v; simpl; split; congruence. Qed.

Lemma is_none_false (v : pyval) : is_none v = false <-> v <> PNone.
Proof. destruct v; simpl; split; congruence. Qed.

(** ** Nested extraction *)

Lemma get_nested_value_None (path : list string) : get_nested_value PNone path = PNone.
Proof. by destruct path. Qed.

Lemma get_nested_value_step (data : pyval) (key : string) (rest : list string) :
  get_nested_value data (key :: rest) =
  match data with
  | PDict d =>
      match Dict.get key d with
      | Some v => get_nested_value v rest
      | None => PNone
      end
  | _ => PNone
  end.
Proof.
  destruct data as [ | | | | | | d]; simpl; try done.
  destruct (Dict.get key d); simpl; [done | apply get_nested_value_None].
Qed.

Lemma get_nested_value_empty_dict (path : list string) :
  path <> [] -> get_nested_value (PDict []) path = PNone.
Proof.
  destruct path as [| key rest]; [done |]. intros _.
  rewrite get_nested_value_step. done.
Qed.

(** ** Reconciliation of one book *)

Section ReconciliationFacts.
Variable COLUMNS : list (string * col_meta).
Variable CONFIG : gmap string string.
Variables (metadata : Metadata) (progress_data item_data me_data : pyval).

Local Abbreviation step := (sync_column CONFIG metadata progress_data item_data me_data).

(** What one column does to the update set: nothing, or one assignment
    of a value that is not [None] and differs from the stored one. *)
Lemma sync_column_cases acc name col :
  step acc (name, col) = acc \/
  (config_get CONFIG name <> ""
   /\ computed_value col progress_data item_data me_data <> PNone
   /\ py_eq (md_get metadata (config_get CONFIG name))
            (computed_value col progress_data item_data me_data) = false
   /\ step acc (name, col) =
      (Dict.set (config_get CONFIG name)
         (computed_value col progress_data item_data me_data) (fst acc),
       Dict.set (column_heading col)
         (CChange (md_get metadata (config_get CONFIG name))
            (computed_value col progress_data item_data me_data)) (snd acc))).
Proof.
  destruct acc as [kv res]. unfold sync_column.
  destruct (String.eqb (config_get CONFIG name) "") eqn:Ename; [by left |].
  destruct (is_none (computed_value col progress_data item_data me_data)) eqn:Enone;
    [by left |].
  destruct (py_eq (md_get metadata (config_get CONFIG name))
              (computed_value col progress_data item_data me_data)) eqn:Eeq; simpl;
    [by left |].
  right. apply String.eqb_neq in Ename. apply is_none_false in Enone. done.
Qed.

(** Every entry of the update set was put there by a configured column
    whose computed value is not [None] and differs from the stored value
    of its destination. *)
Lemma fold_sync_column_sound cols acc k v :
  Dict.get k (fst (fold_left step cols acc)) = Some v ->
  Dict.get k (fst acc) = Some v \/
  (v <> PNone /\ py_eq (md_get metadata k) v = false /\
   exists name col, In (name, col) cols /\ config_get CONFIG name = k /\
     computed_value col progress_data item_data me_data = v).
Proof.
  revert acc. induction cols as [| [name col] cols IH]; intros acc Hget;
    cbn [fold_left In] in *.
  - by left.
  - apply IH in Hget. destruct Hget as [Hget | (Hv & Hne & name' & col' & Hin & Hk & Hc)].
    + destruct (sync_column_cases acc name col) as [Hs | (Hname & Hval & Hdiff & Hs)];
        rewrite Hs in Hget; [by left |].
      simpl in Hget. rewrite DictFacts.get_set in Hget.
      destruct (String.eqb k (config_get CONFIG name)) eqn:E; [| by left].
      apply String.eqb_eq in E. subst k. injection Hget as <-.
      right. repeat split; try done. exists name, col. repeat split; by try left.
    + right. repeat split; try done. exists name', col'. repeat split; by try right.
Qed.
End ReconciliationFacts.

Lemma extract_value_source (col : col_meta) (progress_data item_data me_data : pyval) :
  extract_value col progress_data item_data me_data =
  let raw := get_nested_value (source_data col progress_data item_data me_data)
               (data_location col) in
  if has_started_default col && is_none raw then PBool true else raw.
Proof.
  unfold extract_value, source_data, has_started_default.
  destruct (String.eqb (api_source col) "mediaProgress"); simpl; [done |].
  destruct (String.eqb (api_source col) "lib_items"); [done |].
  destruct (String.eqb (api_source col) "me"); [done |].
  by rewrite get_nested_value_None.
Qed.

(** C1 (amended). [found] is what [media_progress_dict.get(abs_id)] gave:
    the progress record of the item, or nothing when the fetch has none,
    and then the progress data is the empty dictionary. In both cases the
    "Audiobook Started" column read from the media progress takes the
    value [True] whenever its path yields [None] in the progress data: the
    default does not ask whether a record exists. The value then goes
    through the transform like any other. *)
Theorem started_default_regardless_of_record
    (col : col_meta) (found : option pyval) (item_data me_data : pyval) :
  api_source col = "mediaProgress" ->
  column_heading col = "Audiobook Started" ->
  get_nested_value (default (PDict []) found) (data_location col) = PNone ->
  extract_value col (default (PDict []) found) item_data me_data = PBool true
  /\ computed_value col (default (PDict []) found) item_data me_data =
     match transform col with
     | Some f => f (PBool true)
     | None => PBool true
     end.
Proof.
  intros Hsrc Hhead Hnone.
  assert (extract_value col (default (PDict []) found) item_data me_data = PBool true) as He.
  { unfold extract_value. rewrite Hsrc, Hhead, Hnone. reflexivity. }
  split; [exact He |]. unfold computed_value. rewrite He. reflexivity.
Qed.

Lemma started_default_regardless_of_record_witness :
  KDict.lookup (PStr "li_dune") (@nil (pyval * pyval)) = Some None
  /\ get_nested_value (PDict []) (data_location Sample.started_column) = PNone
  /\ extract_value Sample.started_column (PDict []) Sample.dune Sample.me_no_progress
     = PBool true.
Proof.
  split; [reflexivity |]. split; [reflexivity |].
  apply (started_default_regardless_of_record Sample.started_column None
           Sample.dune Sample.me_no_progress); reflexivity.
Defined.

(** The fetch holds no progress record for the linked item, and the
    "Audiobook Started" column is still set to [True] and written. *)
Lemma started_default_without_progress_record :
  index_by "libraryItemId" [] [] = Some []
  /\ fst (reconcile Sample.COLUMNS Sample.CONFIG Sample.linked_book 1 (PDict [])
            Sample.dune Sample.me_no_progress) = [("#abs_started", PBool true)]
  /\ sync_report (sync_from_audiobookshelf Sample.COLUMNS Sample.CONFIG
                    (PList [Sample.dune]) Sample.me_no_progress Sample.library)
     = Some (1%nat, 0%nat, 0%nat,
             [[("title", CValue (PStr "Dune"));
               ("Audiobook Started", CChange PNone (PBool true))]]).
Proof. repeat split; vm_compute; reflexivity. Qed.

(** The entries of the update set of [reconcile]. *)
Lemma reconcile_sound
    (COLUMNS : list (string * col_meta)) (CONFIG : gmap string string)
    (metadata : Metadata) (book_id : Z) (progress_data item_data me_data : pyval)
    (k : string) (v : pyval) :
  Dict.get k (fst (reconcile COLUMNS CONFIG metadata book_id
                     progress_data item_data me_data)) = Some v ->
  v <> PNone
  /\ py_eq (md_get metadata k) v = false
  /\ exists name col,
       In (name, col) COLUMNS /\ config_get CONFIG name = k
       /\ computed_value col progress_data item_data me_data = v.
Proof.
  intros Hget. unfold reconcile in Hget.
  apply fold_sync_column_sound in Hget. destruct Hget as [Hget | Hget]; [done | exact Hget].
Qed.

(** C7 (amended). [get_nested_value] is a total function that follows the
    path one key at a time: at the end of the path it returns the value
    reached, and with a key left it returns [None] unless the value is a
    dictionary holding that key. When the path of a column yields [None]
    in its source, the column leaves the update set and the report row
    as they are, except for the "Audiobook Started" column of the media
    progress, whose [None] is replaced by [True]. *)
Theorem null_extraction_excluded
    (CONFIG : gmap string string) (metadata : Metadata)
    (progress_data item_data me_data : pyval)
    (acc : list (string * pyval) * list (string * cell)) (name : string) (col : col_meta) :
  has_started_default col = false ->
  get_nested_value (source_data col progress_data item_data me_data) (data_location col)
    = PNone ->
  sync_column CONFIG metadata progress_data item_data me_data acc (name, col) = acc
  /\ (forall data, get_nested_value data [] = data)
  /\ (forall data key rest,
        get_nested_value data (key :: rest) =
        match data with
        | PDict d =>
            match Dict.get key d with
            | Some v => get_nested_value v rest
            | None => PNone
            end
        | _ => PNone
        end).
Proof.
  intros Hdef Hnone. split; [| split; [reflexivity | apply get_nested_value_step]].
  destruct acc as [kv res]. unfold sync_column, computed_value.
  rewrite extract_value_source. cbv zeta. rewrite Hdef, Hnone. simpl.
  by destruct (String.eqb (config_get CONFIG name) "").
Qed.

Lemma null_extraction_excluded_witness :
  get_nested_value Sample.dune ["media"; "tags"; "first"] = PNone
  /\ sync_column Sample.CONFIG Sample.linked_book Sample.dune_progress Sample.dune
       Sample.me_with_progress ([], [])
       ("column_audiobook_progress",
        {| column_heading := "First Tag"; data_location := ["media"; "tags"; "first"];
           api_source := "lib_items"; transform := None |}) = ([], []).
Proof.
  split; [reflexivity |].
  apply (null_extraction_excluded Sample.CONFIG Sample.linked_book Sample.dune_progress
           Sample.dune Sample.me_with_progress ([], []) "column_audiobook_progress"
           {| column_heading := "First Tag"; data_location := ["media"; "tags"; "first"];
              api_source := "lib_items"; transform := None |}); reflexivity.
Defined.

(** The progress record exists but has no [startedAt]: the path yields
    [None], and the column is in the update set all the same. *)
Lemma null_extraction_of_started_included :
  get_nested_value Sample.dune_progress (data_location Sample.started_column) = PNone
  /\ Dict.get "#abs_started"
       (fst (reconcile Sample.COLUMNS Sample.CONFIG Sample.linked_book 1
               Sample.dune_progress Sample.dune Sample.me_with_progress))
     = Some (PBool true).
Proof. split; vm_compute; reflexivity. Qed.

(** ** Applying an update set *)

(** The loop of [update_metadata] only appends to [updates]; it appends
    nothing, and leaves the record alone, exactly when every supplied value
    equals the stored one. *)
Lemma apply_updates_spec (kvs : list (string * pyval)) (metadata : Metadata)
    (updates : list string) :
  exists added,
    snd (apply_updates kvs metadata updates) = updates ++ added
    /\ (if all_unchanged metadata kvs
        then added = [] /\ fst (apply_updates kvs metadata updates) = metadata
        else added <> []).
Proof.
  revert metadata updates. induction kvs as [| [key new_value] kvs IH]; intros metadata updates.
  - exists []. simpl. by rewrite app_nil_r.
  - simpl. destruct (py_eq new_value (md_get metadata key)) eqn:E; simpl.
    + apply IH.
    + destruct (IH (md_set metadata key new_value) (updates ++ [key])) as (added & Hsnd & _).
      exists (key :: added). split; [| done].
      rewrite Hsnd, <- app_assoc. reflexivity.
Qed.

(** C10. When the record resolves, [update_metadata] returns success; if
    every supplied value equals the record's current value it leaves the
    database as it is, write log included, and reports no updated field;
    otherwise it writes the record once. So a write occurs exactly when
    some supplied value differs. *)
Theorem update_metadata_writes_only_changes
    (db : DB) (book_uuid : pyval) (book_id : Z) (kvs : list (string * pyval)) :
  lookup_by_uuid db book_uuid = Some book_id ->
  book_id <> 0 ->
  if all_unchanged (get_metadata db book_id) kvs
  then update_metadata db book_uuid kvs = (db, (true, Updated [] book_id))
  else db_writes (fst (update_metadata db book_uuid kvs)) = db_writes db ++ [book_id]
       /\ fst (snd (update_metadata db book_uuid kvs)) = true
       /\ fst (update_metadata db book_uuid kvs) <> db.
Proof.
  intros Hlook Hid. unfold update_metadata. rewrite Hlook.
  apply Z.eqb_neq in Hid. rewrite Hid.
  destruct (apply_updates_spec kvs (get_metadata db book_id) []) as (added & Hsnd & Hcase).
  destruct (apply_updates kvs (get_metadata db book_id) []) as [metadata' updates] eqn:E.
  simpl in Hsnd, Hcase. subst updates.
  destruct (all_unchanged (get_metadata db book_id) kvs).
  - destruct Hcase as [-> _]. reflexivity.
  - destruct added as [| key added]; [done |]. simpl.
    repeat split. intros Heq.
    apply (f_equal (fun d => length (db_writes d))) in Heq. simpl in Heq.
    rewrite length_app in Heq. simpl in Heq. lia.
Qed.

Lemma update_metadata_writes_only_changes_witness :
  lookup_by_uuid Sample.library (PStr "uuid-1") = Some 1
  /\ all_unchanged (get_metadata Sample.library 1) [("title", PStr "Dune")] = true
  /\ update_metadata Sample.library (PStr "uuid-1") [("title", PStr "Dune")]
     = (Sample.library, (true, Updated [] 1)).
Proof.
  split; [reflexivity |]. split; [reflexivity |].
  apply (update_metadata_writes_only_changes Sample.library (PStr "uuid-1") 1
           [("title", PStr "Dune")]); [reflexivity | lia].
Defined.

(** ** Symmetry of equality *)

Lemma existsb_eqb_In (k : string) (seen : list string) :
  existsb (String.eqb k) seen = true <-> In k seen.
Proof.
  rewrite existsb_exists. split.
  - intros (x & Hin & Heq). apply String.eqb_eq in Heq. by subst.
  - intros Hin. exists k. split; [done | apply String.eqb_refl].
Qed.

(** What [dict_covered] decides: every key of [l] outside [seen] is bound
    in [e] to a value equal to the one [l] binds it to first. *)
Lemma dict_covered_true {A : Type} (eq : A -> A -> bool) (e l : list (string * A))
    (seen : list string) :
  dict_covered eq e l seen = true <->
  (forall k v, ~ In k seen -> Dict.get k l = Some v ->
     exists w, Dict.get k e = Some w /\ eq v w = true).
Proof.
  revert seen. induction l as [| [k0 v0] l IH]; intros seen; simpl.
  - split; [intros _ k v _ [=] | done].
  - rewrite andb_true_iff, IH. split.
    + intros [Hhead Htail] k v Hseen Hget.
      destruct (String.eqb k k0) eqn:E.
      * apply String.eqb_eq in E. subst k0. injection Hget as ->.
        destruct (existsb (String.eqb k) seen) eqn:Ex.
        { apply existsb_eqb_In in Ex. done. }
        destruct (Dict.get k e) as [w |]; [by exists w | done].
      * apply (Htail k v); [| done]. apply String.eqb_neq in E. simpl. intros [-> | Hin]; done.
    + intros H. split.
      * destruct (existsb (String.eqb k0) seen) eqn:Ex; [done |].
        destruct (H k0 v0) as (w & -> & Hw); [| by rewrite String.eqb_refl | done].
        intros Hin. apply existsb_eqb_In in Hin. congruence.
      * intros k v Hseen Hget. simpl in Hseen. apply H; [tauto |].
        destruct (String.eqb k k0) eqn:E; [| done].
        apply String.eqb_eq in E. subst. tauto.
Qed.

Lemma dict_mem_true {A : Type} (k : string) (d : list (string * A)) :
  Dict.mem k d = true <-> exists v, Dict.get k d = Some v.
Proof.
  unfold Dict.mem. destruct (Dict.get k d) as [v |]; split; try done.
  - by exists v.
  - by intros [v [=]].
Qed.

Lemma forallb_mem_true {A : Type} (d e : list (string * A)) :
  forallb (fun kw => Dict.mem (fst kw) d) e = true <->
  (forall k w, Dict.get k e = Some w -> exists v, Dict.get k d = Some v).
Proof.
  rewrite forallb_forall. split.
  - intros H k w Hget. apply dict_mem_true. apply (H (k, w)).
    by apply DictFacts.get_Some_In.
  - intros H [k w] Hin. simpl. apply dict_mem_true.
    destruct (Dict.get k e) as [w' |] eqn:E; [by apply (H k w') |].
    apply DictFacts.get_None_keys in E. exfalso. apply E. apply in_map_iff. by exists (k, w).
Qed.

(** Equality of dictionaries, key by key. *)
Lemma py_eq_dict_true (d e : list (string * pyval)) :
  py_eq (PDict d) (PDict e) = true <->
  (forall k v, Dict.get k d = Some v -> exists w, Dict.get k e = Some w /\ py_eq v w = true)
  /\ (forall k w, Dict.get k e = Some w -> exists v, Dict.get k d = Some v).
Proof.
  simpl. rewrite andb_true_iff, dict_covered_true, forallb_mem_true.
  split; intros [H1 H2]; (split; [| done]).
  - intros k v. apply H1. simpl. tauto.
  - intros k v _. apply H1.
Qed.

Lemma py_eq_sym_true (a b : pyval) : py_eq a b = true -> py_eq b a = true.
Proof.
  revert b. induction a as [ | x | n | q | s | l IH | d IH] using pyval_ind; intros b.
  - by destruct b.
  - destruct b; simpl; try done; rewrite !Qeq_bool_iff; intros H; by symmetry.
  - destruct b; simpl; try done; rewrite !Qeq_bool_iff; intros H; by symmetry.
  - destruct b; simpl; try done; rewrite !Qeq_bool_iff; intros H; by symmetry.
  - destruct b; simpl; try done. by rewrite String.eqb_sym.
  - destruct b as [ | | | | | m | ]; simpl; try done.
    revert m. induction IH as [| x l Hx _ IHl]; intros [| y m]; simpl; try done.
    rewrite !andb_true_iff. intros [Hxy Hlm]. split; [by apply Hx | by apply IHl].
  - destruct b as [ | | | | | | e]; try done.
    rewrite !py_eq_dict_true. intros [H1 H2]. split.
    + intros k w Hw. destruct (H2 k w Hw) as (v & Hv). exists v. split; [done |].
      destruct (H1 k v Hv) as (w' & Hw' & Heq). rewrite Hw in Hw'. injection Hw' as <-.
      rewrite List.Forall_forall in IH. apply (IH (k, v)); [| done].
      by apply DictFacts.get_Some_In.
    + intros k v Hv. destruct (H1 k v Hv) as (w & Hw & _). by exists w.
Qed.

Lemma py_eq_sym (a b : pyval) : py_eq a b = py_eq b a.
Proof.
  destruct (py_eq a b) eqn:E1, (py_eq b a) eqn:E2; try done.
  - apply py_eq_sym_true in E1. congruence.
  - apply py_eq_sym_true in E2. congruence.
Qed.

(** ** Running reconciliation twice *)

Lemma keys_set_In {V : Type} (k k' : string) (v : V) (d : list (string * V)) :
  In k' (Dict.keys (Dict.set k v d)) -> k' = k \/ In k' (Dict.keys d).
Proof.
  induction d as [| [k0 v0] d IH]; simpl.
  - intros [<- | []]. by left.
  - destruct (String.eqb k k0) eqn:E; simpl.
    + apply String.eqb_eq in E. subst k0. tauto.
    + intros [<- | Hin]; [tauto |]. apply IH in Hin. tauto.
Qed.

Lemma set_NoDup {V : Type} (k : string) (v : V) (d : list (string * V)) :
  List.NoDup (Dict.keys d) -> List.NoDup (Dict.keys (Dict.set k v d)).
Proof.
  induction d as [| [k0 v0] d IH]; simpl; intros Hnd.
  - constructor; [simpl; tauto | constructor].
  - apply List.NoDup_cons_iff in Hnd. destruct Hnd as [Hnot Hnd].
    destruct (String.eqb k k0) eqn:E; simpl.
    + apply String.eqb_eq in E. subst k0. by constructor.
    + apply String.eqb_neq in E. constructor; [| by apply IH].
      intros Hin. apply keys_set_In in Hin. destruct Hin; [congruence | done].
Qed.

Lemma In_get_NoDup {V : Type} (k : string) (v : V) (d : list (string * V)) :
  List.NoDup (Dict.keys d) -> In (k, v) d -> Dict.get k d = Some v.
Proof.
  induction d as [| [k0 v0] d IH]; simpl; [done |]. intros Hnd Hin.
  apply List.NoDup_cons_iff in Hnd. destruct Hnd as [Hnot Hnd].
  destruct Hin as [[= -> ->] | Hin]; [by rewrite String.eqb_refl |].
  destruct (String.eqb k k0) eqn:E; [| by apply IH].
  apply String.eqb_eq in E. subst k0. exfalso. apply Hnot.
  apply in_map_iff. by exists (k, v).
Qed.

Lemma md_get_md_set (m : Metadata) (k k' : string) (v : pyval) :
  md_get (md_set m k' v) k = if String.eqb k k' then v else md_get m k.
Proof.
  unfold md_get, md_get_default, md_set. simpl.
  destruct (String.eqb k k') eqn:E.
  - apply String.eqb_eq in E. subst. by rewrite lookup_insert_eq.
  - apply String.eqb_neq in E. by rewrite lookup_insert_ne.
Qed.

(** When the keys are distinct and every value differs from the stored
    one, the loop of [update_metadata] stores each of them. *)
Lemma apply_updates_all_new (kvs : list (string * pyval)) (m : Metadata) (u : list string) :
  List.NoDup (Dict.keys kvs) ->
  (forall k v, In (k, v) kvs -> py_eq v (md_get m k) = false) ->
  md_identifiers (fst (apply_updates kvs m u)) = md_identifiers m
  /\ forall k, md_fields (fst (apply_updates kvs m u)) !! k =
       match Dict.get k kvs with
       | Some v => Some v
       | None => md_fields m !! k
       end.
Proof.
  revert m u. induction kvs as [| [k0 v0] kvs IH]; intros m u Hnd Hnew; simpl; [done |].
  simpl in Hnd. apply List.NoDup_cons_iff in Hnd. destruct Hnd as [Hnot Hnd].
  rewrite (Hnew k0 v0 (or_introl eq_refl)). simpl.
  destruct (IH (md_set m k0 v0) (u ++ [k0]) Hnd) as [Hids Hfields].
  { intros k v Hin. rewrite md_get_md_set.
    destruct (String.eqb k k0) eqn:E; [| apply Hnew; by right].
    apply String.eqb_eq in E. subst k0. exfalso. apply Hnot.
    apply in_map_iff. by exists (k, v). }
  split; [exact Hids |]. intros k. rewrite Hfields.
  destruct (String.eqb k k0) eqn:E.
  - apply String.eqb_eq in E. subst k0.
    apply DictFacts.get_None_keys in Hnot. rewrite Hnot. simpl. apply lookup_insert_eq.
  - apply String.eqb_neq in E. destruct (Dict.get k kvs); [done |].
    simpl. by apply lookup_insert_ne.
Qed.

Lemma keep_stored_ne (key k : string) (stored : Metadata) (fields : gmap string pyval) :
  k <> key -> keep_stored key stored fields !! k = fields !! k.
Proof.
  intros Hne. unfold keep_stored. destruct (md_fields stored !! key).
  - by apply lookup_insert_ne.
  - by apply lookup_delete_ne.
Qed.

Lemma get_metadata_set_metadata (db : DB) (book_id : Z) (mi : Metadata) :
  get_metadata (set_metadata db book_id mi) book_id =
  {| md_fields := keep_stored "authors" (get_metadata db book_id)
                    (keep_stored "title" (get_metadata db book_id) (md_fields mi));
     md_identifiers := md_identifiers mi |}.
Proof. unfold get_metadata at 1, set_metadata. simpl. by rewrite lookup_insert_eq. Qed.

Section Twice.
Variable COLUMNS : list (string * col_meta).
Variable CONFIG : gmap string string.
Variables (metadata : Metadata) (progress_data item_data me_data : pyval).

Local Abbreviation step := (sync_column CONFIG metadata progress_data item_data me_data).

Lemma destinations_cons name col cols :
  destinations CONFIG ((name, col) :: cols) =
  if String.eqb (config_get CONFIG name) "" then destinations CONFIG cols
  else config_get CONFIG name :: destinations CONFIG cols.
Proof.
  unfold destinations. simpl. rewrite filter_cons. simpl.
  destruct (String.eqb (config_get CONFIG name) "") eqn:E.
  - apply String.eqb_eq in E. by rewrite decide_False by (intros H; apply H, E).
  - apply String.eqb_neq in E. by rewrite decide_True.
Qed.

Lemma destinations_In name col cols :
  In (name, col) cols -> config_get CONFIG name <> "" ->
  In (config_get CONFIG name) (destinations CONFIG cols).
Proof.
  intros Hin Hne. unfold destinations. apply list_elem_of_In, list_elem_of_filter.
  split; [done |]. apply list_elem_of_In, in_map_iff. by exists (name, col).
Qed.

(** A destination no column of [cols] writes keeps its entry. *)
Lemma fold_sync_column_untouched cols acc k :
  ~ In k (destinations CONFIG cols) ->
  Dict.get k (fst (fold_left step cols acc)) = Dict.get k (fst acc).
Proof.
  revert acc. induction cols as [| [name col] cols IH]; intros acc Hnot; cbn [fold_left];
    [done |].
  rewrite destinations_cons in Hnot.
  destruct (sync_column_cases CONFIG metadata progress_data item_data me_data acc name col)
    as [Hs | (Hname & _ & _ & Hs)]; rewrite Hs.
  - apply IH. destruct (String.eqb (config_get CONFIG name) ""); simpl in Hnot; tauto.
  - apply String.eqb_neq in Hname. rewrite Hname in Hnot. simpl in Hnot.
    rewrite IH by tauto. simpl. apply DictFacts.get_set_ne. intros ->. tauto.
Qed.

(** With distinct destinations, the entry of a configured column is its
    own value when that differs from the stored one, and is absent when
    it does not. *)
Lemma fold_sync_column_complete cols acc name col :
  List.NoDup (destinations CONFIG cols) ->
  In (name, col) cols ->
  config_get CONFIG name <> "" ->
  computed_value col progress_data item_data me_data <> PNone ->
  Dict.get (config_get CONFIG name) (fst (fold_left step cols acc)) =
  if py_eq (md_get metadata (config_get CONFIG name))
       (computed_value col progress_data item_data me_data)
  then Dict.get (config_get CONFIG name) (fst acc)
  else Some (computed_value col progress_data item_data me_data).
Proof.
  revert acc. induction cols as [| [name0 col0] cols IH]; intros acc Hnd Hin Hname Hval;
    cbn [fold_left]; [done |].
  rewrite destinations_cons in Hnd.
  destruct Hin as [[= -> ->] | Hin].
  - apply String.eqb_neq in Hname. rewrite Hname in Hnd.
    apply List.NoDup_cons_iff in Hnd. destruct Hnd as [Hnot _].
    rewrite fold_sync_column_untouched by done.
    destruct (sync_column_cases CONFIG metadata progress_data item_data me_data acc name col)
      as [Hs | (_ & _ & Hdiff & Hs)]; rewrite Hs.
    + unfold sync_column in Hs. destruct acc as [kv res]. rewrite Hname in Hs.
      apply is_none_false in Hval. rewrite Hval in Hs.
      destruct (py_eq (md_get metadata (config_get CONFIG name))
                  (computed_value col progress_data item_data me_data)); [done |].
      simpl in Hs. injection Hs as Hkv _. rewrite <- Hkv at 1.
      simpl. apply DictFacts.get_set_eq.
    + rewrite Hdiff. simpl. apply DictFacts.get_set_eq.
  - assert (List.NoDup (destinations CONFIG cols)) as Hnd'.
    { destruct (String.eqb (config_get CONFIG name0) ""); [done |].
      by apply List.NoDup_cons_iff in Hnd as [_ Hnd]. }
    rewrite (IH _ Hnd' Hin Hname Hval).
    destruct (py_eq (md_get metadata (config_get CONFIG name))
                (computed_value col progress_data item_data me_data)); [| done].
    destruct (sync_column_cases CONFIG metadata progress_data item_data me_data acc name0 col0)
      as [Hs | (Hname0 & _ & _ & Hs)]; rewrite Hs; [done |].
    simpl. apply DictFacts.get_set_ne. intros Heq.
    apply String.eqb_neq in Hname0. rewrite Hname0 in Hnd.
    apply List.NoDup_cons_iff in Hnd as [Hnot _]. apply Hnot. rewrite <- Heq.
    by apply (destinations_In name col).
Qed.

Lemma fold_sync_column_NoDup cols acc :
  List.NoDup (Dict.keys (fst acc)) ->
  List.NoDup (Dict.keys (fst (fold_left step cols acc))).
Proof.
  revert acc. induction cols as [| [name col] cols IH]; intros acc Hnd; cbn [fold_left];
    [done |].
  apply IH.
  destruct (sync_column_cases CONFIG metadata progress_data item_data me_data acc name col)
    as [Hs | (_ & _ & _ & Hs)]; rewrite Hs; [done |].
  simpl. by apply set_NoDup.
Qed.
End Twice.

(** With distinct destinations, one destination has one configured column. *)
Lemma destinations_unique (CONFIG : gmap string string) (cols : list (string * col_meta))
    (name1 name2 : string) (col1 col2 : col_meta) :
  List.NoDup (destinations CONFIG cols) ->
  In (name1, col1) cols -> In (name2, col2) cols ->
  config_get CONFIG name1 = config_get CONFIG name2 ->
  config_get CONFIG name1 <> "" ->
  (name1, col1) = (name2, col2).
Proof.
  induction cols as [| [name0 col0] cols IH]; intros Hnd H1 H2 Heq Hne; [done |].
  rewrite destinations_cons in Hnd.
  assert (In (name0, col0) [(name1, col1); (name2, col2)] ->
          ~ In (config_get CONFIG name1) (destinations CONFIG cols)) as Hhead.
  { intros Hin Hdest.
    assert (config_get CONFIG name0 = config_get CONFIG name1) as E.
    { destruct Hin as [[= -> _] | [[= -> _] | []]]; congruence. }
    rewrite E in Hnd. apply String.eqb_neq in Hne. rewrite Hne in Hnd.
    by apply List.NoDup_cons_iff in Hnd as [Hnot _]. }
  assert (List.NoDup (destinations CONFIG cols)) as Hnd'.
  { destruct (String.eqb (config_get CONFIG name0) ""); [done |].
    by apply List.NoDup_cons_iff in Hnd as [_ Hnd]. }
  destruct H1 as [E1 | H1], H2 as [E2 | H2].
  - congruence.
  - exfalso. apply Hhead; [left; done |]. rewrite Heq.
    apply (destinations_In CONFIG name2 col2); [done | congruence].
  - exfalso. apply Hhead; [right; left; done |].
    by apply (destinations_In CONFIG name1 col1).
  - by apply IH.
Qed.

(** C2 (amended). When the configured columns have pairwise distinct
    destinations, then for every book and every configured column: the
    destination of the column is a key of the computed update set only if
    the freshly computed value of the column (after extraction and
    transform) is not [None] and differs from the value the record holds
    under that key, and the key then carries that value; and it is a key
    of the update set whenever the value is not [None] and differs. So the
    update set has no key whose computed value equals the current one. *)
Theorem update_set_only_changes
    (COLUMNS : list (string * col_meta)) (CONFIG : gmap string string)
    (metadata : Metadata) (book_id : Z) (progress_data item_data me_data : pyval)
    (name : string) (col : col_meta) :
  List.NoDup (destinations CONFIG COLUMNS) ->
  In (name, col) COLUMNS ->
  config_get CONFIG name <> "" ->
  let column_name := config_get CONFIG name in
  let value := computed_value col progress_data item_data me_data in
  let keys_values_to_update :=
    fst (reconcile COLUMNS CONFIG metadata book_id progress_data item_data me_data) in
  (Dict.mem column_name keys_values_to_update = true ->
   value <> PNone
   /\ py_eq (md_get metadata column_name) value = false
   /\ Dict.get column_name keys_values_to_update = Some value)
  /\ (value <> PNone -> py_eq (md_get metadata column_name) value = false ->
      Dict.get column_name keys_values_to_update = Some value).
Proof.
  intros Hnd Hin Hname column_name value keys_values_to_update. split.
  - intros Hmem. apply dict_mem_true in Hmem. destruct Hmem as [v Hv].
    destruct (reconcile_sound _ _ _ _ _ _ _ _ _ Hv)
      as (Hnone & Hdiff & name' & col' & Hin' & Hdest & Hval).
    assert ((name, col) = (name', col')) as E.
    { by apply (destinations_unique CONFIG COLUMNS). }
    injection E as <- <-. fold value in Hval. subst v. done.
  - intros Hval Hdiff. unfold keys_values_to_update, reconcile.
    rewrite (fold_sync_column_complete CONFIG metadata progress_data item_data me_data
               COLUMNS _ name col Hnd Hin Hname Hval).
    fold column_name value. by rewrite Hdiff.
Qed.

Lemma update_set_only_changes_witness :
  List.NoDup (destinations Sample.CONFIG Sample.COLUMNS)
  /\ In ("column_audiobook_progress", Sample.progress_column) Sample.COLUMNS
  /\ config_get Sample.CONFIG "column_audiobook_progress" = "#abs_progress"
  /\ computed_value Sample.progress_column Sample.dune_progress Sample.dune
       Sample.me_with_progress = PFloat (42 # 100)
  /\ Dict.get "#abs_progress"
       (fst (reconcile Sample.COLUMNS Sample.CONFIG Sample.linked_book 1
               Sample.dune_progress Sample.dune Sample.me_with_progress))
     = Some (PFloat (42 # 100)).
Proof.
  assert (List.NoDup (destinations Sample.CONFIG Sample.COLUMNS)) as Hnd.
  { apply NoDup_ListNoDup. vm_compute. apply (bool_decide_unpack _). vm_compute. reflexivity. }
  assert (In ("column_audiobook_progress", Sample.progress_column) Sample.COLUMNS) as Hin.
  { right. by left. }
  assert (config_get Sample.CONFIG "column_audiobook_progress" <> "") as Hname.
  { vm_compute. discriminate. }
  split; [exact Hnd |]. split; [exact Hin |]. split; [reflexivity |].
  split; [reflexivity |].
  destruct (update_set_only_changes Sample.COLUMNS Sample.CONFIG Sample.linked_book 1
              Sample.dune_progress Sample.dune Sample.me_with_progress
              "column_audiobook_progress" Sample.progress_column Hnd Hin Hname)
    as [Honly _].
  destruct (Honly eq_refl) as (_ & _ & Hget). exact Hget.
Defined.

(** Two columns configured to one destination: the record holds under it
    the value the position column computes, and the key is in the update
    set all the same, with the value of the progress column. *)
Lemma shared_destination_key_with_equal_value :
  In ("column_audiobook_position", Sample.position_column) Sample.COLUMNS_shared
  /\ config_get Sample.CONFIG_shared "column_audiobook_position" = "#abs_value"
  /\ computed_value Sample.position_column Sample.dune_position Sample.dune
       Sample.me_with_progress = PInt 100
  /\ py_eq (md_get Sample.positioned_book "#abs_value") (PInt 100) = true
  /\ fst (reconcile Sample.COLUMNS_shared Sample.CONFIG_shared Sample.positioned_book 1
            Sample.dune_position Sample.dune Sample.me_with_progress)
     = [("#abs_value", PFloat (42 # 100))].
Proof. split; [right; by left |]. repeat split; vm_compute; reflexivity. Qed.

Lemma fold_left_fixed {A B : Type} (f : A -> B -> A) (l : list B) (a : A) :
  (forall b, In b l -> f a b = a) -> fold_left f l a = a.
Proof.
  induction l as [| b l IH]; simpl; intros H; [done |].
  rewrite (H b) by tauto. apply IH. intros b' Hb'. apply H. tauto.
Qed.

(** C6 (amended). Take a linked record that the store resolves by its
    uuid, a table whose configured columns go to pairwise distinct
    destinations, none of them the title or the authors that the write
    preserves. After the update set of one reconciliation pass is applied
    (which succeeds), a second pass over the record with the same remote
    data and the same configuration computes the empty update set. *)
Theorem reconcile_twice_empty
    (COLUMNS : list (string * col_meta)) (CONFIG : gmap string string)
    (db : DB) (book_id : Z) (progress_data item_data me_data : pyval) :
  lookup_by_uuid db (md_get (get_metadata db book_id) "uuid") = Some book_id ->
  book_id <> 0 ->
  List.NoDup (destinations CONFIG COLUMNS) ->
  ~ In "title" (destinations CONFIG COLUMNS) ->
  ~ In "authors" (destinations CONFIG COLUMNS) ->
  let metadata := get_metadata db book_id in
  let applied :=
    update_metadata db (md_get metadata "uuid")
      (fst (reconcile COLUMNS CONFIG metadata book_id progress_data item_data me_data)) in
  fst (snd applied) = true
  /\ fst (reconcile COLUMNS CONFIG (get_metadata (fst applied) book_id) book_id
            progress_data item_data me_data) = [].
Proof.
  intros Hlook Hid Hnd Htitle Hauthors. cbv zeta.
  set (metadata := get_metadata db book_id) in *.
  set (upd := fst (reconcile COLUMNS CONFIG metadata book_id
                     progress_data item_data me_data)) in *.
  set (applied := update_metadata db (md_get metadata "uuid") upd).
  assert (List.NoDup (Dict.keys upd)) as Hkeys.
  { apply fold_sync_column_NoDup. constructor. }
  assert (forall k v, In (k, v) upd -> py_eq v (md_get metadata k) = false) as Hnew.
  { intros k v Hin. rewrite py_eq_sym.
    apply (reconcile_sound COLUMNS CONFIG metadata book_id
             progress_data item_data me_data k v).
    by apply In_get_NoDup. }
  assert (fst (snd applied) = true
          /\ forall k, k <> "title" -> k <> "authors" ->
               md_get (get_metadata (fst applied) book_id) k =
               match Dict.get k upd with
               | Some v => v
               | None => md_get metadata k
               end) as [Hstatus Hstored].
  { subst applied. unfold update_metadata. rewrite Hlook.
    apply Z.eqb_neq in Hid. rewrite Hid. fold metadata.
    destruct (apply_updates_all_new upd metadata [] Hkeys Hnew) as [_ Hfields].
    destruct (apply_updates_spec upd metadata []) as (added & Hsnd & Hcase).
    destruct (apply_updates upd metadata []) as [metadata' updates] eqn:E.
    simpl in Hfields, Hsnd, Hcase. subst updates. simpl. split; [done |].
    intros k Hk1 Hk2. destruct added as [| key added].
    - destruct (all_unchanged metadata upd) eqn:Hall; [| done].
      destruct Hcase as [_ ->]. simpl.
      destruct (Dict.get k upd) as [v |] eqn:Ek; [| done].
      exfalso. apply DictFacts.get_Some_In in Ek.
      unfold all_unchanged in Hall. rewrite forallb_forall in Hall.
      specialize (Hall (k, v) Ek). simpl in Hall. rewrite (Hnew k v Ek) in Hall. done.
    - simpl. rewrite get_metadata_set_metadata.
      unfold md_get, md_get_default. simpl.
      rewrite !keep_stored_ne by done. rewrite Hfields.
      by destruct (Dict.get k upd). }
  split; [exact Hstatus |].
  unfold reconcile.
  rewrite fold_left_fixed; [done |].
  intros [name col] Hin.
  destruct (sync_column_cases CONFIG (get_metadata (fst applied) book_id)
              progress_data item_data me_data
              ([], [("title", CValue (book_title (get_metadata (fst applied) book_id) book_id))])
              name col) as [Hs | (Hname & Hval & Hdiff & _)]; [exact Hs |].
  exfalso.
  pose proof (destinations_In CONFIG name col COLUMNS Hin Hname) as Hdest.
  rewrite Hstored in Hdiff by (intros Heq; rewrite Heq in Hdest; done).
  pose proof (fold_sync_column_complete CONFIG metadata progress_data item_data me_data
                COLUMNS ([], [("title", CValue (book_title metadata book_id))])
                name col Hnd Hin Hname Hval) as Hc.
  fold (reconcile COLUMNS CONFIG metadata book_id progress_data item_data me_data) in Hc.
  fold upd in Hc. rewrite Hc in Hdiff.
  destruct (py_eq (md_get metadata (config_get CONFIG name))
              (computed_value col progress_data item_data me_data)) eqn:E.
  - simpl in Hdiff. congruence.
  - rewrite py_eq_refl in Hdiff. done.
Qed.

Lemma reconcile_twice_empty_witness :
  lookup_by_uuid Sample.library (md_get (get_metadata Sample.library 1) "uuid") = Some 1
  /\ List.NoDup (destinations Sample.CONFIG Sample.COLUMNS)
  /\ fst (reconcile Sample.COLUMNS Sample.CONFIG Sample.linked_book 1
            Sample.dune_progress Sample.dune Sample.me_with_progress)
     = [("#abs_started", PBool true); ("#abs_progress", PFloat (42 # 100))]
  /\ fst (reconcile Sample.COLUMNS Sample.CONFIG
            (get_metadata
               (fst (update_metadata Sample.library
                       (md_get (get_metadata Sample.library 1) "uuid")
                       (fst (reconcile Sample.COLUMNS Sample.CONFIG
                               (get_metadata Sample.library 1) 1
                               Sample.dune_progress Sample.dune Sample.me_with_progress))))
               1)
            1 Sample.dune_progress Sample.dune Sample.me_with_progress) = [].
Proof.
  assert (List.NoDup (destinations Sample.CONFIG Sample.COLUMNS)) as Hnd.
  { vm_compute. apply NoDup_ListNoDup, (bool_decide_unpack _). vm_compute. reflexivity. }
  split; [vm_compute; reflexivity |].
  split; [exact Hnd |].
  split; [vm_compute; reflexivity |].
  apply (reconcile_twice_empty Sample.COLUMNS Sample.CONFIG Sample.library 1
           Sample.dune_progress Sample.dune Sample.me_with_progress).
  - vm_compute. reflexivity.
  - lia.
  - exact Hnd.
  - vm_compute. intros [H | [H | []]]; discriminate H.
  - vm_compute. intros [H | [H | []]]; discriminate H.
Defined.

(** Two columns configured to the same destination: the first pass settles
    on the value of the later column and applies it with success, and the
    second pass, with nothing changed on the remote side, asks for the
    value of the earlier column. *)
Lemma reconcile_twice_shared_destination :
  fst (reconcile Sample.COLUMNS_shared Sample.CONFIG_shared Sample.linked_book 1
         Sample.dune_position Sample.dune Sample.me_with_progress)
  = [("#abs_value", PInt 100)]
  /\ snd (update_metadata Sample.library (PStr "uuid-1") [("#abs_value", PInt 100)])
     = (true, Updated ["#abs_value"] 1)
  /\ fst (reconcile Sample.COLUMNS_shared Sample.CONFIG_shared
            (get_metadata
               (fst (update_metadata Sample.library (PStr "uuid-1")
                       [("#abs_value", PInt 100)])) 1)
            1 Sample.dune_position Sample.dune Sample.me_with_progress)
     = [("#abs_value", PFloat (42 # 100))].
Proof. repeat split; vm_compute; reflexivity. Qed.

(** ** Equality is an equivalence *)

Lemma Qeq_bool_trans_true (x y z : Q) :
  Qeq_bool x y = true -> Qeq_bool y z = true -> Qeq_bool x z = true.
Proof. rewrite !Qeq_bool_iff. intros H1 H2. by rewrite H1. Qed.

Lemma py_eq_trans (a b c : pyval) :
  py_eq a b = true -> py_eq b c = true -> py_eq a c = true.
Proof.
  revert b c. induction a as [ | x | n | q | s | l IH | d IH] using pyval_ind; intros b c.
  - destruct b; try done.
  - destruct b; try done; destruct c; simpl; try done; apply Qeq_bool_trans_true.
  - destruct b; try done; destruct c; simpl; try done; apply Qeq_bool_trans_true.
  - destruct b; try done; destruct c; simpl; try done; apply Qeq_bool_trans_true.
  - destruct b; try done; destruct c; simpl; try done.
    rewrite !String.eqb_eq. congruence.
  - destruct b as [ | | | | | m | ]; try done. destruct c as [ | | | | | n | ]; try done.
    simpl. revert m n.
    induction IH as [| x l Hx _ IHl]; intros [| y m] [| z n]; simpl; try done.
    rewrite !andb_true_iff. intros [Hxy Hlm] [Hyz Hmn].
    split; [by apply (Hx y z) | by apply (IHl m n)].
  - destruct b as [ | | | | | | e]; try done. destruct c as [ | | | | | | f]; try done.
    rewrite !py_eq_dict_true. intros [H1 H2] [H3 H4]. split.
    + intros k v Hv. destruct (H1 k v Hv) as (w & Hw & Hvw).
      destruct (H3 k w Hw) as (x & Hx & Hwx). exists x. split; [done |].
      rewrite List.Forall_forall in IH. apply (IH (k, v)) with (b := w); try done.
      by apply DictFacts.get_Some_In.
    + intros k x Hx. destruct (H4 k x Hx) as (w & Hw). by apply (H2 k w).
Qed.

Lemma py_eq_congr (a b c : pyval) : py_eq a b = true -> py_eq c a = py_eq c b.
Proof.
  intros Hab. destruct (py_eq c a) eqn:E1, (py_eq c b) eqn:E2; try done.
  - rewrite (py_eq_trans c a b E1 Hab) in E2. done.
  - rewrite py_eq_sym in Hab. rewrite (py_eq_trans c b a E2 Hab) in E1. done.
Qed.

(** ** The indexes *)

Lemma kdict_get_set {V : Type} (k k' : pyval) (v : V) (d : list (pyval * V)) :
  KDict.get k (KDict.set k' v d) = if py_eq k k' then Some v else KDict.get k d.
Proof.
  induction d as [| [k0 v0] d IH]; simpl; [done |].
  destruct (py_eq k' k0) eqn:E0; simpl.
  - rewrite (py_eq_congr k' k0 k E0). by destruct (py_eq k k0).
  - rewrite IH. destruct (py_eq k k0) eqn:E1; [| done].
    destruct (py_eq k k') eqn:E2; [| done].
    rewrite py_eq_sym in E2. rewrite (py_eq_trans k' k k0 E2 E1) in E0. done.
Qed.

Lemma find_app_last {A : Type} (f : A -> bool) (l : list A) (x : A) :
  List.find f (l ++ [x]) =
  match List.find f l with
  | Some y => Some y
  | None => if f x then Some x else None
  end.
Proof. induction l as [| y l IH]; simpl; [done |]. by destruct (f y). Qed.

(** The index built by [index_by] files each entry under the identifier
    it carries, and a later entry replaces an earlier one with the same
    identifier. *)
Lemma index_by_get (key : string) (entries : list pyval) (acc d : list (pyval * pyval))
    (k : pyval) :
  index_by key entries acc = Some d ->
  KDict.get k d =
  match List.find (carries key k) (rev entries) with
  | Some entry => Some entry
  | None => KDict.get k acc
  end.
Proof.
  revert acc. induction entries as [| entry entries IH]; intros acc Hidx; simpl in *.
  - by injection Hidx as ->.
  - rewrite find_app_last.
    unfold carries at 2.
    destruct (py_get entry key) as [entry_id |]; [| done]. simpl in Hidx.
    destruct (py_truthy entry_id); simpl.
    + unfold KDict.store in Hidx. destruct (py_hashable entry_id); [| done]. simpl in Hidx.
      rewrite (IH _ Hidx), kdict_get_set.
      destruct (List.find (carries key k) (rev entries)); [done |].
      by destruct (py_eq k entry_id).
    + rewrite (IH _ Hidx). by destruct (List.find (carries key k) (rev entries)).
Qed.


(** ** The sync loop *)

Lemma apply_updates_identifiers (kvs : list (string * pyval)) (m : Metadata) (u : list string) :
  md_identifiers (fst (apply_updates kvs m u)) = md_identifiers m.
Proof.
  revert m u. induction kvs as [| [k v] kvs IH]; intros m u; simpl; [done |].
  destruct (py_eq v (md_get m k)); simpl; by rewrite IH.
Qed.

(** Applying an update set never touches the identifiers of any book. *)
Lemma update_metadata_identifiers (db : DB) (book_uuid : pyval) (kvs : list (string * pyval))
    (book_id : Z) :
  md_identifiers (get_metadata (fst (update_metadata db book_uuid kvs)) book_id)
  = md_identifiers (get_metadata db book_id).
Proof.
  unfold update_metadata.
  destruct (lookup_by_uuid db book_uuid) as [found |]; [| done].
  destruct (Z.eqb found 0); [done |].
  pose proof (apply_updates_identifiers kvs (get_metadata db found) []) as Hids.
  destruct (apply_updates kvs (get_metadata db found) []) as [metadata' updates].
  destruct updates as [| key updates]; [done |]. simpl in *.
  destruct (decide (book_id = found)) as [-> | Hne].
  - by rewrite get_metadata_set_metadata.
  - unfold get_metadata, set_metadata. simpl. by rewrite lookup_insert_ne.
Qed.

Section Loop.
Variable COLUMNS : list (string * col_meta).
Variable CONFIG : gmap string string.
Variables (items_dict media_progress_dict : list (pyval * pyval)) (me_data : pyval).

Local Abbreviation body := (sync_book COLUMNS CONFIG items_dict media_progress_dict me_data).
Local Abbreviation loop := (sync_books COLUMNS CONFIG items_dict media_progress_dict me_data).

(** One turn of the loop: a book without a remote identifier changes
    nothing; any other book adds one row and one to exactly one count. No
    turn changes the identifiers of any book. *)
Lemma sync_book_effect (book_id : Z) (st st' : sync_state) :
  body book_id st = Some st' ->
  (forall id, md_identifiers (get_metadata (st_db st') id)
              = md_identifiers (get_metadata (st_db st) id))
  /\ (if py_truthy (abs_id_of (get_metadata (st_db st) book_id))
      then tally st' = S (tally st) /\ length (results st') = S (length (results st))
      else st' = st).
Proof.
  unfold sync_book, tally. fold (abs_id_of (get_metadata (st_db st) book_id)).
  destruct (py_truthy (abs_id_of (get_metadata (st_db st) book_id))); simpl;
    [| intros [= Heq]; by subst st'].
  destruct (KDict.lookup _ items_dict) as [found |]; [| done]. simpl.
  destruct (py_truthy (default PNone found)); simpl;
    [| intros [= <-]; simpl; rewrite length_app; simpl; split; [done | lia]].
  destruct (KDict.lookup _ media_progress_dict) as [progress |]; [| done]. simpl.
  destruct (reconcile _ _ _ _ _ _ _) as [kvs result].
  destruct kvs as [| kv kvs].
  { intros [= <-]. simpl. rewrite length_app. simpl. split; [done | lia]. }
  pose proof (update_metadata_identifiers (st_db st)
                (md_get (get_metadata (st_db st) book_id) "uuid") (kv :: kvs)) as Hids.
  destruct (update_metadata _ _ _) as [db' [status detail]]. simpl in Hids.
  destruct status; intros [= <-]; simpl; rewrite length_app; simpl; (split; [done | lia]).
Qed.

(** The whole loop: the counts and the rows both grow by the number of
    books with a remote identifier. *)
Lemma sync_books_effect (ids : list Z) (st st' : sync_state) :
  loop ids st = Some st' ->
  (forall id, md_identifiers (get_metadata (st_db st') id)
              = md_identifiers (get_metadata (st_db st) id))
  /\ let processed :=
       length (List.filter
                 (fun book_id => py_truthy (abs_id_of (get_metadata (st_db st) book_id))) ids) in
     tally st' = (tally st + processed)%nat
     /\ length (results st') = (length (results st) + processed)%nat.
Proof.
  revert st. induction ids as [| book_id ids IH]; intros st; simpl.
  - intros [= <-]. split; [done | lia].
  - destruct (body book_id st) as [st1 |] eqn:E1; [| done]. simpl. intros Hrest.
    apply sync_book_effect in E1. destruct E1 as [Hids1 Hstep].
    apply IH in Hrest. destruct Hrest as [Hids Hcount].
    split; [intros id; by rewrite Hids, Hids1 |].
    rewrite (List.filter_ext
               (fun id => py_truthy (abs_id_of (get_metadata (st_db st1) id)))
               (fun id => py_truthy (abs_id_of (get_metadata (st_db st) id)))) in Hcount
      by (intros id; unfold abs_id_of; by rewrite Hids1).
    simpl in Hcount.
    destruct (py_truthy (abs_id_of (get_metadata (st_db st) book_id))); simpl.
    + destruct Hstep as [Ht Hl]. lia.
    + subst st1. done.
Qed.
End Loop.


(** C5. In the report of a completed run the three counts add up to the
    number of rows, and the rows are as many as the books that have a
    remote identifier: a book without one adds no row and no count. *)
Theorem sync_report_counts
    (COLUMNS : list (string * col_meta)) (CONFIG : gmap string string)
    (items_data me_data : pyval) (db : DB)
    (updated skipped failed : nat) (rows : list (list (string * cell))) :
  sync_report (sync_from_audiobookshelf COLUMNS CONFIG items_data me_data db)
  = Some (updated, skipped, failed, rows) ->
  (updated + skipped + failed)%nat = length rows
  /\ length rows = length (linked_ids db).
Proof.
  unfold sync_from_audiobookshelf.
  destruct (_ || _); [done |]. destruct (_ || _); [done |].
  destruct (py_iter (unwrap_items items_data)) as [items_list |]; [| done]. simpl.
  destruct (index_by "id" items_list []) as [items_dict |]; [| done]. simpl.
  destruct (py_get_default me_data "mediaProgress" (PList [])) as [mp |]; [| done]. simpl.
  destruct (py_iter mp) as [mp_list |]; [| done]. simpl.
  destruct (index_by "libraryItemId" mp_list []) as [mp_dict |]; [| done]. simpl.
  destruct (sync_books _ _ _ _ _ _ _) as [st |] eqn:E; [| done]. simpl.
  intros [= <- <- <- <-].
  apply sync_books_effect in E. destruct E as [_ [Ht Hl]].
  unfold tally in Ht. simpl in Ht, Hl. unfold linked_ids. lia.
Qed.


Lemma sync_report_counts_witness :
  sync_report (sync_from_audiobookshelf Sample.COLUMNS Sample.CONFIG (PList [Sample.dune])
                 Sample.me_with_progress Sample.shelf)
  = Some (1%nat, 1%nat, 0%nat,
          [[("title", CValue (PStr "Persuasion"));
            ("error", CText "Audiobookshelf item not found")];
           [("title", CValue (PStr "Dune"));
            ("Audiobook Started", CChange PNone (PBool true));
            ("Audiobook Progress", CChange PNone (PFloat (42 # 100)))]])
  /\ length (db_search Sample.shelf) = 3%nat
  /\ (1 + 1 + 0)%nat = 2%nat
  /\ 2%nat = length (linked_ids Sample.shelf).
Proof.
  assert (sync_report (sync_from_audiobookshelf Sample.COLUMNS Sample.CONFIG
                         (PList [Sample.dune]) Sample.me_with_progress Sample.shelf)
          = Some (1%nat, 1%nat, 0%nat,
                  [[("title", CValue (PStr "Persuasion"));
                    ("error", CText "Audiobookshelf item not found")];
                   [("title", CValue (PStr "Dune"));
                    ("Audiobook Started", CChange PNone (PBool true));
                    ("Audiobook Progress", CChange PNone (PFloat (42 # 100)))]])) as Hrun.
  { vm_compute. reflexivity. }
  split; [exact Hrun |]. split; [vm_compute; reflexivity |].
  exact (sync_report_counts _ _ _ _ _ _ _ _ _ Hrun).
Defined.

(** ** Linking by identifier *)

Lemma kdict_get_congr {V : Type} (k k' : pyval) (d : list (pyval * V)) :
  py_eq k k' = true -> KDict.get k d = KDict.get k' d.
Proof.
  intros Heq. induction d as [| [k0 v0] d IH]; simpl; [done |].
  rewrite (py_eq_sym k k0), (py_eq_sym k' k0), (py_eq_congr k k' k0 Heq), IH. done.
Qed.

Lemma kdict_append_get {V : Type} (k k' : pyval) (v : V) (d d' : list (pyval * list V)) :
  KDict.append k' v d = Some d' ->
  KDict.get k d' = if py_eq k k' then Some (default [] (KDict.get k d) ++ [v])
                   else KDict.get k d.
Proof.
  unfold KDict.append. destruct (py_hashable k'); [| done]. intros [= <-].
  rewrite kdict_get_set. destruct (py_eq k k') eqn:E; [| done].
  by rewrite (kdict_get_congr k k' d E).
Qed.

Lemma shares_unfold (field : string) (k item media metadata_item value : pyval) :
  py_get_default item "media" (PDict []) = Some media ->
  py_get_default media "metadata" (PDict []) = Some metadata_item ->
  py_get metadata_item field = Some value ->
  shares field k item = py_truthy value && py_eq k value.
Proof.
  intros H1 H2 H3. unfold shares, item_metadata_get. rewrite H1. simpl. rewrite H2. simpl.
  unfold py_get in H3. by rewrite H3.
Qed.

(** The two indexes hold, under each identifier, the items that share it,
    in the order of the fetch. *)
Lemma index_identifiers_get (items : list pyval)
    (isbn_index asin_index isbn_index' asin_index' : list (pyval * list pyval)) (k : pyval) :
  index_identifiers items isbn_index asin_index = Some (isbn_index', asin_index') ->
  KDict.get k isbn_index' =
    match List.filter (shares "isbn" k) items with
    | [] => KDict.get k isbn_index
    | l => Some (default [] (KDict.get k isbn_index) ++ l)
    end
  /\ KDict.get k asin_index' =
    match List.filter (shares "asin" k) items with
    | [] => KDict.get k asin_index
    | l => Some (default [] (KDict.get k asin_index) ++ l)
    end.
Proof.
  revert isbn_index asin_index.
  induction items as [| item items IH]; intros isbn_index asin_index Hidx; simpl in Hidx.
  - injection Hidx as <- <-. done.
  - destruct (py_get_default item "media" (PDict [])) as [media |] eqn:E1; [| done].
    simpl in Hidx.
    destruct (py_get_default media "metadata" (PDict [])) as [metadata_item |] eqn:E2;
      [| done].
    simpl in Hidx.
    destruct (py_get metadata_item "isbn") as [isbn |] eqn:E3; [| done]. simpl in Hidx.
    destruct (py_get metadata_item "asin") as [asin |] eqn:E4; [| done]. simpl in Hidx.
    destruct (if py_truthy isbn then KDict.append isbn item isbn_index else Some isbn_index)
      as [isbn_index1 |] eqn:Ei; [| done]. simpl in Hidx.
    destruct (if py_truthy asin then KDict.append asin item asin_index else Some asin_index)
      as [asin_index1 |] eqn:Ea; [| done]. simpl in Hidx.
    destruct (IH _ _ Hidx) as [Hi Ha]. rewrite Hi, Ha. clear IH Hi Ha Hidx.
    simpl. rewrite (shares_unfold "isbn" k item media metadata_item isbn E1 E2 E3).
    rewrite (shares_unfold "asin" k item media metadata_item asin E1 E2 E4).
    split.
    + destruct (py_truthy isbn); simpl.
      * rewrite (kdict_append_get k isbn item isbn_index isbn_index1 Ei).
        destruct (py_eq k isbn); [| done]. simpl.
        destruct (List.filter (shares "isbn" k) items); [done |].
        by rewrite <- app_assoc.
      * by injection Ei as <-.
    + destruct (py_truthy asin); simpl.
      * rewrite (kdict_append_get k asin item asin_index asin_index1 Ea).
        destruct (py_eq k asin); [| done]. simpl.
        destruct (List.filter (shares "asin" k) items); [done |].
        by rewrite <- app_assoc.
      * by injection Ea as <-.
Qed.

(** The test of the loop against an index agrees with the test against
    the fetched items. *)
Lemma unique_match_sharing (items : list pyval)
    (isbn_index asin_index : list (pyval * list pyval)) (k : pyval) :
  index_identifiers items [] [] = Some (isbn_index, asin_index) ->
  py_hashable k = true ->
  unique_match k isbn_index = Some (unique_sharing "isbn" k items)
  /\ unique_match k asin_index = Some (unique_sharing "asin" k items).
Proof.
  intros Hidx Hhash. destruct (index_identifiers_get items [] [] _ _ k Hidx) as [Hi Ha].
  unfold unique_match, unique_sharing, KDict.lookup. rewrite Hhash, Hi, Ha. simpl.
  destruct (py_truthy k); [| done]. simpl. split.
  - destruct (List.filter (shares "isbn" k) items) as [| x [| y l]]; done.
  - destruct (List.filter (shares "asin" k) items) as [| x [| y l]]; done.
Qed.

(** An item that shares an identifier is a dictionary with content: its
    [id] and its title can be read, and it counts as true. *)
Lemma shares_readable (field : string) (k item : pyval) :
  shares field k item = true ->
  py_truthy item = true
  /\ (exists abs_id, py_get item "id" = Some abs_id)
  /\ (exists abs_title,
        item_metadata_get item "title" (PStr "Unknown Title") = Some abs_title).
Proof.
  unfold shares, item_metadata_get, py_get, py_get_default.
  destruct item as [ | | | | | | d]; try done. simpl.
  destruct (default (PDict []) (Dict.get "media" d)) as [ | | | | | | media] eqn:Em; try done.
  simpl.
  destruct (default (PDict []) (Dict.get "metadata" media)) as [ | | | | | | md] eqn:Emd;
    try done.
  simpl. intros Hshare. split; [| split; eauto].
  destruct d as [| kv d]; [| done]. simpl in Em. injection Em as <-.
  simpl in Emd. injection Emd as <-. simpl in Hshare. done.
Qed.

Lemma unique_sharing_shares (field : string) (k : pyval) (items : list pyval) (item : pyval) :
  unique_sharing field k items = Some item -> In item items /\ shares field k item = true.
Proof.
  unfold unique_sharing. destruct (py_truthy k); [| done].
  destruct (List.filter (shares field k) items) as [| x [| y l]] eqn:E; try done.
  intros [= ->]. apply filter_In. rewrite E. by left.
Qed.

Lemma find_match_sharing (items : list pyval)
    (isbn_index asin_index : list (pyval * list pyval)) (book_isbn book_asin : pyval) :
  index_identifiers items [] [] = Some (isbn_index, asin_index) ->
  py_hashable book_isbn = true ->
  py_hashable book_asin = true ->
  find_match book_isbn book_asin isbn_index asin_index =
  Some (match unique_sharing "isbn" book_isbn items with
        | Some item => Some item
        | None => unique_sharing "asin" book_asin items
        end).
Proof.
  intros Hidx Hisbn Hasin. unfold find_match.
  destruct (unique_match_sharing items _ _ book_isbn Hidx Hisbn) as [-> _].
  destruct (unique_match_sharing items _ _ book_asin Hidx Hasin) as [_ ->].
  simpl. by destruct (unique_sharing "isbn" book_isbn items).
Qed.

(** The turn of the loop for a book whose match is [item]. *)
Lemma quick_link_book_matched (isbn_index asin_index : list (pyval * list pyval))
    (book_id : Z) (st : link_state) (field : string) (k item : pyval) :
  Dict.mem "audiobookshelf_id" (md_identifiers (get_metadata (ls_db st) book_id)) = false ->
  find_match (default PNone (Dict.get "isbn" (md_identifiers (get_metadata (ls_db st) book_id))))
    (default PNone (Dict.get "asin" (md_identifiers (get_metadata (ls_db st) book_id))))
    isbn_index asin_index = Some (Some item) ->
  shares field k item = true ->
  exists st', quick_link_book isbn_index asin_index book_id st = Some st'
              /\ links_to st st' book_id item.
Proof.
  intros Hmem Hfind Hshares. unfold quick_link_book. rewrite Hmem, Hfind. simpl.
  destruct (shares_readable field k item Hshares) as (-> & [abs_id Hid] & [abs_title Ht]).
  rewrite Hid. simpl. rewrite Ht. simpl. eexists. split; [reflexivity |].
  exists abs_id. simpl. split; [done |]. split; [| done].
  by rewrite get_metadata_set_metadata.
Qed.

(** The turn of the loop for a book with no match. *)
Lemma quick_link_book_unmatched (isbn_index asin_index : list (pyval * list pyval))
    (book_id : Z) (st : link_state) :
  Dict.mem "audiobookshelf_id" (md_identifiers (get_metadata (ls_db st) book_id)) = false ->
  find_match (default PNone (Dict.get "isbn" (md_identifiers (get_metadata (ls_db st) book_id))))
    (default PNone (Dict.get "asin" (md_identifiers (get_metadata (ls_db st) book_id))))
    isbn_index asin_index = Some None ->
  quick_link_book isbn_index asin_index book_id st = Some (no_match st book_id).
Proof. intros Hmem Hfind. unfold quick_link_book. rewrite Hmem, Hfind. reflexivity. Qed.


(** C4 (amended). For a record without a remote identifier for which
    neither the ISBN nor the ASIN is shared by exactly one fetched item,
    the turn of the loop writes nothing: the database, and with it the
    identifiers of the record, stay as they are. It adds the row with the
    error "No unique match found" and counts the record in the failed
    count of the run, the only count besides the linked one. *)
Theorem quick_link_book_no_unique_match
    (items : list pyval) (isbn_index asin_index : list (pyval * list pyval))
    (book_id : Z) (st : link_state) :
  index_identifiers items [] [] = Some (isbn_index, asin_index) ->
  let identifiers := md_identifiers (get_metadata (ls_db st) book_id) in
  let book_isbn := default PNone (Dict.get "isbn" identifiers) in
  let book_asin := default PNone (Dict.get "asin" identifiers) in
  py_hashable book_isbn = true ->
  py_hashable book_asin = true ->
  Dict.mem "audiobookshelf_id" identifiers = false ->
  unique_sharing "isbn" book_isbn items = None ->
  unique_sharing "asin" book_asin items = None ->
  quick_link_book isbn_index asin_index book_id st =
  Some {| ls_db := ls_db st;
          num_linked := num_linked st;
          num_failed := S (num_failed st);
          link_results := link_results st ++
            [[("title", CValue (book_title (get_metadata (ls_db st) book_id) book_id));
              ("error", CText "No unique match found")]] |}.
Proof.
  intros Hidx identifiers book_isbn book_asin Hisbn Hasin Hmem Ei Ea.
  pose proof (find_match_sharing items _ _ book_isbn book_asin Hidx Hisbn Hasin) as Hfind.
  rewrite Ei, Ea in Hfind. by apply quick_link_book_unmatched.
Qed.


Lemma quick_link_book_no_unique_match_witness :
  index_identifiers [Sample.dune; Sample.emma; Sample.emma_again] [] []
  = Some (Sample.isbn_index_twice, Sample.asin_index_twice)
  /\ List.filter (shares "isbn" (PStr "9780141439587"))
       [Sample.dune; Sample.emma; Sample.emma_again]
     = [Sample.emma; Sample.emma_again]
  /\ quick_link_book Sample.isbn_index_twice Sample.asin_index_twice 3
       (Sample.link_start Sample.shelf)
     = Some {| ls_db := Sample.shelf;
               num_linked := 0;
               num_failed := 1;
               link_results := [[("title", CValue (PStr "Emma"));
                                 ("error", CText "No unique match found")]] |}.
Proof.
  split; [reflexivity |]. split; [reflexivity |].
  exact (quick_link_book_no_unique_match [Sample.dune; Sample.emma; Sample.emma_again]
           Sample.isbn_index_twice Sample.asin_index_twice 3
           (Sample.link_start Sample.shelf) eq_refl eq_refl eq_refl eq_refl eq_refl eq_refl).
Defined.

(** The one unlinked record of the database has an ISBN that two fetched
    items share and no ASIN. The run links nothing, and it reports the
    record under its failed count, with an error row: it keeps no count
    of skipped records. *)
Lemma no_unique_match_counted_as_failed :
  linked_ids Sample.shelf = [2; 1]
  /\ link_report (quick_link_books Sample.CONFIG
                    (PList [Sample.dune; Sample.emma; Sample.emma_again]) Sample.shelf)
     = Some (0%nat, 1%nat,
             [[("title", CValue (PStr "Emma")); ("error", CText "No unique match found")]]).
Proof. split; vm_compute; reflexivity. Qed.

(** ** The ordering of the link dialog *)

Lemma ascii_compare_Lt_trans (a b c : ascii) :
  Ascii.compare a b = Lt -> Ascii.compare b c = Lt -> Ascii.compare a c = Lt.
Proof. unfold Ascii.compare. rewrite !N.compare_lt_iff. apply N.lt_trans. Qed.

Lemma ascii_compare_Eq (a b : ascii) : Ascii.compare a b = Eq -> a = b.
Proof.
  unfold Ascii.compare. rewrite N.compare_eq_iff. intros H.
  rewrite <- (ascii_N_embedding a), <- (ascii_N_embedding b). by rewrite H.
Qed.

Lemma string_compare_Lt_trans (a b c : string) :
  String.compare a b = Lt -> String.compare b c = Lt -> String.compare a c = Lt.
Proof.
  revert b c. induction a as [| x a IH]; intros [| y b] [| z c]; simpl; try done.
  destruct (Ascii.compare x y) eqn:Exy; try done;
    destruct (Ascii.compare y z) eqn:Eyz; try done.
  - apply ascii_compare_Eq in Exy, Eyz. subst.
    assert (Ascii.compare z z = Eq) as ->; [| apply IH].
    unfold Ascii.compare. apply N.compare_refl.
  - apply ascii_compare_Eq in Exy. subst. by rewrite Eyz.
  - apply ascii_compare_Eq in Eyz. subst. by rewrite Exy.
  - by rewrite (ascii_compare_Lt_trans x y z Exy Eyz).
Qed.

Lemma string_ltb_leb (a b : string) : String.ltb b a = false <-> String.leb a b = true.
Proof.
  unfold String.ltb, String.leb. rewrite (String.compare_antisym a b).
  destruct (String.compare b a); simpl; split; done.
Qed.

Lemma string_leb_trans (a b c : string) :
  String.leb a b = true -> String.leb b c = true -> String.leb a c = true.
Proof.
  unfold String.leb. intros Hab Hbc.
  destruct (String.compare a c) eqn:Eac; try done.
  rewrite String.compare_antisym in Eac.
  destruct (String.compare c a) eqn:Eca; try done. clear Eac.
  destruct (String.compare a b) eqn:Eab; try done.
  - apply String.compare_eq_iff in Eab. subst b.
    rewrite String.compare_antisym, Eca in Hbc. done.
  - rewrite (String.compare_antisym b c), (string_compare_Lt_trans c a b Eca Eab) in Hbc.
    done.
Qed.

(** The order of the keys, spelled out. *)
Lemma key_ltb_false (a b : Z * string) :
  key_ltb b a = false <->
  fst a < fst b \/ (fst a = fst b /\ String.leb (snd a) (snd b) = true).
Proof.
  unfold key_ltb. rewrite orb_false_iff, andb_false_iff, Z.ltb_ge, Z.eqb_neq, string_ltb_leb.
  split.
  - intros [Hle [Hne | Hs]]; [left; lia |].
    destruct (Z.eq_dec (fst a) (fst b)); [right; done | left; lia].
  - intros [Hlt | [Heq Hs]]; (split; [lia |]); [left; lia | by right].
Qed.

Lemma keyed_le_trans {A : Type} (a b c : (Z * string) * A) :
  keyed_le a b -> keyed_le b c -> keyed_le a c.
Proof.
  unfold keyed_le. rewrite !key_ltb_false.
  intros [H1 | [H1 L1]] [H2 | [H2 L2]]; try (left; lia).
  right. split; [congruence |]. by apply (string_leb_trans _ (snd (fst b))).
Qed.

Lemma key_ltb_asym (a b : Z * string) : key_ltb a b = true -> key_ltb b a = false.
Proof.
  intros Hab. apply key_ltb_false.
  unfold key_ltb in Hab. apply orb_true_iff in Hab.
  destruct Hab as [Hlt | Heq]; [left; lia |].
  apply andb_true_iff in Heq. destruct Heq as [Heq Hs]. apply Z.eqb_eq in Heq.
  right. split; [done |]. unfold String.ltb in Hs. unfold String.leb.
  by destruct (String.compare (snd a) (snd b)).
Qed.

Section SortFacts.
Context {A : Type}.
Implicit Types (x : (Z * string) * A) (l : list ((Z * string) * A)).

Lemma insert_keyed_Permutation x l : Permutation (x :: l) (insert_keyed x l).
Proof.
  induction l as [| y l IH]; simpl; [done |].
  destruct (key_ltb (fst y) (fst x)); [| done].
  rewrite <- IH. apply perm_swap.
Qed.

Lemma sort_keyed_Permutation l : Permutation l (sort_keyed l).
Proof.
  induction l as [| x l IH]; simpl; [done |].
  rewrite <- insert_keyed_Permutation. by constructor.
Qed.

Lemma insert_keyed_Sorted x l : Sorted keyed_le l -> Sorted keyed_le (insert_keyed x l).
Proof.
  induction l as [| y l IH]; simpl; intros Hs.
  - by repeat constructor.
  - destruct (key_ltb (fst y) (fst x)) eqn:E.
    + apply Sorted_inv in Hs. destruct Hs as [Hs Hhd]. constructor; [by apply IH |].
      destruct l as [| z l]; simpl.
      * constructor. by apply key_ltb_asym.
      * destruct (key_ltb (fst z) (fst x)); constructor.
        -- by apply HdRel_inv in Hhd.
        -- by apply key_ltb_asym.
    + constructor; [done |]. by constructor.
Qed.

Lemma sort_keyed_StronglySorted l : StronglySorted keyed_le (sort_keyed l).
Proof.
  apply Sorted_StronglySorted.
  - intros a b c. apply keyed_le_trans.
  - induction l as [| x l IH]; simpl; [constructor | by apply insert_keyed_Sorted].
Qed.
End SortFacts.

(** The score the code computes is the score of the specification. *)
Lemma match_score_spec (calibre_title : string) (calibre_authors : list string)
    (abs_title abs_author : string) :
  match_score calibre_title calibre_authors abs_title abs_author
  = Z.of_nat (spec_score calibre_title calibre_authors abs_title abs_author).
Proof.
  unfold match_score, spec_score.
  assert ((if String.eqb abs_title calibre_title then 1 else 0)
          = Z.of_nat (if decide (abs_title = calibre_title) then 1 else 0)) as ->.
  { destruct (String.eqb abs_title calibre_title) eqn:E.
    - apply String.eqb_eq in E. by rewrite decide_True.
    - apply String.eqb_neq in E. by rewrite decide_False. }
  assert ((if existsb (String.eqb abs_author) calibre_authors then 1 else 0)
          = Z.of_nat (if decide (abs_author ∈ calibre_authors) then 1 else 0)) as ->.
  { destruct (existsb (String.eqb abs_author) calibre_authors) eqn:E.
    - apply existsb_eqb_In, list_elem_of_In in E. by rewrite decide_True.
    - rewrite decide_False; [done |]. intros Hin.
      apply list_elem_of_In, existsb_eqb_In in Hin. congruence. }
  lia.
Qed.

Section DialogOrder.
Variable lower : string -> string.
Variables (calibre_title : string) (calibre_authors : list string).

Local Abbreviation key := (sort_key lower calibre_title calibre_authors).
Local Abbreviation decorate := (fun item : pyval => k ← key item; Some (k, item)).

Lemma sort_key_ranked (a b : pyval) (ka kb : Z * string) :
  key a = Some ka -> key b = Some kb -> key_ltb kb ka = false ->
  ranked_before lower calibre_title calibre_authors a b.
Proof.
  unfold sort_key, ranked_before, item_lower.
  destruct (item_metadata_get a "title" (PStr "") ≫= py_lower lower) as [ta |]; [| done].
  destruct (item_metadata_get a "authorName" (PStr "") ≫= py_lower lower) as [aa |]; [| done].
  destruct (item_metadata_get b "title" (PStr "") ≫= py_lower lower) as [tb |]; [| done].
  destruct (item_metadata_get b "authorName" (PStr "") ≫= py_lower lower) as [ab |]; [| done].
  simpl. intros [= <-] [= <-]. rewrite key_ltb_false. simpl.
  rewrite !match_score_spec.
  intros [Hlt | [Heq Hle]]; [left; lia | right; split; [lia | done]].
Qed.

Lemma decorate_keys (items : list pyval) (keyed : list ((Z * string) * pyval)) :
  mapM decorate items = Some keyed ->
  map snd keyed = items /\ Forall (fun p => key (snd p) = Some (fst p)) keyed.
Proof.
  rewrite mapM_Some. induction 1 as [| item p items keyed Hp _ [IH1 IH2]]; [done |].
  destruct (key item) as [k |] eqn:Ek; simpl in Hp; [| done]. injection Hp as <-.
  simpl. split; [by rewrite IH1 | by constructor].
Qed.

Lemma keyed_sorted_ranked (keyed : list ((Z * string) * pyval)) :
  Forall (fun p => key (snd p) = Some (fst p)) keyed ->
  StronglySorted keyed_le keyed ->
  StronglySorted (ranked_before lower calibre_title calibre_authors) (map snd keyed).
Proof.
  intros Hkeys Hsorted. induction Hsorted as [| p l _ IH Hall]; simpl; [constructor |].
  apply Forall_cons in Hkeys. destruct Hkeys as [Hp Hl].
  constructor; [by apply IH |].
  rewrite List.Forall_forall in Hall, Hl. apply List.Forall_forall.
  intros b Hb. apply in_map_iff in Hb. destruct Hb as (q & <- & Hq).
  apply (sort_key_ranked (snd p) (snd q) (fst p) (fst q)); [done | by apply Hl |].
  by apply Hall.
Qed.
End DialogOrder.

(** C9. Whatever the lowering of strings is, when every item has a title
    and an author name that can be lowercased, the dialog shows the items
    it was given, each once, in an order in which an item comes before
    another only if it scores more, or scores the same and its lowercased
    title is not after the other's. The score is the one of the
    specification, [spec_score]: one point for a lowercased title equal to
    the lowercased title of the record, plus one point for a lowercased
    author name that is among the lowercased authors of the record. *)
Theorem link_dialog_items_ranked (lower : string -> string)
    (calibre_metadata : option Metadata) (items : list pyval)
    (calibre_title : string) (calibre_authors : list string) :
  dialog_title lower calibre_metadata = Some calibre_title ->
  dialog_authors lower calibre_metadata = Some calibre_authors ->
  Forall (fun item => is_Some (sort_key lower calibre_title calibre_authors item)) items ->
  exists sorted_items,
    link_dialog_items lower calibre_metadata items = Some sorted_items
    /\ Permutation items sorted_items
    /\ StronglySorted (ranked_before lower calibre_title calibre_authors) sorted_items.
Proof.
  intros Htitle Hauthors Hkeys. unfold link_dialog_items, py_sorted.
  rewrite Htitle, Hauthors. simpl.
  destruct (mapM (fun item =>
                    k ← sort_key lower calibre_title calibre_authors item; Some (k, item))
              items) as [keyed |] eqn:E; simpl.
  - destruct (decorate_keys _ _ _ _ _ E) as [Hitems Hall].
    eexists. split; [reflexivity |]. split.
    + rewrite <- Hitems. apply Permutation_map, sort_keyed_Permutation.
    + apply keyed_sorted_ranked; [| apply sort_keyed_StronglySorted].
      apply (Permutation_Forall (sort_keyed_Permutation keyed) Hall).
  - exfalso. apply mapM_None in E. apply Exists_exists in E.
    destruct E as (item & Hin & Hnone).
    rewrite Forall_forall in Hkeys. destruct (Hkeys item Hin) as [k Hk].
    rewrite Hk in Hnone. done.
Qed.

Lemma link_dialog_items_ranked_witness :
  dialog_title Sample.lower (Some Sample.unlinked_book) = Some "emma"
  /\ dialog_authors Sample.lower (Some Sample.unlinked_book) = Some ["jane austen"]
  /\ link_dialog_items Sample.lower (Some Sample.unlinked_book)
       [Sample.dune; Sample.emma_again; Sample.emma]
     = Some [Sample.emma_again; Sample.emma; Sample.dune]
  /\ exists sorted_items,
       link_dialog_items Sample.lower (Some Sample.unlinked_book)
         [Sample.dune; Sample.emma_again; Sample.emma] = Some sorted_items
       /\ Permutation [Sample.dune; Sample.emma_again; Sample.emma] sorted_items
       /\ StronglySorted (ranked_before Sample.lower "emma" ["jane austen"]) sorted_items.
Proof.
  split; [reflexivity |]. split; [reflexivity |]. split; [reflexivity |].
  apply (link_dialog_items_ranked Sample.lower (Some Sample.unlinked_book)
           [Sample.dune; Sample.emma_again; Sample.emma] "emma" ["jane austen"]);
    [reflexivity | reflexivity |].
  repeat constructor; vm_compute; eexists; reflexivity.
Defined.

(** The sort keeps items with equal keys in the order they came in, as
    [sorted] does. *)
Lemma key_ltb_irrefl (k : Z * string) : key_ltb k k = false.
Proof.
  destruct (key_ltb k k) eqn:E; [| done]. by rewrite (key_ltb_asym k k E) in E.
Qed.

Lemma sort_keyed_stable {A : Type} (k : Z * string) (l : list ((Z * string) * A)) :
  List.filter (fun p => bool_decide (fst p = k)) (sort_keyed l)
  = List.filter (fun p => bool_decide (fst p = k)) l.
Proof.
  induction l as [| x l IH]; simpl; [done |]. rewrite <- IH.
  generalize (sort_keyed l). clear IH l. intros l.
  induction l as [| y l IH]; simpl; [done |].
  destruct (key_ltb (fst y) (fst x)) eqn:E; simpl; [| done].
  rewrite IH. simpl.
  destruct (bool_decide (fst x = k)) eqn:Ex, (bool_decide (fst y = k)) eqn:Ey; try done.
  apply bool_decide_eq_true in Ex, Ey. rewrite Ex, Ey, key_ltb_irrefl in E. done.
Qed.

(** ** The examples of the specification *)

Example py_eq_bool_int : py_eq (PBool true) (PInt 1) = true.
Proof. reflexivity. Qed.

Example py_eq_int_float : py_eq (PInt 1) (PFloat (2 # 2)) = true.
Proof. reflexivity. Qed.

Example py_eq_str_int : py_eq (PStr "1") (PInt 1) = false.
Proof. reflexivity. Qed.

Example py_eq_dict_order :
  py_eq (PDict [("a", PInt 1); ("b", PStr "x")]) (PDict [("b", PStr "x"); ("a", PInt 1)])
  = true.
Proof. reflexivity. Qed.

Example get_nested_value_title :
  get_nested_value Sample.dune ["media"; "metadata"; "title"] = PStr "Dune".
Proof. reflexivity. Qed.

Example get_nested_value_missing_key :
  get_nested_value Sample.dune ["media"; "tags"; "first"] = PNone.
Proof. reflexivity. Qed.

Example get_nested_value_through_string :
  get_nested_value Sample.dune ["id"; "length"] = PNone.
Proof. reflexivity. Qed.

(** The progress fraction [0.42] against a stored [0.3], and against a
    stored [0.42]. *)
Example progress_fraction_changed :
  fst (reconcile [("column_audiobook_progress", Sample.progress_column)] Sample.CONFIG
         (md_set Sample.linked_book "#abs_progress" (PFloat (3 # 10))) 1
         Sample.dune_progress Sample.dune Sample.me_with_progress)
  = [("#abs_progress", PFloat (42 # 100))].
Proof. vm_compute. reflexivity. Qed.

Example progress_fraction_unchanged :
  fst (reconcile [("column_audiobook_progress", Sample.progress_column)] Sample.CONFIG
         (md_set Sample.linked_book "#abs_progress" (PFloat (42 # 100))) 1
         Sample.dune_progress Sample.dune Sample.me_with_progress)
  = [].
Proof. vm_compute. reflexivity. Qed.

(** One item with the ISBN of the record links it; a second item with the
    same ISBN leaves it unlinked. *)
Example quick_link_unique_isbn :
  link_report (quick_link_books Sample.CONFIG (PList [Sample.dune; Sample.emma]) Sample.shelf)
  = Some (1%nat, 0%nat,
          [[("title", CValue (PStr "Emma")); ("linked", CLinkedTo (PStr "Emma"))]]).
Proof. vm_compute. reflexivity. Qed.

Example quick_link_ambiguous_isbn :
  option_map (fun db => md_identifiers (get_metadata db 3))
    (link_db (quick_link_books Sample.CONFIG
                (PList [Sample.dune; Sample.emma; Sample.emma_again]) Sample.shelf))
  = Some [("isbn", PStr "9780141439587")].
Proof. vm_compute. reflexivity. Qed.

(** A failed request and a missing key stop the run before anything is
    read from the database. *)
Example sync_api_error :
  sync_from_audiobookshelf Sample.COLUMNS Sample.CONFIG PNone Sample.me_no_progress
    Sample.shelf = Some APIError.
Proof. reflexivity. Qed.

Example sync_configuration_error :
  sync_from_audiobookshelf Sample.COLUMNS ∅ (PList []) Sample.me_no_progress Sample.shelf
  = Some ConfigurationError.
Proof. reflexivity. Qed.

(** ** Runs that complete *)

Lemma index_by_completes (key : string) (entries : list pyval) (acc : list (pyval * pyval)) :
  Forall (indexable key) entries -> is_Some (index_by key entries acc).
Proof.
  intros Hall. revert acc. induction Hall as [| entry entries (entry_id & Hget & Hhash) _ IH];
    intros acc; simpl; [by eexists |].
  rewrite Hget. simpl. destruct (py_truthy entry_id); [| apply IH].
  unfold KDict.store. rewrite Hhash by done. simpl. apply IH.
Qed.

Lemma index_identifiers_completes (items : list pyval)
    (isbn_index asin_index : list (pyval * list pyval)) :
  Forall item_indexable items -> is_Some (index_identifiers items isbn_index asin_index).
Proof.
  intros Hall. revert isbn_index asin_index.
  induction Hall as [| item items (isbn & asin & Hisbn & Hasin & Hh1 & Hh2) _ IH];
    intros isbn_index asin_index; simpl; [by eexists |].
  unfold item_metadata_get in Hisbn, Hasin.
  destruct (py_get_default item "media" (PDict [])) as [media |]; [| done]. simpl in *.
  destruct (py_get_default media "metadata" (PDict [])) as [metadata_item |]; [| done].
  simpl in *. unfold py_get. rewrite Hisbn, Hasin. simpl.
  unfold KDict.append.
  destruct (py_truthy isbn); [rewrite Hh1 by done |]; simpl;
    (destruct (py_truthy asin); [rewrite Hh2 by done |]; simpl; apply IH).
Qed.

(** The sync loop raises only on a remote identifier that cannot be a
    dictionary key. *)
Lemma sync_books_completes
    (COLUMNS : list (string * col_meta)) (CONFIG : gmap string string)
    (items_dict media_progress_dict : list (pyval * pyval)) (me_data : pyval)
    (ids : list Z) (st : sync_state) :
  (forall id, py_hashable (abs_id_of (get_metadata (st_db st) id)) = true) ->
  is_Some (sync_books COLUMNS CONFIG items_dict media_progress_dict me_data ids st).
Proof.
  revert st. induction ids as [| book_id ids IH]; intros st Hhash; simpl; [by eexists |].
  assert (is_Some (sync_book COLUMNS CONFIG items_dict media_progress_dict me_data
                     book_id st)) as [st1 Hst1].
  { unfold sync_book. fold (abs_id_of (get_metadata (st_db st) book_id)).
    destruct (py_truthy (abs_id_of (get_metadata (st_db st) book_id))); simpl;
      [| by eexists].
    unfold KDict.lookup. rewrite Hhash. simpl.
    destruct (py_truthy (default PNone _)); simpl; [| by eexists].
    destruct (reconcile _ _ _ _ _ _ _) as [kvs result].
    destruct kvs as [| kv kvs]; [by eexists |].
    destruct (update_metadata _ _ _) as [db' [[] detail]]; by eexists. }
  rewrite Hst1. simpl. apply IH. intros id.
  apply sync_book_effect in Hst1. destruct Hst1 as [Hids _].
  unfold abs_id_of. rewrite Hids. apply Hhash.
Qed.

(** A sync run over payloads of the expected shape completes. *)
Lemma sync_completes
    (COLUMNS : list (string * col_meta)) (CONFIG : gmap string string)
    (items_data me_data : pyval) (db : DB) (items progress : list pyval) :
  config_get CONFIG "abs_key" <> "" ->
  config_get CONFIG "abs_library_id" <> "" ->
  items_data <> PNone ->
  py_iter (unwrap_items items_data) = Some items ->
  Forall (indexable "id") items ->
  py_get_default me_data "mediaProgress" (PList []) ≫= py_iter = Some progress ->
  Forall (indexable "libraryItemId") progress ->
  (forall id, py_hashable (abs_id_of (get_metadata db id)) = true) ->
  exists st, sync_from_audiobookshelf COLUMNS CONFIG items_data me_data db
             = Some (SyncCompleted st).
Proof.
  intros Hkey Hlib Hitems Hiter Hall Hprog Hallp Hhash. unfold sync_from_audiobookshelf.
  apply String.eqb_neq in Hkey, Hlib. rewrite Hkey, Hlib. simpl.
  apply is_none_false in Hitems. rewrite Hitems. simpl.
  destruct (is_none me_data) eqn:Eme.
  { apply is_none_true in Eme. subst me_data. done. }
  rewrite Hiter. simpl.
  destruct (index_by_completes "id" items [] Hall) as [items_dict ->]. simpl.
  destruct (py_get_default me_data "mediaProgress" (PList [])) as [mp |]; [| done].
  simpl in *. rewrite Hprog. simpl.
  destruct (index_by_completes "libraryItemId" progress [] Hallp) as [mp_dict ->]. simpl.
  destruct (sync_books_completes COLUMNS CONFIG items_dict mp_dict me_data (db_search db)
              {| st_db := db; num_success := 0; num_fail := 0; num_skip := 0; results := [] |}
              Hhash) as [st ->].
  simpl. by exists st.
Qed.

Lemma get_metadata_set_metadata_ne (db : DB) (book_id id : Z) (mi : Metadata) :
  id <> book_id -> get_metadata (set_metadata db book_id mi) id = get_metadata db id.
Proof. intros Hne. unfold get_metadata, set_metadata. simpl. by rewrite lookup_insert_ne. Qed.

(** A turn of the linking loop changes no identifier other than the
    remote one. *)
Lemma quick_link_book_identifiers (isbn_index asin_index : list (pyval * list pyval))
    (book_id : Z) (st st' : link_state) (id : Z) (key : string) :
  quick_link_book isbn_index asin_index book_id st = Some st' ->
  key <> "audiobookshelf_id" ->
  identifier_of key (get_metadata (ls_db st') id)
  = identifier_of key (get_metadata (ls_db st) id).
Proof.
  unfold quick_link_book. intros Hstep Hkey.
  destruct (Dict.mem "audiobookshelf_id" _); [by injection Hstep as <- |].
  destruct (find_match _ _ _ _) as [matched |]; simpl in Hstep; [| done].
  destruct (py_truthy (default PNone matched)); [| by injection Hstep as <-].
  destruct (py_get (default PNone matched) "id") as [abs_id |]; simpl in Hstep; [| done].
  destruct (item_metadata_get (default PNone matched) "title" _) as [abs_title |];
    simpl in Hstep; [| done].
  injection Hstep as <-. simpl.
  destruct (decide (id = book_id)) as [-> | Hne].
  - rewrite get_metadata_set_metadata. unfold identifier_of. simpl.
    by rewrite DictFacts.get_set_ne.
  - by rewrite get_metadata_set_metadata_ne.
Qed.

Lemma quick_link_book_completes (items : list pyval)
    (isbn_index asin_index : list (pyval * list pyval)) (book_id : Z) (st : link_state) :
  index_identifiers items [] [] = Some (isbn_index, asin_index) ->
  py_hashable (identifier_of "isbn" (get_metadata (ls_db st) book_id)) = true ->
  py_hashable (identifier_of "asin" (get_metadata (ls_db st) book_id)) = true ->
  is_Some (quick_link_book isbn_index asin_index book_id st).
Proof.
  unfold identifier_of. intros Hidx Hisbn Hasin.
  destruct (Dict.mem "audiobookshelf_id" (md_identifiers (get_metadata (ls_db st) book_id)))
    eqn:Hmem.
  { unfold quick_link_book. rewrite Hmem. by eexists. }
  pose proof (find_match_sharing items _ _ _ _ Hidx Hisbn Hasin) as Hfind.
  destruct (unique_sharing "isbn" _ items) as [item |] eqn:Ei.
  - apply unique_sharing_shares in Ei. destruct Ei as [_ Hs].
    destruct (quick_link_book_matched _ _ _ _ _ _ item Hmem Hfind Hs) as (st' & -> & _).
    by eexists.
  - destruct (unique_sharing "asin" _ items) as [item |] eqn:Ea.
    + apply unique_sharing_shares in Ea. destruct Ea as [_ Hs].
      destruct (quick_link_book_matched _ _ _ _ _ _ item Hmem Hfind Hs) as (st' & -> & _).
      by eexists.
    + rewrite (quick_link_book_unmatched _ _ _ _ Hmem Hfind). by eexists.
Qed.

(** The linking loop over an index built from the fetch raises only on a
    local ISBN or ASIN that cannot be a dictionary key. *)
Lemma quick_link_loop_completes (items : list pyval)
    (isbn_index asin_index : list (pyval * list pyval)) (ids : list Z) (st : link_state) :
  index_identifiers items [] [] = Some (isbn_index, asin_index) ->
  (forall id, py_hashable (identifier_of "isbn" (get_metadata (ls_db st) id)) = true
              /\ py_hashable (identifier_of "asin" (get_metadata (ls_db st) id)) = true) ->
  is_Some (quick_link_loop isbn_index asin_index ids st).
Proof.
  intros Hidx. revert st. induction ids as [| book_id ids IH]; intros st Hhash; simpl;
    [by eexists |].
  destruct (Hhash book_id) as [Hisbn Hasin].
  destruct (quick_link_book_completes items _ _ book_id st Hidx Hisbn Hasin) as [st' Hst'].
  rewrite Hst'. simpl. apply IH. intros id.
  rewrite !(quick_link_book_identifiers _ _ _ _ _ _ _ Hst') by done. apply Hhash.
Qed.

(** ** What a write preserves *)

Lemma keep_stored_eq (key : string) (stored : Metadata) (fields : gmap string pyval) :
  keep_stored key stored fields !! key = md_fields stored !! key.
Proof.
  unfold keep_stored. destruct (md_fields stored !! key) eqn:E.
  - apply lookup_insert_eq.
  - apply lookup_delete_eq.
Qed.

(** No update set changes the title or the authors of any book, even one
    that names them. *)
Lemma update_metadata_preserves_title_authors (db : DB) (book_uuid : pyval)
    (kvs : list (string * pyval)) (book_id : Z) :
  md_fields (get_metadata (fst (update_metadata db book_uuid kvs)) book_id) !! "title"
  = md_fields (get_metadata db book_id) !! "title"
  /\ md_fields (get_metadata (fst (update_metadata db book_uuid kvs)) book_id) !! "authors"
     = md_fields (get_metadata db book_id) !! "authors".
Proof.
  unfold update_metadata.
  destruct (lookup_by_uuid db book_uuid) as [found |]; [| done].
  destruct (Z.eqb found 0); [done |].
  destruct (apply_updates kvs (get_metadata db found) []) as [metadata' updates].
  destruct updates as [| key updates]; [done |]. simpl.
  destruct (decide (book_id = found)) as [-> | Hne].
  - rewrite get_metadata_set_metadata. simpl.
    rewrite keep_stored_ne, !keep_stored_eq by done. done.
  - by rewrite get_metadata_set_metadata_ne.
Qed.

(** The sample run writes the two columns of the linked book, once, and
    nothing else. *)
Example sync_writes_linked_book :
  option_map
    (fun db => (md_fields (get_metadata db 1) !! "#abs_progress",
                md_fields (get_metadata db 1) !! "title",
                db_writes db))
    (sync_db (sync_from_audiobookshelf Sample.COLUMNS Sample.CONFIG (PList [Sample.dune])
                Sample.me_with_progress Sample.shelf))
  = Some (Some (PFloat (42 # 100)), Some (PStr "Dune"), [1]).
Proof. vm_compute. reflexivity. Qed.

(** * Further properties of the methods *)

(** ** Paths of [get_nested_value] *)

(** X1. Following a path made of two parts is following the first part and
    then, from the value reached, the second: a default or a missing key
    met on the way gives [None] for the whole path. *)
Theorem get_nested_value_app (data : pyval) (p q : list string) :
  get_nested_value data (p ++ q) = get_nested_value (get_nested_value data p) q.
Proof.
  revert data. induction p as [| key p IH]; intros data; simpl; [done |].
  destruct data; try (by rewrite get_nested_value_None). apply IH.
Qed.

(** ** What [update_metadata] stores, reports and leaves alone *)

Lemma apply_updates_untouched (kvs : list (string * pyval)) (m : Metadata) (u : list string)
    (k : string) :
  ~ In k (Dict.keys kvs) ->
  md_fields (fst (apply_updates kvs m u)) !! k = md_fields m !! k.
Proof.
  revert m u. induction kvs as [| [k0 v0] kvs IH]; intros m u Hnot; simpl; [done |].
  simpl in Hnot.
  destruct (py_eq v0 (md_get m k0)); simpl; rewrite IH by tauto; [done |].
  simpl. apply lookup_insert_ne. intros ->. tauto.
Qed.

Lemma changed_keys_md_set (m : Metadata) (k0 : string) (v0 : pyval)
    (kvs : list (string * pyval)) :
  ~ In k0 (Dict.keys kvs) -> changed_keys (md_set m k0 v0) kvs = changed_keys m kvs.
Proof.
  intros Hnot. unfold changed_keys. f_equal. apply List.filter_ext_in.
  intros [k v] Hin. simpl. rewrite md_get_md_set.
  destruct (String.eqb k k0) eqn:E; [| done].
  apply String.eqb_eq in E. subst k0. exfalso. apply Hnot. apply in_map_iff. by exists (k, v).
Qed.

(** With distinct keys, the loop of [update_metadata] reports the keys
    whose value differs, and stores under each key its value when it
    differs and leaves the stored one when it does not. *)
Lemma apply_updates_distinct (kvs : list (string * pyval)) (m : Metadata) (u : list string) :
  List.NoDup (Dict.keys kvs) ->
  snd (apply_updates kvs m u) = u ++ changed_keys m kvs
  /\ forall k v, In (k, v) kvs ->
       md_fields (fst (apply_updates kvs m u)) !! k =
       if py_eq v (md_get m k) then md_fields m !! k else Some v.
Proof.
  revert m u. induction kvs as [| [k0 v0] kvs IH]; intros m u Hnd; simpl.
  - split; [by rewrite app_nil_r | done].
  - simpl in Hnd. apply List.NoDup_cons_iff in Hnd. destruct Hnd as [Hnot Hnd].
    unfold changed_keys. simpl.
    destruct (py_eq v0 (md_get m k0)) eqn:E0; simpl.
    + destruct (IH m u Hnd) as [Hsnd Hfields]. split; [exact Hsnd |].
      intros k v [[= -> ->] | Hin].
      * rewrite E0. by apply apply_updates_untouched.
      * by apply Hfields.
    + destruct (IH (md_set m k0 v0) (u ++ [k0]) Hnd) as [Hsnd Hfields]. split.
      * rewrite Hsnd, changed_keys_md_set by done. by rewrite <- app_assoc.
      * intros k v [[= -> ->] | Hin].
        -- rewrite E0, apply_updates_untouched by done. simpl. apply lookup_insert_eq.
        -- rewrite (Hfields k v Hin), md_get_md_set.
           destruct (String.eqb k k0) eqn:E.
           { apply String.eqb_eq in E. subst k0. exfalso. apply Hnot.
             apply in_map_iff. by exists (k, v). }
           apply String.eqb_neq in E. simpl. by rewrite lookup_insert_ne.
Qed.

(** X2. For a record that resolves and an update set with distinct keys
    (as the keys of a dictionary are), the list [update_metadata] returns
    under ['updated'] holds exactly the keys whose supplied value differs
    from the current one, in the order of the update set. *)
Theorem update_metadata_reports_changed_keys
    (db : DB) (book_uuid : pyval) (book_id : Z) (kvs : list (string * pyval)) :
  lookup_by_uuid db book_uuid = Some book_id ->
  book_id <> 0 ->
  List.NoDup (Dict.keys kvs) ->
  snd (update_metadata db book_uuid kvs)
  = (true, Updated (changed_keys (get_metadata db book_id) kvs) book_id).
Proof.
  intros Hlook Hid Hnd. unfold update_metadata. rewrite Hlook.
  apply Z.eqb_neq in Hid. rewrite Hid.
  destruct (apply_updates_distinct kvs (get_metadata db book_id) [] Hnd) as [Hsnd _].
  destruct (apply_updates kvs (get_metadata db book_id) []) as [metadata' updates].
  simpl in *. by subst updates.
Qed.

Lemma update_metadata_reports_changed_keys_witness :
  lookup_by_uuid Sample.library (PStr "uuid-1") = Some 1
  /\ snd (update_metadata Sample.library (PStr "uuid-1")
            [("title", PStr "Dune"); ("#abs_progress", PFloat (42 # 100));
             ("uuid", PStr "uuid-1"); ("#abs_started", PBool true)])
     = (true, Updated ["#abs_progress"; "#abs_started"] 1).
Proof.
  split; [reflexivity |].
  apply (update_metadata_reports_changed_keys Sample.library (PStr "uuid-1") 1
           [("title", PStr "Dune"); ("#abs_progress", PFloat (42 # 100));
            ("uuid", PStr "uuid-1"); ("#abs_started", PBool true)]); [reflexivity | lia |].
  apply NoDup_ListNoDup, (bool_decide_unpack _). vm_compute. reflexivity.
Defined.

(** X3. After [update_metadata] on a record that resolves, with distinct
    keys, the record read back holds under every supplied key, other than
    the title and the authors, the supplied value when it differed from
    the stored one and the stored one, which equals it, when it did not:
    in both cases a value equal ([==]) to the supplied one. *)
Theorem update_metadata_read_back
    (db : DB) (book_uuid : pyval) (book_id : Z) (kvs : list (string * pyval))
    (k : string) (v : pyval) :
  lookup_by_uuid db book_uuid = Some book_id ->
  book_id <> 0 ->
  List.NoDup (Dict.keys kvs) ->
  In (k, v) kvs ->
  k <> "title" ->
  k <> "authors" ->
  md_get (get_metadata (fst (update_metadata db book_uuid kvs)) book_id) k
  = (if py_eq v (md_get (get_metadata db book_id) k)
     then md_get (get_metadata db book_id) k else v)
  /\ py_eq v (md_get (get_metadata (fst (update_metadata db book_uuid kvs)) book_id) k)
     = true.
Proof.
  intros Hlook Hid Hnd Hin Ht Ha.
  assert (md_get (get_metadata (fst (update_metadata db book_uuid kvs)) book_id) k
          = (if py_eq v (md_get (get_metadata db book_id) k)
             then md_get (get_metadata db book_id) k else v)) as Hread.
  { unfold update_metadata. rewrite Hlook. apply Z.eqb_neq in Hid. rewrite Hid.
    destruct (apply_updates_distinct kvs (get_metadata db book_id) [] Hnd) as [Hsnd Hfields].
    specialize (Hfields k v Hin).
    destruct (apply_updates kvs (get_metadata db book_id) []) as [metadata' updates].
    simpl in *. subst updates.
    destruct (changed_keys (get_metadata db book_id) kvs) as [| key keys] eqn:Ec; simpl.
    - destruct (py_eq v (md_get (get_metadata db book_id) k)) eqn:E; [done |].
      exfalso. assert (In k (changed_keys (get_metadata db book_id) kvs)) as Hk.
      { unfold changed_keys. apply in_map_iff. exists (k, v). split; [done |].
        apply filter_In. split; [done |]. simpl. by rewrite E. }
      by rewrite Ec in Hk.
    - rewrite get_metadata_set_metadata. unfold md_get, md_get_default in *. simpl.
      rewrite !keep_stored_ne by done. rewrite Hfields.
      by destruct (py_eq v (default PNone (md_fields (get_metadata db book_id) !! k))). }
  split; [exact Hread |]. rewrite Hread.
  destruct (py_eq v (md_get (get_metadata db book_id) k)) eqn:E; [done | apply py_eq_refl].
Qed.

Lemma update_metadata_read_back_witness :
  lookup_by_uuid Sample.library (PStr "uuid-1") = Some 1
  /\ md_get (get_metadata
               (fst (update_metadata Sample.library (PStr "uuid-1")
                       [("#abs_progress", PFloat (42 # 100)); ("#abs_started", PBool true)]))
               1) "#abs_started"
     = PBool true.
Proof.
  split; [reflexivity |].
  refine (proj1 (update_metadata_read_back Sample.library (PStr "uuid-1") 1
                   [("#abs_progress", PFloat (42 # 100)); ("#abs_started", PBool true)]
                   "#abs_started" (PBool true) eq_refl _ _ _ _ _)).
  - lia.
  - apply NoDup_ListNoDup, (bool_decide_unpack _). vm_compute. reflexivity.
  - simpl. tauto.
  - discriminate.
  - discriminate.
Defined.

Lemma update_metadata_untouched
    (db : DB) (book_uuid : pyval) (kvs : list (string * pyval)) (book_id : Z) (k : string) :
  lookup_by_uuid db book_uuid <> Some book_id \/ ~ In k (Dict.keys kvs) ->
  md_fields (get_metadata (fst (update_metadata db book_uuid kvs)) book_id) !! k
  = md_fields (get_metadata db book_id) !! k.
Proof.
  intros Hk. unfold update_metadata.
  destruct (lookup_by_uuid db book_uuid) as [found |]; [| done].
  destruct (Z.eqb found 0); [done |].
  pose proof (apply_updates_untouched kvs (get_metadata db found) [] k) as Hun.
  destruct (apply_updates kvs (get_metadata db found) []) as [metadata' updates].
  destruct updates as [| key updates]; [done |]. simpl in *.
  destruct (decide (book_id = found)) as [-> | Hne];
    [| by rewrite get_metadata_set_metadata_ne].
  destruct Hk as [Hk | Hk]; [done |].
  rewrite get_metadata_set_metadata. simpl.
  destruct (decide (k = "authors")) as [-> | Ha]; [apply keep_stored_eq |].
  rewrite keep_stored_ne by done.
  destruct (decide (k = "title")) as [-> | Ht]; [apply keep_stored_eq |].
  rewrite keep_stored_ne by done. by apply Hun.
Qed.

(** X4. With an update set that has no key ['identifiers'],
    [update_metadata] changes nothing but the supplied keys of the record
    the uuid resolves to: every other book, and every field of that record
    that is not a key of the update set, reads as before; so do the
    identifiers, the title and the authors of every book. *)
Theorem update_metadata_frame
    (db : DB) (book_uuid : pyval) (kvs : list (string * pyval)) (book_id : Z) (k : string) :
  ~ In "identifiers" (Dict.keys kvs) ->
  lookup_by_uuid db book_uuid <> Some book_id \/ ~ In k (Dict.keys kvs) ->
  md_fields (get_metadata (fst (update_metadata db book_uuid kvs)) book_id) !! k
    = md_fields (get_metadata db book_id) !! k
  /\ md_identifiers (get_metadata (fst (update_metadata db book_uuid kvs)) book_id)
     = md_identifiers (get_metadata db book_id)
  /\ md_fields (get_metadata (fst (update_metadata db book_uuid kvs)) book_id) !! "title"
     = md_fields (get_metadata db book_id) !! "title"
  /\ md_fields (get_metadata (fst (update_metadata db book_uuid kvs)) book_id) !! "authors"
     = md_fields (get_metadata db book_id) !! "authors".
Proof.
  intros _ Hk. split; [by apply update_metadata_untouched |].
  split; [apply update_metadata_identifiers | apply update_metadata_preserves_title_authors].
Qed.

Lemma update_metadata_frame_witness :
  ~ In "identifiers" (Dict.keys [("#abs_progress", PFloat (42 # 100))])
  /\ ~ In "uuid" (Dict.keys [("#abs_progress", PFloat (42 # 100))])
  /\ md_fields (get_metadata
                  (fst (update_metadata Sample.shelf (PStr "uuid-1")
                          [("#abs_progress", PFloat (42 # 100))])) 1) !! "uuid"
     = Some (PStr "uuid-1")
  /\ md_identifiers (get_metadata
                       (fst (update_metadata Sample.shelf (PStr "uuid-1")
                               [("#abs_progress", PFloat (42 # 100))])) 1)
     = [("audiobookshelf_id", PStr "li_dune")].
Proof.
  assert (~ In "identifiers" (Dict.keys [("#abs_progress", PFloat (42 # 100))])) as Hids.
  { simpl. intros [H | []]. discriminate H. }
  assert (~ In "uuid" (Dict.keys [("#abs_progress", PFloat (42 # 100))])) as Hnot.
  { simpl. intros [H | []]. discriminate H. }
  split; [exact Hids |]. split; [exact Hnot |].
  destruct (update_metadata_frame Sample.shelf (PStr "uuid-1")
              [("#abs_progress", PFloat (42 # 100))] 1 "uuid" Hids (or_intror Hnot))
    as (Hfield & Hidentifiers & _).
  split; [exact Hfield | exact Hidentifiers].
Defined.

(** ** The indexes of a sync run *)

(** X5. The index built over the fetched entries maps an identifier to
    the last entry of the fetch that carries it, so a later entry replaces
    an earlier one with an equal identifier; an entry whose identifier is
    missing or empty is not indexed, and an identifier no entry carries is
    not in the index. *)
Theorem index_by_last_wins (key : string) (entries : list pyval) (d : list (pyval * pyval))
    (k : pyval) :
  index_by key entries [] = Some d ->
  KDict.get k d = List.find (carries key k) (rev entries).
Proof.
  intros Hidx. rewrite (index_by_get key entries [] d k Hidx).
  by destruct (List.find (carries key k) (rev entries)).
Qed.

Lemma index_by_last_wins_witness :
  index_by "id" [Sample.dune; Sample.emma; Sample.dune_reissue; PDict [("id", PStr "")]] []
  = Some [(PStr "li_dune", Sample.dune_reissue); (PStr "li_emma", Sample.emma)]
  /\ KDict.get (PStr "li_dune")
       [(PStr "li_dune", Sample.dune_reissue); (PStr "li_emma", Sample.emma)]
     = Some Sample.dune_reissue.
Proof.
  split; [reflexivity |].
  exact (index_by_last_wins "id"
           [Sample.dune; Sample.emma; Sample.dune_reissue; PDict [("id", PStr "")]]
           _ (PStr "li_dune") eq_refl).
Defined.

(** ** Runs of [sync_from_audiobookshelf] *)

(** X6. A sync run raises no exception and reaches its report when the
    connection is configured, both payloads arrived, the items and the
    progress records are dictionaries whose identifier, when set, can be a
    dictionary key, and so can the remote identifier of every book. *)
Theorem sync_run_completes
    (COLUMNS : list (string * col_meta)) (CONFIG : gmap string string)
    (items_data me_data : pyval) (db : DB) (items progress : list pyval) :
  config_get CONFIG "abs_key" <> "" ->
  config_get CONFIG "abs_library_id" <> "" ->
  items_data <> PNone ->
  py_iter (unwrap_items items_data) = Some items ->
  Forall (indexable "id") items ->
  py_get_default me_data "mediaProgress" (PList []) ≫= py_iter = Some progress ->
  Forall (indexable "libraryItemId") progress ->
  (forall id, py_hashable (abs_id_of (get_metadata db id)) = true) ->
  exists st, sync_from_audiobookshelf COLUMNS CONFIG items_data me_data db
             = Some (SyncCompleted st).
Proof. apply sync_completes. Qed.

Lemma sample_shelf_hashable (id : Z) :
  py_hashable (abs_id_of (get_metadata Sample.shelf id)) = true.
Proof.
  unfold abs_id_of, get_metadata, Sample.shelf. simpl.
  destruct (decide (id = 1)) as [-> | H1]; [reflexivity |].
  destruct (decide (id = 2)) as [-> | H2]; [reflexivity |].
  destruct (decide (id = 3)) as [-> | H3]; [reflexivity |].
  rewrite !lookup_insert_ne by done. by rewrite lookup_singleton_ne.
Qed.

Lemma sync_run_completes_witness :
  py_iter (unwrap_items (PDict [("results", PList [Sample.dune; Sample.emma])]))
  = Some [Sample.dune; Sample.emma]
  /\ exists st,
       sync_from_audiobookshelf Sample.COLUMNS Sample.CONFIG
         (PDict [("results", PList [Sample.dune; Sample.emma])])
         Sample.me_with_progress Sample.shelf
       = Some (SyncCompleted st).
Proof.
  split; [reflexivity |].
  apply (sync_run_completes Sample.COLUMNS Sample.CONFIG
           (PDict [("results", PList [Sample.dune; Sample.emma])])
           Sample.me_with_progress Sample.shelf
           [Sample.dune; Sample.emma] [Sample.dune_progress]).
  - vm_compute. discriminate.
  - vm_compute. discriminate.
  - discriminate.
  - reflexivity.
  - repeat constructor; eexists; (split; [reflexivity | reflexivity]).
  - reflexivity.
  - repeat constructor; eexists; (split; [reflexivity | reflexivity]).
  - apply sample_shelf_hashable.
Defined.

Lemma sync_books_nothing_fetched
    (COLUMNS : list (string * col_meta)) (CONFIG : gmap string string)
    (media_progress_dict : list (pyval * pyval)) (me_data : pyval)
    (ids : list Z) (db : DB) (a b c : nat) (rows : list (list (string * cell))) :
  (forall id, py_hashable (abs_id_of (get_metadata db id)) = true) ->
  sync_books COLUMNS CONFIG [] media_progress_dict me_data ids (mkSyncState db a b c rows)
  = Some (mkSyncState db a b
            (c + length (List.filter
                           (fun id => py_truthy (abs_id_of (get_metadata db id))) ids))%nat
            (rows ++ map (fun id => not_found_row (get_metadata db id) id)
                       (List.filter
                          (fun id => py_truthy (abs_id_of (get_metadata db id))) ids))).
Proof.
  intros Hhash. revert c rows. induction ids as [| id ids IH]; intros c rows; simpl.
  - by rewrite Nat.add_0_r, app_nil_r.
  - unfold sync_book. simpl. fold (abs_id_of (get_metadata db id)).
    destruct (py_truthy (abs_id_of (get_metadata db id))); simpl.
    + unfold KDict.lookup. rewrite Hhash. simpl. rewrite IH.
      by rewrite Nat.add_succ_comm, <- app_assoc.
    + apply IH.
Qed.

(** X7. When the items payload holds no items (an empty list, or any
    value that is neither a list nor a dictionary with [results]), the run
    writes nothing: the database is as before, no book is updated or
    failed, and every book with a remote identifier is counted as skipped
    with the row "Audiobookshelf item not found". *)
Theorem sync_nothing_fetched
    (COLUMNS : list (string * col_meta)) (CONFIG : gmap string string)
    (items_data me_data : pyval) (db : DB) (progress : list pyval) :
  config_get CONFIG "abs_key" <> "" ->
  config_get CONFIG "abs_library_id" <> "" ->
  items_data <> PNone ->
  py_iter (unwrap_items items_data) = Some [] ->
  py_get_default me_data "mediaProgress" (PList []) ≫= py_iter = Some progress ->
  Forall (indexable "libraryItemId") progress ->
  (forall id, py_hashable (abs_id_of (get_metadata db id)) = true) ->
  sync_from_audiobookshelf COLUMNS CONFIG items_data me_data db
  = Some (SyncCompleted
            (mkSyncState db 0 0 (length (linked_ids db))
               (map (fun id => not_found_row (get_metadata db id) id) (linked_ids db)))).
Proof.
  intros Hkey Hlib Hitems Hiter Hprog Hallp Hhash. unfold sync_from_audiobookshelf.
  apply String.eqb_neq in Hkey, Hlib. rewrite Hkey, Hlib. simpl.
  apply is_none_false in Hitems. rewrite Hitems. simpl.
  destruct (is_none me_data) eqn:Eme.
  { apply is_none_true in Eme. subst me_data. done. }
  rewrite Hiter. simpl.
  destruct (py_get_default me_data "mediaProgress" (PList [])) as [mp |]; [| done].
  simpl in *. rewrite Hprog. simpl.
  destruct (index_by_completes "libraryItemId" progress [] Hallp) as [mp_dict ->]. simpl.
  rewrite (sync_books_nothing_fetched COLUMNS CONFIG mp_dict me_data (db_search db)
             db 0 0 0 [] Hhash).
  reflexivity.
Qed.

Lemma sync_nothing_fetched_witness :
  unwrap_items (PDict [("total", PInt 0)]) = PList []
  /\ sync_report (sync_from_audiobookshelf Sample.COLUMNS Sample.CONFIG
                    (PDict [("total", PInt 0)]) Sample.me_with_progress Sample.shelf)
     = Some (0%nat, 2%nat, 0%nat,
             [[("title", CValue (PStr "Persuasion"));
               ("error", CText "Audiobookshelf item not found")];
              [("title", CValue (PStr "Dune"));
               ("error", CText "Audiobookshelf item not found")]])
  /\ sync_db (sync_from_audiobookshelf Sample.COLUMNS Sample.CONFIG
                (PDict [("total", PInt 0)]) Sample.me_with_progress Sample.shelf)
     = Some Sample.shelf.
Proof.
  split; [reflexivity |].
  assert (sync_from_audiobookshelf Sample.COLUMNS Sample.CONFIG
            (PDict [("total", PInt 0)]) Sample.me_with_progress Sample.shelf
          = Some (SyncCompleted
                    (mkSyncState Sample.shelf 0 0 (length (linked_ids Sample.shelf))
                       (map (fun id => not_found_row (get_metadata Sample.shelf id) id)
                          (linked_ids Sample.shelf))))) as ->.
  { apply (sync_nothing_fetched Sample.COLUMNS Sample.CONFIG (PDict [("total", PInt 0)])
             Sample.me_with_progress Sample.shelf [Sample.dune_progress]).
    - vm_compute. discriminate.
    - vm_compute. discriminate.
    - discriminate.
    - reflexivity.
    - reflexivity.
    - repeat constructor; eexists; (split; [reflexivity | reflexivity]).
    - apply sample_shelf_hashable. }
  split; vm_compute; reflexivity.
Defined.

(** ** What a sync run leaves alone *)

Lemma update_metadata_writes_le (db : DB) (book_uuid : pyval) (kvs : list (string * pyval)) :
  (length (db_writes (fst (update_metadata db book_uuid kvs)))
   <= length (db_writes db)
      + (if fst (snd (update_metadata db book_uuid kvs)) then 1 else 0))%nat.
Proof.
  unfold update_metadata.
  destruct (lookup_by_uuid db book_uuid) as [i |]; [| simpl; lia].
  destruct (Z.eqb i 0); [simpl; lia |].
  destruct (apply_updates kvs (get_metadata db i) []) as [m' updates].
  destruct updates; simpl; rewrite ?length_app; simpl; lia.
Qed.

Section RunFrame.
Variable COLUMNS : list (string * col_meta).
Variable CONFIG : gmap string string.

(** The keys of an update set are destinations of configured columns. *)
Lemma fold_sync_column_keys metadata progress_data item_data me_data cols acc k :
  In k (Dict.keys (fst (fold_left (sync_column CONFIG metadata progress_data item_data
                                     me_data) cols acc))) ->
  In k (Dict.keys (fst acc)) \/ In k (destinations CONFIG cols).
Proof.
  revert acc. induction cols as [| [name col] cols IH]; intros acc Hin; cbn [fold_left] in Hin;
    [by left |].
  apply IH in Hin. rewrite destinations_cons.
  destruct (sync_column_cases CONFIG metadata progress_data item_data me_data acc name col)
    as [Hs | (Hname & _ & _ & Hs)]; rewrite Hs in Hin.
  - destruct Hin as [Hin | Hin]; [by left |]. right.
    destruct (String.eqb (config_get CONFIG name) ""); [done | by right].
  - apply String.eqb_neq in Hname. rewrite Hname.
    destruct Hin as [Hin | Hin]; [| right; by right]. simpl in Hin.
    apply keys_set_In in Hin. destruct Hin as [-> | Hin]; [right; by left | by left].
Qed.

Lemma reconcile_keys_destinations metadata book_id progress_data item_data me_data k :
  In k (Dict.keys (fst (reconcile COLUMNS CONFIG metadata book_id
                          progress_data item_data me_data))) ->
  In k (destinations CONFIG COLUMNS).
Proof.
  intros Hin. unfold reconcile in Hin. apply fold_sync_column_keys in Hin.
  destruct Hin as [[] | Hin]. exact Hin.
Qed.

Variables (items_dict media_progress_dict : list (pyval * pyval)) (me_data : pyval).

(** What a field of a book may not be for a turn of the loop to leave it
    alone: a destination of a configured column, unless it is the title or
    the authors. *)
Lemma sync_book_frame (book_id : Z) (st st' : sync_state) (id : Z) (k : string) :
  sync_book COLUMNS CONFIG items_dict media_progress_dict me_data book_id st = Some st' ->
  k = "title" \/ k = "authors" \/ ~ In k (destinations CONFIG COLUMNS) ->
  md_fields (get_metadata (st_db st') id) !! k = md_fields (get_metadata (st_db st) id) !! k.
Proof.
  unfold sync_book. intros Hstep Hk.
  destruct (negb (py_truthy _)); [by injection Hstep as <- |].
  destruct (KDict.lookup _ items_dict) as [found |]; [| done]. simpl in Hstep.
  destruct (negb (py_truthy (default PNone found))); [by injection Hstep as <- |].
  destruct (KDict.lookup _ media_progress_dict) as [progress |]; [| done]. simpl in Hstep.
  pose proof (reconcile_keys_destinations (get_metadata (st_db st) book_id) book_id
                (default (PDict []) progress) (default PNone found) me_data k) as Hkeys.
  destruct (reconcile _ _ _ _ _ _ _) as [kvs result]. simpl in Hkeys.
  destruct kvs as [| kv kvs]; [by injection Hstep as <- |].
  pose proof (update_metadata_untouched (st_db st)
                (md_get (get_metadata (st_db st) book_id) "uuid") (kv :: kvs) id k) as Hun.
  pose proof (update_metadata_preserves_title_authors (st_db st)
                (md_get (get_metadata (st_db st) book_id) "uuid") (kv :: kvs) id)
    as [Ht Ha].
  destruct (update_metadata _ _ _) as [db' [status detail]]. simpl in Hun, Ht, Ha.
  assert (md_fields (get_metadata db' id) !! k = md_fields (get_metadata (st_db st) id) !! k)
    as Hgoal.
  { destruct Hk as [-> | [-> | Hk]]; [exact Ht | exact Ha |]. apply Hun. right.
    intros Hin. apply Hk, Hkeys, Hin. }
  destruct status; by injection Hstep as <-.
Qed.

Lemma sync_books_frame (ids : list Z) (st st' : sync_state) (id : Z) (k : string) :
  sync_books COLUMNS CONFIG items_dict media_progress_dict me_data ids st = Some st' ->
  k = "title" \/ k = "authors" \/ ~ In k (destinations CONFIG COLUMNS) ->
  md_fields (get_metadata (st_db st') id) !! k = md_fields (get_metadata (st_db st) id) !! k.
Proof.
  revert st. induction ids as [| book_id ids IH]; intros st Hloop Hk; simpl in Hloop.
  - by injection Hloop as <-.
  - destruct (sync_book _ _ _ _ _ book_id st) as [st1 |] eqn:E1; [| done]. simpl in Hloop.
    rewrite (IH st1 Hloop Hk). by apply (sync_book_frame book_id st st1).
Qed.

(** One turn writes at most once, and only for a book it counts as
    updated. *)
Lemma sync_book_writes (book_id : Z) (st st' : sync_state) :
  sync_book COLUMNS CONFIG items_dict media_progress_dict me_data book_id st = Some st' ->
  (length (db_writes (st_db st')) + num_success st
   <= length (db_writes (st_db st)) + num_success st')%nat.
Proof.
  unfold sync_book. intros Hstep.
  destruct (negb (py_truthy _)); [injection Hstep as <-; lia |].
  destruct (KDict.lookup _ items_dict) as [found |]; [| done]. simpl in Hstep.
  destruct (negb (py_truthy (default PNone found))); [injection Hstep as <-; simpl; lia |].
  destruct (KDict.lookup _ media_progress_dict) as [progress |]; [| done]. simpl in Hstep.
  destruct (reconcile _ _ _ _ _ _ _) as [kvs result].
  destruct kvs as [| kv kvs]; [injection Hstep as <-; simpl; lia |].
  pose proof (update_metadata_writes_le (st_db st)
                (md_get (get_metadata (st_db st) book_id) "uuid") (kv :: kvs)) as Hw.
  destruct (update_metadata _ _ _) as [db' [status detail]]. simpl in Hw.
  destruct status; injection Hstep as <-; simpl; lia.
Qed.

Lemma sync_books_writes (ids : list Z) (st st' : sync_state) :
  sync_books COLUMNS CONFIG items_dict media_progress_dict me_data ids st = Some st' ->
  (length (db_writes (st_db st')) + num_success st
   <= length (db_writes (st_db st)) + num_success st')%nat.
Proof.
  revert st. induction ids as [| book_id ids IH]; intros st Hloop; simpl in Hloop.
  - injection Hloop as <-. lia.
  - destruct (sync_book _ _ _ _ _ book_id st) as [st1 |] eqn:E1; [| done]. simpl in Hloop.
    apply sync_book_writes in E1. apply IH in Hloop. lia.
Qed.
End RunFrame.

Lemma sync_from_audiobookshelf_loop
    (COLUMNS : list (string * col_meta)) (CONFIG : gmap string string)
    (items_data me_data : pyval) (db : DB) (st : sync_state) :
  sync_from_audiobookshelf COLUMNS CONFIG items_data me_data db = Some (SyncCompleted st) ->
  exists items_dict media_progress_dict,
    sync_books COLUMNS CONFIG items_dict media_progress_dict me_data (db_search db)
      (mkSyncState db 0 0 0 []) = Some st.
Proof.
  unfold sync_from_audiobookshelf.
  destruct (_ || _); [done |]. destruct (_ || _); [done |].
  destruct (py_iter (unwrap_items items_data)) as [items_list |]; [| done]. simpl.
  destruct (index_by "id" items_list []) as [items_dict |]; [| done]. simpl.
  destruct (py_get_default me_data "mediaProgress" (PList [])) as [mp |]; [| done]. simpl.
  destruct (py_iter mp) as [mp_list |]; [| done]. simpl.
  destruct (index_by "libraryItemId" mp_list []) as [mp_dict |]; [| done]. simpl.
  destruct (sync_books _ _ _ _ _ _ _) as [st0 |] eqn:E; [| done]. simpl.
  intros [= <-]. by exists items_dict, mp_dict.
Qed.

(** X8. When no column is configured to the destination ['identifiers'],
    a completed sync run changes, in any book, only fields that are
    destinations of configured columns: the identifiers of every book
    (and with them every link), its title, its authors and every field
    that no column is configured to are as before the run. *)
Theorem sync_run_frame
    (COLUMNS : list (string * col_meta)) (CONFIG : gmap string string)
    (items_data me_data : pyval) (db : DB) (st : sync_state) (id : Z) (k : string) :
  sync_from_audiobookshelf COLUMNS CONFIG items_data me_data db = Some (SyncCompleted st) ->
  ~ In "identifiers" (destinations CONFIG COLUMNS) ->
  k = "title" \/ k = "authors" \/ ~ In k (destinations CONFIG COLUMNS) ->
  md_fields (get_metadata (st_db st) id) !! k = md_fields (get_metadata db id) !! k
  /\ md_identifiers (get_metadata (st_db st) id) = md_identifiers (get_metadata db id).
Proof.
  intros Hrun _ Hk. apply sync_from_audiobookshelf_loop in Hrun.
  destruct Hrun as (items_dict & mp_dict & Hloop). split.
  - by apply (sync_books_frame COLUMNS CONFIG items_dict mp_dict me_data _ _ _ id k Hloop).
  - apply sync_books_effect in Hloop. destruct Hloop as [Hids _]. apply Hids.
Qed.

(** X9. A completed sync run calls the write of the store at most once
    for each book it counts as updated: books counted as skipped or as
    failed are never written. *)
Theorem sync_run_writes_bounded
    (COLUMNS : list (string * col_meta)) (CONFIG : gmap string string)
    (items_data me_data : pyval) (db : DB) (st : sync_state) :
  sync_from_audiobookshelf COLUMNS CONFIG items_data me_data db = Some (SyncCompleted st) ->
  (length (db_writes (st_db st)) <= length (db_writes db) + num_success st)%nat.
Proof.
  intros Hrun. apply sync_from_audiobookshelf_loop in Hrun.
  destruct Hrun as (items_dict & mp_dict & Hloop).
  apply sync_books_writes in Hloop. simpl in Hloop. lia.
Qed.

Lemma sample_sync_run :
  sync_from_audiobookshelf Sample.COLUMNS Sample.CONFIG (PList [Sample.dune])
    Sample.me_with_progress Sample.shelf
  = Some (SyncCompleted Sample.synced).
Proof. vm_compute. reflexivity. Qed.

Lemma sync_run_frame_witness :
  sync_from_audiobookshelf Sample.COLUMNS Sample.CONFIG (PList [Sample.dune])
    Sample.me_with_progress Sample.shelf
  = Some (SyncCompleted Sample.synced)
  /\ ~ In "identifiers" (destinations Sample.CONFIG Sample.COLUMNS)
  /\ ~ In "uuid" (destinations Sample.CONFIG Sample.COLUMNS)
  /\ md_fields (get_metadata (st_db Sample.synced) 1) !! "uuid" = Some (PStr "uuid-1")
  /\ md_identifiers (get_metadata (st_db Sample.synced) 1)
     = [("audiobookshelf_id", PStr "li_dune")].
Proof.
  assert (~ In "identifiers" (destinations Sample.CONFIG Sample.COLUMNS)) as Hids.
  { vm_compute. intros [H | [H | []]]; discriminate H. }
  assert (~ In "uuid" (destinations Sample.CONFIG Sample.COLUMNS)) as Hnot.
  { vm_compute. intros [H | [H | []]]; discriminate H. }
  split; [exact sample_sync_run |]. split; [exact Hids |]. split; [exact Hnot |].
  exact (sync_run_frame Sample.COLUMNS Sample.CONFIG (PList [Sample.dune])
           Sample.me_with_progress Sample.shelf Sample.synced 1 "uuid"
           sample_sync_run Hids (or_intror (or_intror Hnot))).
Defined.

Lemma sync_run_writes_bounded_witness :
  sync_from_audiobookshelf Sample.COLUMNS Sample.CONFIG (PList [Sample.dune])
    Sample.me_with_progress Sample.shelf
  = Some (SyncCompleted Sample.synced)
  /\ (length (db_writes (st_db Sample.synced)) <= 0 + 1)%nat.
Proof.
  split; [exact sample_sync_run |].
  exact (sync_run_writes_bounded Sample.COLUMNS Sample.CONFIG (PList [Sample.dune])
           Sample.me_with_progress Sample.shelf Sample.synced sample_sync_run).
Defined.

(** ** The report row of a book *)

Section Row.
Variable CONFIG : gmap string string.
Variables (metadata : Metadata) (progress_data item_data me_data : pyval).

Local Abbreviation step := (sync_column CONFIG metadata progress_data item_data me_data).

Lemma fold_sync_column_grows cols acc :
  fst acc <> [] -> fst (fold_left step cols acc) <> [].
Proof.
  revert acc. induction cols as [| [name col] cols IH]; intros acc Hne; cbn [fold_left];
    [done |].
  apply IH.
  destruct (sync_column_cases CONFIG metadata progress_data item_data me_data acc name col)
    as [Hs | (_ & _ & _ & Hs)]; rewrite Hs; [done |].
  simpl. apply DictFacts.set_not_nil.
Qed.

Lemma fold_sync_column_change_stays cols acc :
  (exists h o n, Dict.get h (snd acc) = Some (CChange o n)) ->
  exists h o n, Dict.get h (snd (fold_left step cols acc)) = Some (CChange o n).
Proof.
  revert acc. induction cols as [| [name col] cols IH]; intros acc Hex; cbn [fold_left];
    [done |].
  apply IH.
  destruct (sync_column_cases CONFIG metadata progress_data item_data me_data acc name col)
    as [Hs | (_ & _ & _ & Hs)]; rewrite Hs; [done |].
  simpl. destruct Hex as (h & o & n & Hget).
  destruct (String.eqb h (column_heading col)) eqn:E.
  - apply String.eqb_eq in E. subst h. eexists _, _, _. apply DictFacts.get_set_eq.
  - apply String.eqb_neq in E. exists h, o, n. by rewrite DictFacts.get_set_ne.
Qed.

(** Either no column changed anything, or the update set is not empty and
    the row shows a change. *)
Lemma fold_sync_column_both cols acc :
  fold_left step cols acc = acc
  \/ (fst (fold_left step cols acc) <> []
      /\ exists h o n, Dict.get h (snd (fold_left step cols acc)) = Some (CChange o n)).
Proof.
  revert acc. induction cols as [| [name col] cols IH]; intros acc; cbn [fold_left];
    [by left |].
  destruct (sync_column_cases CONFIG metadata progress_data item_data me_data acc name col)
    as [Hs | (_ & _ & _ & Hs)]; rewrite Hs; [apply IH |].
  right. split.
  - apply fold_sync_column_grows. simpl. apply DictFacts.set_not_nil.
  - apply fold_sync_column_change_stays. simpl. eexists _, _, _. apply DictFacts.get_set_eq.
Qed.

(** Every change a row shows was put there by a configured column. *)
Lemma fold_sync_column_row_sound cols acc h o n :
  Dict.get h (snd (fold_left step cols acc)) = Some (CChange o n) ->
  Dict.get h (snd acc) = Some (CChange o n) \/
  exists name col,
    In (name, col) cols /\ column_heading col = h /\ config_get CONFIG name <> ""
    /\ o = md_get metadata (config_get CONFIG name)
    /\ n = computed_value col progress_data item_data me_data
    /\ n <> PNone /\ py_eq o n = false.
Proof.
  revert acc. induction cols as [| [name col] cols IH]; intros acc Hget;
    cbn [fold_left In] in *; [by left |].
  apply IH in Hget. destruct Hget as [Hget | (name' & col' & Hin & Hrest)].
  - destruct (sync_column_cases CONFIG metadata progress_data item_data me_data acc name col)
      as [Hs | (Hname & Hval & Hdiff & Hs)]; rewrite Hs in Hget; [by left |].
    simpl in Hget. rewrite DictFacts.get_set in Hget.
    destruct (String.eqb h (column_heading col)) eqn:E; [| by left].
    apply String.eqb_eq in E. injection Hget as <- <-.
    right. exists name, col. repeat split; try done. by left.
  - right. exists name', col'. split; [by right | done].
Qed.
End Row.

(** X10. The report row and the update set of a book agree: the update set
    is empty (the book is counted as skipped) exactly when the row holds
    nothing but the title, and every change the row shows under a heading
    is the change of a configured column with that heading, from the value
    the record currently holds in the column's destination to the value
    computed for the column, which is not [None] and differs from it. *)
Theorem reconcile_row_matches_updates
    (COLUMNS : list (string * col_meta)) (CONFIG : gmap string string)
    (metadata : Metadata) (book_id : Z) (progress_data item_data me_data : pyval) :
  let r := reconcile COLUMNS CONFIG metadata book_id progress_data item_data me_data in
  (fst r = [] <-> snd r = [("title", CValue (book_title metadata book_id))])
  /\ (forall h o n,
        Dict.get h (snd r) = Some (CChange o n) ->
        exists name col,
          In (name, col) COLUMNS /\ column_heading col = h /\ config_get CONFIG name <> ""
          /\ o = md_get metadata (config_get CONFIG name)
          /\ n = computed_value col progress_data item_data me_data
          /\ n <> PNone /\ py_eq o n = false).
Proof.
  intros r. subst r. unfold reconcile. split.
  - destruct (fold_sync_column_both CONFIG metadata progress_data item_data me_data COLUMNS
                ([], [("title", CValue (book_title metadata book_id))]))
      as [-> | [Hne (h & o & n & Hget)]]; [done |].
    split; [done |]. intros Hrow. rewrite Hrow in Hget. simpl in Hget.
    destruct (String.eqb h "title"); done.
  - intros h o n Hget. apply fold_sync_column_row_sound in Hget.
    destruct Hget as [Hget | Hget]; [| exact Hget].
    simpl in Hget. destruct (String.eqb h "title"); done.
Qed.

Lemma reconcile_row_matches_updates_witness :
  Dict.get "Audiobook Progress"
    (snd (reconcile Sample.COLUMNS Sample.CONFIG Sample.linked_book 1
            Sample.dune_progress Sample.dune Sample.me_with_progress))
  = Some (CChange PNone (PFloat (42 # 100)))
  /\ exists name col,
       In (name, col) Sample.COLUMNS /\ column_heading col = "Audiobook Progress"
       /\ config_get Sample.CONFIG name <> ""
       /\ PNone = md_get Sample.linked_book (config_get Sample.CONFIG name)
       /\ PFloat (42 # 100)
          = computed_value col Sample.dune_progress Sample.dune Sample.me_with_progress
       /\ PFloat (42 # 100) <> PNone /\ py_eq PNone (PFloat (42 # 100)) = false.
Proof.
  split; [reflexivity |].
  exact (proj2 (reconcile_row_matches_updates Sample.COLUMNS Sample.CONFIG
                  Sample.linked_book 1 Sample.dune_progress Sample.dune
                  Sample.me_with_progress)
           "Audiobook Progress" PNone (PFloat (42 # 100)) eq_refl).
Defined.

(** X11. When the update set of a linked book is not empty and the store
    does not resolve the uuid of the book (no book carries it, or the
    handle is 0), the turn of the loop counts the book as failed, adds its
    row with the error "Book not found" for that uuid, and leaves the
    database and the other counts as they are. *)
Theorem sync_book_record_not_found
    (COLUMNS : list (string * col_meta)) (CONFIG : gmap string string)
    (items_dict media_progress_dict : list (pyval * pyval)) (me_data : pyval)
    (book_id : Z) (st : sync_state) (item_data : pyval) (progress : option pyval)
    (kv : string * pyval) (kvs : list (string * pyval)) (row : list (string * cell)) :
  let metadata := get_metadata (st_db st) book_id in
  py_truthy (abs_id_of metadata) = true ->
  KDict.lookup (abs_id_of metadata) items_dict = Some (Some item_data) ->
  py_truthy item_data = true ->
  KDict.lookup (abs_id_of metadata) media_progress_dict = Some progress ->
  reconcile COLUMNS CONFIG metadata book_id (default (PDict []) progress) item_data me_data
    = (kv :: kvs, row) ->
  lookup_by_uuid (st_db st) (md_get metadata "uuid") = None
  \/ lookup_by_uuid (st_db st) (md_get metadata "uuid") = Some 0 ->
  sync_book COLUMNS CONFIG items_dict media_progress_dict me_data book_id st
  = Some {| st_db := st_db st;
            num_success := num_success st;
            num_fail := S (num_fail st);
            num_skip := num_skip st;
            results := results st ++
              [Dict.set "error" (CBookNotFound (md_get metadata "uuid")) row] |}.
Proof.
  intros metadata Htruthy Hitem Hfound Hprog Hrec Hlook. unfold sync_book.
  fold metadata. fold (abs_id_of metadata). rewrite Htruthy, Hitem. simpl.
  rewrite Hfound, Hprog. simpl. rewrite Hrec.
  unfold update_metadata. destruct Hlook as [-> | ->]; reflexivity.
Qed.

Lemma sync_book_record_not_found_witness :
  lookup_by_uuid Sample.nameless_shelf (md_get (get_metadata Sample.nameless_shelf 7) "uuid")
  = None
  /\ sync_book Sample.COLUMNS Sample.CONFIG [(PStr "li_dune", Sample.dune)]
       [(PStr "li_dune", Sample.dune_progress)] Sample.me_with_progress 7
       (Sample.start Sample.nameless_shelf)
     = Some {| st_db := Sample.nameless_shelf;
               num_success := 0;
               num_fail := 1;
               num_skip := 0;
               results :=
                 [[("title", CValue (PStr "Dune Messiah"));
                   ("Audiobook Started", CChange PNone (PBool true));
                   ("Audiobook Progress", CChange PNone (PFloat (42 # 100)));
                   ("error", CBookNotFound PNone)]] |}.
Proof.
  split; [reflexivity |].
  exact (sync_book_record_not_found Sample.COLUMNS Sample.CONFIG
           [(PStr "li_dune", Sample.dune)] [(PStr "li_dune", Sample.dune_progress)]
           Sample.me_with_progress 7 (Sample.start Sample.nameless_shelf) Sample.dune
           (Some Sample.dune_progress) ("#abs_started", PBool true)
           [("#abs_progress", PFloat (42 # 100))]
           [("title", CValue (PStr "Dune Messiah"));
            ("Audiobook Started", CChange PNone (PBool true));
            ("Audiobook Progress", CChange PNone (PFloat (42 # 100)))]
           eq_refl eq_refl eq_refl eq_refl eq_refl (or_introl eq_refl)).
Defined.

(** ** The indexes and the runs of [quick_link_books] *)

(** X12. The ISBN index and the ASIN index hold, under an identifier,
    exactly the fetched items whose ISBN (or ASIN) is set and equal to it,
    in the order of the fetch, and nothing under an identifier no item
    has. *)
Theorem index_identifiers_sharing (items : list pyval)
    (isbn_index asin_index : list (pyval * list pyval)) (k : pyval) :
  index_identifiers items [] [] = Some (isbn_index, asin_index) ->
  KDict.get k isbn_index =
    match List.filter (shares "isbn" k) items with
    | [] => None
    | l => Some l
    end
  /\ KDict.get k asin_index =
    match List.filter (shares "asin" k) items with
    | [] => None
    | l => Some l
    end.
Proof.
  intros Hidx. destruct (index_identifiers_get items [] [] _ _ k Hidx) as [Hi Ha].
  rewrite Hi, Ha. simpl. done.
Qed.

Lemma index_identifiers_sharing_witness :
  index_identifiers [Sample.dune; Sample.emma; Sample.emma_again] [] []
  = Some (Sample.isbn_index_twice, Sample.asin_index_twice)
  /\ KDict.get (PStr "9780141439587") Sample.isbn_index_twice
     = Some [Sample.emma; Sample.emma_again]
  /\ KDict.get (PStr "9780141439587") Sample.asin_index_twice = None.
Proof.
  split; [reflexivity |].
  exact (index_identifiers_sharing [Sample.dune; Sample.emma; Sample.emma_again]
           Sample.isbn_index_twice Sample.asin_index_twice (PStr "9780141439587") eq_refl).
Defined.

Lemma keep_stored_same (key : string) (stored : Metadata) :
  keep_stored key stored (md_fields stored) = md_fields stored.
Proof.
  unfold keep_stored. destruct (md_fields stored !! key) eqn:E.
  - by apply insert_id.
  - by apply delete_id.
Qed.

Section LinkLoop.
Variables (isbn_index asin_index : list (pyval * list pyval)).

Local Abbreviation turn := (quick_link_book isbn_index asin_index).
Local Abbreviation loop := (quick_link_loop isbn_index asin_index).
Local Abbreviation has_link :=
  (fun (db : DB) (id : Z) =>
     Dict.mem "audiobookshelf_id" (md_identifiers (get_metadata db id))).

(** The three ways a turn of the linking loop ends. *)
Lemma quick_link_book_cases (book_id : Z) (st st' : link_state) :
  turn book_id st = Some st' ->
  (has_link (ls_db st) book_id = true /\ st' = st)
  \/ (has_link (ls_db st) book_id = false
      /\ exists matched,
           find_match (identifier_of "isbn" (get_metadata (ls_db st) book_id))
             (identifier_of "asin" (get_metadata (ls_db st) book_id))
             isbn_index asin_index = Some matched
           /\ py_truthy (default PNone matched) = false
           /\ st' = no_match st book_id)
  \/ (has_link (ls_db st) book_id = false
      /\ exists abs_id row,
           st' = {| ls_db := set_metadata (ls_db st) book_id
                               (md_set_identifiers (get_metadata (ls_db st) book_id)
                                  (Dict.set "audiobookshelf_id" abs_id
                                     (md_identifiers (get_metadata (ls_db st) book_id))));
                    num_linked := S (num_linked st);
                    num_failed := num_failed st;
                    link_results := link_results st ++ [row] |}).
Proof.
  unfold quick_link_book, identifier_of. intros Hstep.
  destruct (Dict.mem "audiobookshelf_id" _) eqn:Hmem; [left; by injection Hstep as <- |].
  right. destruct (find_match _ _ _ _) as [matched |]; simpl in Hstep; [| done].
  destruct (py_truthy (default PNone matched)) eqn:Ht.
  - right. split; [done |].
    destruct (py_get (default PNone matched) "id") as [abs_id |]; simpl in Hstep; [| done].
    destruct (item_metadata_get (default PNone matched) "title" _) as [abs_title |];
      simpl in Hstep; [| done].
    injection Hstep as <-. by eexists _, _.
  - left. split; [done |]. exists matched. repeat split; try done. by injection Hstep as <-.
Qed.

Lemma quick_link_book_other (book_id : Z) (st st' : link_state) (id : Z) :
  turn book_id st = Some st' -> id <> book_id ->
  get_metadata (ls_db st') id = get_metadata (ls_db st) id.
Proof.
  intros Hstep Hne. apply quick_link_book_cases in Hstep.
  destruct Hstep as [[_ ->] | [(_ & m & _ & _ & ->) | (_ & a & r & ->)]]; try done.
  simpl. by apply get_metadata_set_metadata_ne.
Qed.

Lemma quick_link_book_fields (book_id : Z) (st st' : link_state) (id : Z) :
  turn book_id st = Some st' ->
  md_fields (get_metadata (ls_db st') id) = md_fields (get_metadata (ls_db st) id).
Proof.
  intros Hstep. apply quick_link_book_cases in Hstep.
  destruct Hstep as [[_ ->] | [(_ & m & _ & _ & ->) | (_ & a & r & ->)]]; try done.
  simpl. destruct (decide (id = book_id)) as [-> | Hne].
  - rewrite get_metadata_set_metadata. simpl. by rewrite !keep_stored_same.
  - by rewrite get_metadata_set_metadata_ne.
Qed.

(** The counts of one turn. *)
Lemma quick_link_book_counts (book_id : Z) (st st' : link_state) :
  turn book_id st = Some st' ->
  (length (db_writes (ls_db st')) + num_linked st
   = length (db_writes (ls_db st)) + num_linked st')%nat
  /\ (if has_link (ls_db st) book_id then st' = st
      else (num_linked st' + num_failed st' = S (num_linked st + num_failed st))%nat
           /\ length (link_results st') = S (length (link_results st))).
Proof.
  intros Hstep. apply quick_link_book_cases in Hstep.
  destruct Hstep as [[-> ->] | [(-> & m & _ & _ & ->) | (-> & a & r & ->)]]; simpl;
    rewrite ?length_app; simpl; (split; [lia |]); try done; split; lia.
Qed.

Lemma quick_link_loop_writes (ids : list Z) (st st' : link_state) :
  loop ids st = Some st' ->
  (length (db_writes (ls_db st')) + num_linked st
   = length (db_writes (ls_db st)) + num_linked st')%nat.
Proof.
  revert st. induction ids as [| book_id ids IH]; intros st Hloop; simpl in Hloop.
  - by injection Hloop as <-.
  - destruct (turn book_id st) as [st1 |] eqn:E1; [| done]. simpl in Hloop.
    apply quick_link_book_counts in E1. destruct E1 as [E1 _]. apply IH in Hloop. lia.
Qed.

(** Over distinct handles, the loop handles each book as the database
    had it at the start. *)
Lemma quick_link_loop_counts (ids : list Z) (st st' : link_state) :
  List.NoDup ids ->
  loop ids st = Some st' ->
  let processed :=
    length (List.filter (fun id => negb (has_link (ls_db st) id)) ids) in
  (num_linked st' + num_failed st' = num_linked st + num_failed st + processed)%nat
  /\ length (link_results st') = (length (link_results st) + processed)%nat.
Proof.
  revert st. induction ids as [| book_id ids IH]; intros st Hnd Hloop; simpl in Hloop.
  - injection Hloop as <-. simpl. lia.
  - apply List.NoDup_cons_iff in Hnd. destruct Hnd as [Hnot Hnd].
    destruct (turn book_id st) as [st1 |] eqn:E1; [| done]. simpl in Hloop.
    destruct (IH st1 Hnd Hloop) as [Hc Hl].
    rewrite (List.filter_ext_in (fun id => negb (has_link (ls_db st1) id))
               (fun id => negb (has_link (ls_db st) id))) in Hc, Hl.
    2,3: intros id Hin; rewrite (quick_link_book_other _ _ _ id E1); [done |];
         intros ->; done.
    apply quick_link_book_counts in E1. destruct E1 as [_ E1]. simpl.
    destruct (has_link (ls_db st) book_id); simpl.
    + subst st1. done.
    + destruct E1 as [E1 E2]. lia.
Qed.

(** A book with a remote identifier is never touched. *)
Lemma quick_link_loop_linked_untouched (ids : list Z) (st st' : link_state) (id : Z) :
  loop ids st = Some st' ->
  has_link (ls_db st) id = true ->
  get_metadata (ls_db st') id = get_metadata (ls_db st) id.
Proof.
  revert st. induction ids as [| book_id ids IH]; intros st Hloop Hlinked; simpl in Hloop.
  - by injection Hloop as <-.
  - destruct (turn book_id st) as [st1 |] eqn:E1; [| done]. simpl in Hloop.
    assert (get_metadata (ls_db st1) id = get_metadata (ls_db st) id) as Hsame.
    { destruct (decide (id = book_id)) as [-> | Hne];
        [| by apply (quick_link_book_other book_id)].
      apply quick_link_book_counts in E1. destruct E1 as [_ E1].
      rewrite Hlinked in E1. by subst st1. }
    rewrite <- Hsame. apply IH; [done |]. by rewrite Hsame.
Qed.

Lemma quick_link_loop_fields (ids : list Z) (st st' : link_state) (id : Z) :
  loop ids st = Some st' ->
  md_fields (get_metadata (ls_db st') id) = md_fields (get_metadata (ls_db st) id).
Proof.
  revert st. induction ids as [| book_id ids IH]; intros st Hloop; simpl in Hloop.
  - by injection Hloop as <-.
  - destruct (turn book_id st) as [st1 |] eqn:E1; [| done]. simpl in Hloop.
    rewrite (IH st1 Hloop). by apply (quick_link_book_fields book_id).
Qed.

Lemma quick_link_loop_identifiers (ids : list Z) (st st' : link_state) (id : Z)
    (key : string) :
  loop ids st = Some st' ->
  key <> "audiobookshelf_id" ->
  identifier_of key (get_metadata (ls_db st') id)
  = identifier_of key (get_metadata (ls_db st) id).
Proof.
  revert st. induction ids as [| book_id ids IH]; intros st Hloop Hkey; simpl in Hloop.
  - by injection Hloop as <-.
  - destruct (turn book_id st) as [st1 |] eqn:E1; [| done]. simpl in Hloop.
    rewrite (IH st1 Hloop Hkey).
    by apply (quick_link_book_identifiers isbn_index asin_index book_id st st1).
Qed.

(** After its turn a book is settled, and it stays so. *)
Lemma quick_link_book_settles (book_id : Z) (st st' : link_state) :
  turn book_id st = Some st' ->
  settled isbn_index asin_index (get_metadata (ls_db st') book_id).
Proof.
  intros Hstep. apply quick_link_book_cases in Hstep.
  destruct Hstep as [[Hl ->] | [(_ & m & Hfind & Ht & ->) | (_ & a & r & ->)]].
  - by left.
  - right. by exists m.
  - left. simpl. rewrite get_metadata_set_metadata. simpl.
    unfold Dict.mem. by rewrite DictFacts.get_set_eq.
Qed.

Lemma quick_link_book_settled_stays (book_id : Z) (st st' : link_state) (id : Z) :
  turn book_id st = Some st' ->
  settled isbn_index asin_index (get_metadata (ls_db st) id) ->
  settled isbn_index asin_index (get_metadata (ls_db st') id).
Proof.
  intros Hstep Hset. destruct (decide (id = book_id)) as [-> | Hne].
  - by apply (quick_link_book_settles book_id st).
  - by rewrite (quick_link_book_other book_id st st' id Hstep Hne).
Qed.

Lemma quick_link_loop_settles (ids : list Z) (st st' : link_state) (id : Z) :
  loop ids st = Some st' ->
  In id ids \/ settled isbn_index asin_index (get_metadata (ls_db st) id) ->
  settled isbn_index asin_index (get_metadata (ls_db st') id).
Proof.
  revert st. induction ids as [| book_id ids IH]; intros st Hloop Hid; simpl in Hloop.
  - injection Hloop as <-. by destruct Hid.
  - destruct (turn book_id st) as [st1 |] eqn:E1; [| done]. simpl in Hloop.
    apply (IH st1 Hloop). destruct Hid as [[<- | Hin] | Hset].
    + right. by apply (quick_link_book_settles book_id st).
    + by left.
    + right. by apply (quick_link_book_settled_stays book_id st).
Qed.

(** The turn of a settled book links nothing and writes nothing. *)
Lemma quick_link_book_settled (book_id : Z) (st : link_state) :
  settled isbn_index asin_index (get_metadata (ls_db st) book_id) ->
  exists st', turn book_id st = Some st'
              /\ ls_db st' = ls_db st /\ num_linked st' = num_linked st.
Proof.
  unfold settled, identifier_of, quick_link_book.
  intros [Hl | (m & Hfind & Ht)].
  - rewrite Hl. by exists st.
  - destruct (Dict.mem "audiobookshelf_id" _); [by exists st |].
    rewrite Hfind. simpl. rewrite Ht. by eexists.
Qed.

Lemma quick_link_loop_settled (ids : list Z) (st : link_state) :
  (forall id, In id ids -> settled isbn_index asin_index (get_metadata (ls_db st) id)) ->
  exists st', loop ids st = Some st'
              /\ ls_db st' = ls_db st /\ num_linked st' = num_linked st.
Proof.
  revert st. induction ids as [| book_id ids IH]; intros st Hall; simpl.
  - by exists st.
  - destruct (quick_link_book_settled book_id st) as (st1 & -> & Hdb & Hn);
      [apply Hall; by left |].
    simpl. destruct (IH st1) as (st' & Hloop & Hdb' & Hn').
    { intros id Hin. rewrite Hdb. apply Hall. by right. }
    exists st'. split; [done |]. split; congruence.
Qed.

(** The loop adds no book to the database beyond the handles it is run
    over. *)
Lemma quick_link_loop_books (ids : list Z) (st st' : link_state) (id : Z) :
  loop ids st = Some st' ->
  is_Some (db_books (ls_db st') !! id) ->
  is_Some (db_books (ls_db st) !! id) \/ In id ids.
Proof.
  revert st. induction ids as [| book_id ids IH]; intros st Hloop Hin; simpl in Hloop.
  - injection Hloop as <-. by left.
  - destruct (turn book_id st) as [st1 |] eqn:E1; [| done]. simpl in Hloop.
    destruct (IH st1 Hloop Hin) as [Hin1 | Hin1]; [| right; by right].
    apply quick_link_book_cases in E1.
    destruct E1 as [[_ ->] | [(_ & m & _ & _ & ->) | (_ & a & r & ->)]]; try by left.
    simpl in Hin1. destruct (decide (id = book_id)) as [-> | Hne]; [right; by left |].
    left. unfold set_metadata in Hin1. simpl in Hin1. by rewrite lookup_insert_ne in Hin1.
Qed.
End LinkLoop.

Lemma db_search_In (db : DB) (id : Z) : In id (db_search db) <-> is_Some (db_books db !! id).
Proof.
  unfold db_search. rewrite in_map_iff. split.
  - intros ([i md] & <- & Hin). apply list_elem_of_In, elem_of_map_to_list in Hin.
    by exists md.
  - intros [md Hmd]. exists (id, md). split; [done |].
    by apply list_elem_of_In, elem_of_map_to_list.
Qed.

Lemma db_search_NoDup (db : DB) : List.NoDup (db_search db).
Proof.
  apply NoDup_ListNoDup. unfold db_search.
  exact (NoDup_fst_map_to_list (db_books db)).
Qed.

Lemma quick_link_books_loop (CONFIG : gmap string string) (items_data : pyval) (db : DB)
    (st : link_state) :
  quick_link_books CONFIG items_data db = Some (LinkCompleted st) ->
  exists abs_items isbn_index asin_index,
    config_get CONFIG "abs_key" <> "" /\ config_get CONFIG "abs_library_id" <> ""
    /\ items_data <> PNone
    /\ py_iter (unwrap_items items_data) = Some abs_items
    /\ index_identifiers abs_items [] [] = Some (isbn_index, asin_index)
    /\ quick_link_loop isbn_index asin_index (db_search db) (mkLinkState db 0 0 []) = Some st.
Proof.
  unfold quick_link_books.
  destruct (_ || _) eqn:E1; [done |].
  destruct (is_none items_data) eqn:E3; [done |].
  destruct (py_iter (unwrap_items items_data)) as [abs_items |] eqn:E4; [| done]. simpl.
  destruct (index_identifiers abs_items [] []) as [[isbn_index asin_index] |] eqn:E5;
    [| done].
  simpl. destruct (quick_link_loop _ _ _ _) as [st0 |] eqn:E; [| done]. simpl.
  intros [= <-]. exists abs_items, isbn_index, asin_index.
  apply orb_false_iff in E1. destruct E1 as [E1 E2].
  apply String.eqb_neq in E1, E2. apply is_none_false in E3. done.
Qed.


Lemma quick_link_book_get_identifier (isbn_index asin_index : list (pyval * list pyval))
    (book_id : Z) (st st' : link_state) (id : Z) (key : string) :
  quick_link_book isbn_index asin_index book_id st = Some st' ->
  key <> "audiobookshelf_id" ->
  Dict.get key (md_identifiers (get_metadata (ls_db st') id))
  = Dict.get key (md_identifiers (get_metadata (ls_db st) id)).
Proof.
  intros Hstep Hkey. apply quick_link_book_cases in Hstep.
  destruct Hstep as [[_ ->] | [(_ & m & _ & _ & ->) | (_ & a & r & ->)]]; try done.
  simpl. destruct (decide (id = book_id)) as [-> | Hne].
  - rewrite get_metadata_set_metadata. simpl. by apply DictFacts.get_set_ne.
  - by rewrite get_metadata_set_metadata_ne.
Qed.

Lemma quick_link_loop_get_identifier (isbn_index asin_index : list (pyval * list pyval))
    (ids : list Z) (st st' : link_state) (id : Z) (key : string) :
  quick_link_loop isbn_index asin_index ids st = Some st' ->
  key <> "audiobookshelf_id" ->
  Dict.get key (md_identifiers (get_metadata (ls_db st') id))
  = Dict.get key (md_identifiers (get_metadata (ls_db st) id)).
Proof.
  revert st. induction ids as [| book_id ids IH]; intros st Hloop Hkey; simpl in Hloop.
  - by injection Hloop as <-.
  - destruct (quick_link_book isbn_index asin_index book_id st) as [st1 |] eqn:E1; [| done].
    simpl in Hloop. rewrite (IH st1 Hloop Hkey).
    by apply (quick_link_book_get_identifier isbn_index asin_index book_id st st1).
Qed.

Lemma sample_link_run :
  quick_link_books Sample.CONFIG Sample.fetched Sample.mixed_shelf
  = Some (LinkCompleted Sample.quick_linked).
Proof. vm_compute. reflexivity. Qed.

(** X13. In the report of a completed linking run, the linked count and
    the failed count add up to the number of rows, and there is one row for
    each book of the library that had no remote identifier when the run
    started: a book that has one adds neither a row nor a count. *)
Theorem quick_link_run_counts (CONFIG : gmap string string) (items_data : pyval) (db : DB)
    (st : link_state) :
  quick_link_books CONFIG items_data db = Some (LinkCompleted st) ->
  (num_linked st + num_failed st)%nat = length (link_results st)
  /\ length (link_results st) = length (unlinked_ids db).
Proof.
  intros Hrun.
  destruct (quick_link_books_loop _ _ _ _ Hrun) as (items & I & A & _ & _ & _ & _ & _ & Hloop).
  destruct (quick_link_loop_counts I A _ _ _ (db_search_NoDup db) Hloop) as [Hc Hl].
  simpl in Hc, Hl. unfold unlinked_ids. lia.
Qed.

Lemma quick_link_run_counts_witness :
  quick_link_books Sample.CONFIG Sample.fetched Sample.mixed_shelf
  = Some (LinkCompleted Sample.quick_linked)
  /\ (1 + 1)%nat = length (link_results Sample.quick_linked)
  /\ length (link_results Sample.quick_linked) = length (unlinked_ids Sample.mixed_shelf).
Proof.
  split; [exact sample_link_run |].
  exact (quick_link_run_counts Sample.CONFIG Sample.fetched Sample.mixed_shelf
           Sample.quick_linked sample_link_run).
Defined.

(** X14. A completed linking run writes the store once for each book it
    links and never otherwise: the number of writes it adds is the linked
    count of its report. *)
Theorem quick_link_run_writes (CONFIG : gmap string string) (items_data : pyval) (db : DB)
    (st : link_state) :
  quick_link_books CONFIG items_data db = Some (LinkCompleted st) ->
  length (db_writes (ls_db st)) = (length (db_writes db) + num_linked st)%nat.
Proof.
  intros Hrun.
  destruct (quick_link_books_loop _ _ _ _ Hrun) as (items & I & A & _ & _ & _ & _ & _ & Hloop).
  apply quick_link_loop_writes in Hloop. simpl in Hloop. lia.
Qed.

Lemma quick_link_run_writes_witness :
  quick_link_books Sample.CONFIG Sample.fetched Sample.mixed_shelf
  = Some (LinkCompleted Sample.quick_linked)
  /\ length (db_writes (ls_db Sample.quick_linked)) = (0 + 1)%nat.
Proof.
  split; [exact sample_link_run |].
  exact (quick_link_run_writes Sample.CONFIG Sample.fetched Sample.mixed_shelf
           Sample.quick_linked sample_link_run).
Defined.

(** X15. A completed linking run changes nothing but the remote
    identifier of books that had none: of every book the fields are as
    before, every identifier under another key is as before, and a book
    that had a remote identifier is as before altogether. *)
Theorem quick_link_run_frame (CONFIG : gmap string string) (items_data : pyval) (db : DB)
    (st : link_state) (id : Z) :
  quick_link_books CONFIG items_data db = Some (LinkCompleted st) ->
  md_fields (get_metadata (ls_db st) id) = md_fields (get_metadata db id)
  /\ (forall key, key <> "audiobookshelf_id" ->
        Dict.get key (md_identifiers (get_metadata (ls_db st) id))
        = Dict.get key (md_identifiers (get_metadata db id)))
  /\ (Dict.mem "audiobookshelf_id" (md_identifiers (get_metadata db id)) = true ->
      get_metadata (ls_db st) id = get_metadata db id).
Proof.
  intros Hrun.
  destruct (quick_link_books_loop _ _ _ _ Hrun) as (items & I & A & _ & _ & _ & _ & _ & Hloop).
  split; [| split].
  - exact (quick_link_loop_fields I A _ _ _ id Hloop).
  - intros key Hkey. exact (quick_link_loop_get_identifier I A _ _ _ id key Hloop Hkey).
  - intros Hlinked. exact (quick_link_loop_linked_untouched I A _ _ _ id Hloop Hlinked).
Qed.

Lemma quick_link_run_frame_witness :
  quick_link_books Sample.CONFIG Sample.fetched Sample.mixed_shelf
  = Some (LinkCompleted Sample.quick_linked)
  /\ md_fields (get_metadata (ls_db Sample.quick_linked) 3) = md_fields Sample.unlinked_book
  /\ (forall key, key <> "audiobookshelf_id" ->
        Dict.get key (md_identifiers (get_metadata (ls_db Sample.quick_linked) 3))
        = Dict.get key (md_identifiers Sample.unlinked_book))
  /\ (Dict.mem "audiobookshelf_id" (md_identifiers Sample.unlinked_book) = true ->
      get_metadata (ls_db Sample.quick_linked) 3 = Sample.unlinked_book).
Proof.
  split; [exact sample_link_run |].
  exact (quick_link_run_frame Sample.CONFIG Sample.fetched Sample.mixed_shelf
           Sample.quick_linked 3 sample_link_run).
Defined.

(** X16. Linking is settled by one run: a second linking run over the
    database a completed run leaves, with the same items fetched, completes
    too, links no book and leaves the database and its write log as they
    are. *)
Theorem quick_link_run_twice (CONFIG : gmap string string) (items_data : pyval) (db : DB)
    (st : link_state) :
  quick_link_books CONFIG items_data db = Some (LinkCompleted st) ->
  exists st2,
    quick_link_books CONFIG items_data (ls_db st) = Some (LinkCompleted st2)
    /\ ls_db st2 = ls_db st
    /\ num_linked st2 = 0%nat.
Proof.
  intros Hrun.
  destruct (quick_link_books_loop _ _ _ _ Hrun)
    as (items & I & A & Hkey & Hlib & Hdata & Hiter & Hidx & Hloop).
  destruct (quick_link_loop_settled I A (db_search (ls_db st))
              (mkLinkState (ls_db st) 0 0 [])) as (st2 & Hloop2 & Hdb & Hn).
  { intros id Hin. simpl. apply (quick_link_loop_settles I A _ _ _ id Hloop). left.
    apply db_search_In in Hin.
    destruct (quick_link_loop_books I A _ _ _ id Hloop Hin) as [Hdom | Hdom]; [| done].
    by apply db_search_In. }
  exists st2. split; [| done].
  unfold quick_link_books.
  apply String.eqb_neq in Hkey, Hlib. rewrite Hkey, Hlib. simpl.
  apply is_none_false in Hdata. rewrite Hdata, Hiter. simpl. rewrite Hidx. simpl.
  by rewrite Hloop2.
Qed.

Lemma quick_link_run_twice_witness :
  quick_link_books Sample.CONFIG Sample.fetched Sample.mixed_shelf
  = Some (LinkCompleted Sample.quick_linked)
  /\ exists st2,
       quick_link_books Sample.CONFIG Sample.fetched (ls_db Sample.quick_linked)
       = Some (LinkCompleted st2)
       /\ ls_db st2 = ls_db Sample.quick_linked
       /\ num_linked st2 = 0%nat.
Proof.
  split; [exact sample_link_run |].
  exact (quick_link_run_twice Sample.CONFIG Sample.fetched Sample.mixed_shelf
           Sample.quick_linked sample_link_run).
Defined.

(** X17. A linking run comes to its report whenever the configuration has
    an API key and a library id, the items were fetched, every fetched item
    is a mapping whose ISBN and ASIN can be dictionary keys, and so can the
    ISBN and ASIN of every book: no item without an [id] or a title, no
    book without a title and no count of matches makes it raise. *)
Theorem quick_link_run_completes (CONFIG : gmap string string) (items_data : pyval) (db : DB)
    (abs_items : list pyval) :
  config_get CONFIG "abs_key" <> "" ->
  config_get CONFIG "abs_library_id" <> "" ->
  items_data <> PNone ->
  py_iter (unwrap_items items_data) = Some abs_items ->
  Forall item_indexable abs_items ->
  (forall id, py_hashable (identifier_of "isbn" (get_metadata db id)) = true
              /\ py_hashable (identifier_of "asin" (get_metadata db id)) = true) ->
  exists st, quick_link_books CONFIG items_data db = Some (LinkCompleted st).
Proof.
  intros Hkey Hlib Hdata Hiter Hitems Hbooks.
  unfold quick_link_books.
  apply String.eqb_neq in Hkey, Hlib. rewrite Hkey, Hlib. simpl.
  apply is_none_false in Hdata. rewrite Hdata, Hiter. simpl.
  destruct (index_identifiers_completes abs_items [] [] Hitems) as [[I A] Hidx].
  rewrite Hidx. simpl.
  destruct (quick_link_loop_completes abs_items I A (db_search db) (mkLinkState db 0 0 [])
              Hidx Hbooks) as [st Hst].
  rewrite Hst. simpl. by exists st.
Qed.


Lemma sample_mixed_shelf_hashable (id : Z) :
  py_hashable (identifier_of "isbn" (get_metadata Sample.mixed_shelf id)) = true
  /\ py_hashable (identifier_of "asin" (get_metadata Sample.mixed_shelf id)) = true.
Proof.
  unfold identifier_of, get_metadata, Sample.mixed_shelf. simpl.
  destruct (decide (id = 1)) as [-> | H1]; [split; reflexivity |].
  destruct (decide (id = 3)) as [-> | H3]; [split; reflexivity |].
  destruct (decide (id = 4)) as [-> | H4]; [split; reflexivity |].
  rewrite !lookup_insert_ne by done. rewrite lookup_singleton_ne by done.
  split; reflexivity.
Qed.

Lemma quick_link_run_completes_witness :
  py_iter (unwrap_items Sample.fetched) = Some [Sample.dune; Sample.emma]
  /\ exists st,
       quick_link_books Sample.CONFIG Sample.fetched Sample.mixed_shelf
       = Some (LinkCompleted st).
Proof.
  split; [reflexivity |].
  apply (quick_link_run_completes Sample.CONFIG Sample.fetched Sample.mixed_shelf
           [Sample.dune; Sample.emma]).
  - vm_compute. discriminate.
  - vm_compute. discriminate.
  - discriminate.
  - reflexivity.
  - repeat constructor; eexists _, _; repeat split; reflexivity.
  - apply sample_mixed_shelf_hashable.
Defined.


(** ** The order of the dialog and the sort before it *)

Lemma string_leb_antisym (s t : string) :
  String.leb s t = true -> String.leb t s = true -> s = t.
Proof.
  unfold String.leb. rewrite (String.compare_antisym t s).
  destruct (String.compare s t) eqn:E; simpl; try done.
  intros _ _. by apply String.compare_eq_iff.
Qed.

Lemma key_le_antisym (a b : Z * string) :
  key_ltb b a = false -> key_ltb a b = false -> a = b.
Proof.
  rewrite !key_ltb_false. destruct a as [za sa], b as [zb sb]. simpl.
  intros [H1 | [H1 L1]] [H2 | [H2 L2]]; try lia.
  f_equal; [done |]. by apply string_leb_antisym.
Qed.

Section StableUnique.
Context {A : Type}.
Implicit Types (l : list ((Z * string) * A)).

Local Abbreviation with_key :=
  (fun (k : Z * string) (p : (Z * string) * A) => bool_decide (fst p = k)).

Lemma sorted_head_least x l y :
  StronglySorted keyed_le (x :: l) -> In y (x :: l) -> keyed_le x y.
Proof.
  intros Hs [<- | Hin].
  - unfold keyed_le. apply key_ltb_irrefl.
  - apply StronglySorted_inv in Hs. destruct Hs as [_ Hall].
    rewrite List.Forall_forall in Hall. by apply Hall.
Qed.

(** A list sorted on its keys is determined by the order of the entries
    of each key. *)
Lemma sorted_stable_unique l1 l2 :
  StronglySorted keyed_le l1 -> StronglySorted keyed_le l2 ->
  (forall k, List.filter (with_key k) l1 = List.filter (with_key k) l2) ->
  l1 = l2.
Proof.
  revert l2. induction l1 as [| x l1 IH]; intros l2 H1 H2 Hf.
  - destruct l2 as [| y l2]; [done |]. specialize (Hf (fst y)). simpl in Hf.
    rewrite bool_decide_eq_true_2 in Hf by done. done.
  - destruct l2 as [| y l2].
    { specialize (Hf (fst x)). simpl in Hf.
      rewrite bool_decide_eq_true_2 in Hf by done. done. }
    assert (fst x = fst y) as Hk.
    { apply key_le_antisym.
      - apply (sorted_head_least x l1 y H1).
        assert (In y (List.filter (fun p => bool_decide (fst p = fst y)) (y :: l2))) as Hin.
        { apply filter_In. split; [by left | by apply bool_decide_eq_true_2]. }
        rewrite <- Hf in Hin. by apply filter_In in Hin as [Hin _].
      - apply (sorted_head_least y l2 x H2).
        assert (In x (List.filter (fun p => bool_decide (fst p = fst x)) (x :: l1))) as Hin.
        { apply filter_In. split; [by left | by apply bool_decide_eq_true_2]. }
        rewrite Hf in Hin. by apply filter_In in Hin as [Hin _]. }
    pose proof (Hf (fst x)) as Hx. simpl in Hx.
    rewrite (bool_decide_eq_true_2 (fst x = fst x)) in Hx by done.
    rewrite (bool_decide_eq_true_2 (fst y = fst x)) in Hx by done.
    injection Hx as -> _.
    f_equal. apply StronglySorted_inv in H1, H2.
    apply IH; [tauto | tauto |].
    intros k. specialize (Hf k). simpl in Hf.
    destruct (bool_decide (fst y = k)); [by injection Hf | done].
Qed.
End StableUnique.

Section PySorted.
Context {A : Type} (key : A -> option (Z * string)).

Local Abbreviation decorate := (fun item : A => k ← key item; Some (k, item)).
Local Abbreviation keyed_as :=
  (fun (k : Z * string) (item : A) => bool_decide (key item = Some k)).
Local Abbreviation with_key :=
  (fun (k : Z * string) (p : (Z * string) * A) => bool_decide (fst p = k)).

Lemma decorated (items : list A) (keyed : list ((Z * string) * A)) :
  mapM decorate items = Some keyed ->
  map snd keyed = items /\ Forall (fun p => key (snd p) = Some (fst p)) keyed.
Proof.
  rewrite mapM_Some. induction 1 as [| item p items keyed Hp _ [IH1 IH2]]; [done |].
  destruct (key item) as [k |] eqn:Ek; simpl in Hp; [| done]. injection Hp as <-.
  simpl. split; [by rewrite IH1 | by constructor].
Qed.

Lemma filter_decorated (keyed : list ((Z * string) * A)) (k : Z * string) :
  Forall (fun p => key (snd p) = Some (fst p)) keyed ->
  List.filter (keyed_as k) (map snd keyed) = map snd (List.filter (with_key k) keyed).
Proof.
  induction 1 as [| p keyed Hp _ IH]; simpl; [done |]. rewrite Hp, IH.
  destruct (decide (fst p = k)) as [Heq | Hne].
  - rewrite !bool_decide_eq_true_2; [done | done | by rewrite Heq].
  - rewrite !bool_decide_eq_false_2; [done | done | by intros [= ?]].
Qed.

Lemma same_key_same_items (k : Z * string) (l1 l2 : list ((Z * string) * A)) :
  List.Forall (fun p => fst p = k) l1 -> List.Forall (fun p => fst p = k) l2 ->
  map snd l1 = map snd l2 -> l1 = l2.
Proof.
  intros H1. revert l2. induction H1 as [| [k1 a1] l1 Hk1 _ IH]; intros l2 H2 Hmap.
  - by destruct l2.
  - destruct H2 as [| [k2 a2] l2 Hk2 H2]; [done |]. simpl in *.
    injection Hmap as -> Hmap. subst k1 k2. f_equal. by apply IH.
Qed.

Lemma filter_with_key (k : Z * string) (l : list ((Z * string) * A)) :
  List.Forall (fun p => fst p = k) (List.filter (with_key k) l).
Proof.
  apply List.Forall_forall. intros p Hin. apply filter_In in Hin as [_ Hp].
  by apply bool_decide_eq_true in Hp.
Qed.

(** [sorted] gives the items back, each once. *)
Lemma py_sorted_Permutation (items sorted_items : list A) :
  py_sorted key items = Some sorted_items -> Permutation items sorted_items.
Proof.
  unfold py_sorted. destruct (mapM decorate items) as [keyed |] eqn:E; simpl; [| done].
  intros [= <-]. destruct (decorated _ _ E) as [Hitems _].
  rewrite <- Hitems. apply Permutation_map, sort_keyed_Permutation.
Qed.

(** [sorted] is stable: the items of one key stay in the order they had. *)
Lemma py_sorted_stable (items sorted_items : list A) (k : Z * string) :
  py_sorted key items = Some sorted_items ->
  List.filter (keyed_as k) sorted_items = List.filter (keyed_as k) items.
Proof.
  unfold py_sorted. destruct (mapM decorate items) as [keyed |] eqn:E; simpl; [| done].
  intros [= <-]. destruct (decorated _ _ E) as [Hitems Hall].
  rewrite <- Hitems, !filter_decorated, sort_keyed_stable; [done | done |].
  apply (Permutation_Forall (sort_keyed_Permutation keyed) Hall).
Qed.

Lemma py_sorted_is_Some (items : list A) :
  is_Some (py_sorted key items) <-> Forall (fun item => is_Some (key item)) items.
Proof.
  unfold py_sorted. split.
  - intros [sorted_items Hs].
    destruct (mapM decorate items) as [keyed |] eqn:E; simpl in Hs; [| done].
    assert (is_Some (mapM decorate items)) as Hsome by (by rewrite E).
    apply mapM_is_Some in Hsome. eapply Forall_impl; [exact Hsome |].
    intros item [p Hp]. simpl in Hp. destruct (key item); [by eexists | done].
  - intros Hall.
    assert (is_Some (mapM decorate items)) as [keyed ->]; [| by eexists].
    apply mapM_is_Some. eapply Forall_impl; [exact Hall |].
    intros item [k Hk]. simpl. rewrite Hk. by eexists.
Qed.

(** Two lists with the same items, in the same order within each key, sort
    to the same list. *)
Lemma py_sorted_order_within_keys (items1 items2 : list A) :
  Permutation items1 items2 ->
  (forall k, List.filter (keyed_as k) items1 = List.filter (keyed_as k) items2) ->
  py_sorted key items1 = py_sorted key items2.
Proof.
  intros Hperm Hf.
  destruct (py_sorted key items1) as [s1 |] eqn:E1, (py_sorted key items2) as [s2 |] eqn:E2.
  - f_equal. unfold py_sorted in E1, E2.
    destruct (mapM decorate items1) as [keyed1 |] eqn:K1; simpl in E1; [| done].
    destruct (mapM decorate items2) as [keyed2 |] eqn:K2; simpl in E2; [| done].
    injection E1 as <-. injection E2 as <-. f_equal.
    destruct (decorated _ _ K1) as [Hi1 Ha1], (decorated _ _ K2) as [Hi2 Ha2].
    apply sorted_stable_unique; [apply sort_keyed_StronglySorted .. |].
    intros k. rewrite !sort_keyed_stable.
    apply (same_key_same_items k); [apply filter_with_key .. |].
    rewrite <- !filter_decorated by done. rewrite Hi1, Hi2. apply Hf.
  - exfalso. assert (is_Some (py_sorted key items1)) as H1 by (by rewrite E1).
    apply py_sorted_is_Some in H1. rewrite Hperm in H1.
    apply py_sorted_is_Some in H1. rewrite E2 in H1. by destruct H1.
  - exfalso. assert (is_Some (py_sorted key items2)) as H2 by (by rewrite E2).
    apply py_sorted_is_Some in H2. rewrite <- Hperm in H2.
    apply py_sorted_is_Some in H2. rewrite E1 in H2. by destruct H2.
  - done.
Qed.
End PySorted.

Lemma filter_filter_implied {A : Type} (f g : A -> bool) (l : list A) :
  (forall a, f a = true -> g a = true) ->
  List.filter f (List.filter g l) = List.filter f l.
Proof.
  intros Himp. induction l as [| a l IH]; simpl; [done |].
  destruct (g a) eqn:Eg; simpl.
  - by rewrite IH.
  - destruct (f a) eqn:Ef; [| done]. rewrite (Himp a Ef) in Eg. done.
Qed.

Lemma sort_key_title (lower : string -> string) (calibre_title : string)
    (calibre_authors : list string) (item : pyval) (k : Z * string) :
  sort_key lower calibre_title calibre_authors item = Some k ->
  item_lower lower item "title" = Some (snd k).
Proof.
  unfold sort_key, item_lower.
  destruct (item_metadata_get item "title" (PStr "") ≫= py_lower lower) as [t |]; simpl;
    [| done].
  destruct (item_metadata_get item "authorName" (PStr "") ≫= py_lower lower) as [a |];
    simpl; [| done].
  by intros [= <-].
Qed.

(** X18. The order of the dialog is stable, whatever the lowering of
    strings is: the items with one score and one lowercased title are shown
    in the order in which the dialog was given them. *)
Theorem link_dialog_items_stable (lower : string -> string)
    (calibre_metadata : option Metadata) (items sorted_items : list pyval)
    (calibre_title : string) (calibre_authors : list string) (k : Z * string) :
  dialog_title lower calibre_metadata = Some calibre_title ->
  dialog_authors lower calibre_metadata = Some calibre_authors ->
  link_dialog_items lower calibre_metadata items = Some sorted_items ->
  List.filter
    (fun item => bool_decide (sort_key lower calibre_title calibre_authors item = Some k))
    sorted_items
  = List.filter
      (fun item => bool_decide (sort_key lower calibre_title calibre_authors item = Some k))
      items.
Proof.
  intros Htitle Hauthors. unfold link_dialog_items. rewrite Htitle, Hauthors. simpl.
  apply py_sorted_stable.
Qed.

Lemma link_dialog_items_stable_witness :
  dialog_title Sample.lower (Some Sample.unlinked_book) = Some "emma"
  /\ dialog_authors Sample.lower (Some Sample.unlinked_book) = Some ["jane austen"]
  /\ link_dialog_items Sample.lower (Some Sample.unlinked_book)
       [Sample.dune; Sample.dune_reissue_same_title; Sample.emma]
     = Some [Sample.emma; Sample.dune; Sample.dune_reissue_same_title]
  /\ List.filter
       (fun item =>
          bool_decide (sort_key Sample.lower "emma" ["jane austen"] item = Some (0, "dune")))
       [Sample.emma; Sample.dune; Sample.dune_reissue_same_title]
     = [Sample.dune; Sample.dune_reissue_same_title].
Proof.
  split; [reflexivity |]. split; [reflexivity |]. split; [reflexivity |].
  exact (link_dialog_items_stable Sample.lower (Some Sample.unlinked_book)
           [Sample.dune; Sample.dune_reissue_same_title; Sample.emma]
           [Sample.emma; Sample.dune; Sample.dune_reissue_same_title]
           "emma" ["jane austen"] (0, "dune") eq_refl eq_refl eq_refl).
Defined.

Lemma sort_by_title_then_dialog (lower : string -> string)
    (calibre_metadata : option Metadata) (items sorted_items : list pyval) :
  sort_by_title lower items = Some sorted_items ->
  link_dialog_items lower calibre_metadata sorted_items
  = link_dialog_items lower calibre_metadata items.
Proof.
  intros Hsort. unfold link_dialog_items.
  destruct (dialog_title lower calibre_metadata) as [calibre_title |]; simpl; [| done].
  destruct (dialog_authors lower calibre_metadata) as [calibre_authors |]; simpl; [| done].
  apply py_sorted_order_within_keys.
  - symmetry. exact (py_sorted_Permutation _ _ _ Hsort).
  - intros k.
    set (by_title := fun item : pyval =>
           bool_decide ((title ← item_lower lower item "title"; Some (0, title))
                        = Some (0, snd k))).
    rewrite <- (filter_filter_implied _ by_title sorted_items),
            <- (filter_filter_implied _ by_title items).
    + f_equal. exact (py_sorted_stable _ items sorted_items (0, snd k) Hsort).
    + intros item Hk. apply bool_decide_eq_true in Hk. apply bool_decide_eq_true_2.
      by rewrite (sort_key_title _ _ _ _ _ Hk).
    + intros item Hk. apply bool_decide_eq_true in Hk. apply bool_decide_eq_true_2.
      by rewrite (sort_key_title _ _ _ _ _ Hk).
Qed.

(** X19. Sorting the items by lowercased title before the dialog sorts
    them makes no difference to what the dialog shows: on the list sorted by
    title the dialog computes the order it computes on the list itself, and
    raises where it raises on the list itself. *)
Theorem presort_by_title_redundant (lower : string -> string)
    (calibre_metadata : option Metadata) (items sorted_items : list pyval) :
  sort_by_title lower items = Some sorted_items ->
  link_dialog_items lower calibre_metadata sorted_items
  = link_dialog_items lower calibre_metadata items.
Proof. apply sort_by_title_then_dialog. Qed.

Lemma presort_by_title_redundant_witness :
  sort_by_title Sample.lower [Sample.emma; Sample.dune_reissue; Sample.dune]
  = Some [Sample.dune; Sample.dune_reissue; Sample.emma]
  /\ link_dialog_items Sample.lower (Some Sample.unlinked_book)
       [Sample.dune; Sample.dune_reissue; Sample.emma]
     = link_dialog_items Sample.lower (Some Sample.unlinked_book)
         [Sample.emma; Sample.dune_reissue; Sample.dune].
Proof.
  split; [reflexivity |].
  exact (presort_by_title_redundant Sample.lower (Some Sample.unlinked_book)
           [Sample.emma; Sample.dune_reissue; Sample.dune]
           [Sample.dune; Sample.dune_reissue; Sample.emma] eq_refl).
Defined.


(** ** The runs of [link_audiobookshelf_book] *)

Lemma link_dialog_init_items (lower : string -> string) (items : list pyval)
    (calibre_metadata : option Metadata) (me_data : pyval) (dlg : LinkDialog) :
  link_dialog_init lower items calibre_metadata me_data = Some dlg ->
  link_dialog_items lower calibre_metadata items = Some (dlg_items dlg).
Proof.
  unfold link_dialog_init, link_dialog_items.
  destruct (dialog_title lower calibre_metadata) as [calibre_title |]; simpl; [| done].
  destruct (dialog_authors lower calibre_metadata) as [calibre_authors |]; simpl; [| done].
  destruct (py_sorted _ items) as [sorted_items |]; simpl; [| done].
  destruct (reading_ids me_data) as [ids |]; simpl; [| done].
  destruct (mapM _ sorted_items) as [table |]; simpl; [| done].
  by intros [= <-].
Qed.

Section ManualLoop.
Variable lower : string -> string.
Variables (sorted_items : list pyval) (me_data : pyval).

Local Abbreviation turn := (link_book lower sorted_items me_data).
Local Abbreviation loop := (link_books lower sorted_items me_data).

(** The two ways a turn of the loop over the selected books ends. *)
Lemma link_book_cases (choice : Z * dialog_answer) (summary summary' : link_summary) :
  turn choice summary = Some summary' ->
  let metadata := get_metadata (sm_db summary) (fst choice) in
  let item := chosen_item lower sorted_items metadata (snd choice) in
  (py_truthy item = false
   /\ exists how,
        summary' = summary_skip summary (book_title metadata (fst choice)) how)
  \/ (py_truthy item = true
      /\ exists row,
           summary' = {| sm_db := set_metadata (sm_db summary) (fst choice)
                                    (linked_to metadata item);
                         sm_linked := S (sm_linked summary);
                         sm_skipped := sm_skipped summary;
                         sm_failed := sm_failed summary;
                         sm_details := sm_details summary ++ [row] |}).
Proof.
  destruct choice as [book_id answer]. unfold link_book, chosen_item, linked_to. simpl.
  destruct (link_dialog_init lower sorted_items (Some (get_metadata (sm_db summary) book_id))
              me_data) as [dlg |] eqn:Hdlg; simpl; [| done].
  rewrite (link_dialog_init_items _ _ _ _ _ Hdlg). simpl.
  destruct answer as [| | row]; simpl.
  - intros [= <-]. left. split; [done |]. by eexists.
  - intros [= <-]. left. split; [done |]. by eexists.
  - destruct (py_truthy _) eqn:Ht.
    + destruct (py_get _ "id") as [abs_id |]; simpl; [| done].
      destruct (item_metadata_get _ "title" _) as [abs_title |]; simpl; [| done].
      intros [= <-]. right. split; [done |]. by eexists.
    + intros [= <-]. left. split; [done |]. by eexists.
Qed.

Lemma link_book_other (choice : Z * dialog_answer) (summary summary' : link_summary)
    (id : Z) :
  turn choice summary = Some summary' -> id <> fst choice ->
  get_metadata (sm_db summary') id = get_metadata (sm_db summary) id.
Proof.
  intros Hturn Hne. apply link_book_cases in Hturn.
  destruct Hturn as [(_ & how & ->) | (_ & row & ->)]; simpl; [done |].
  by apply get_metadata_set_metadata_ne.
Qed.

Lemma get_metadata_linked_to (db : DB) (book_id : Z) (item : pyval) :
  get_metadata (set_metadata db book_id (linked_to (get_metadata db book_id) item)) book_id
  = linked_to (get_metadata db book_id) item.
Proof.
  rewrite get_metadata_set_metadata. unfold linked_to, md_set_identifiers. simpl.
  by rewrite !keep_stored_same.
Qed.

Lemma link_book_own (choice : Z * dialog_answer) (summary summary' : link_summary) :
  turn choice summary = Some summary' ->
  let metadata := get_metadata (sm_db summary) (fst choice) in
  let item := chosen_item lower sorted_items metadata (snd choice) in
  get_metadata (sm_db summary') (fst choice)
  = if py_truthy item then linked_to metadata item else metadata.
Proof.
  intros Hturn. apply link_book_cases in Hturn. simpl.
  destruct Hturn as [(-> & how & ->) | (-> & row & ->)]; simpl; [done |].
  apply get_metadata_linked_to.
Qed.

Lemma link_book_fields (choice : Z * dialog_answer) (summary summary' : link_summary)
    (id : Z) :
  turn choice summary = Some summary' ->
  md_fields (get_metadata (sm_db summary') id) = md_fields (get_metadata (sm_db summary) id).
Proof.
  intros Hturn. destruct (decide (id = fst choice)) as [-> | Hne].
  - rewrite (link_book_own _ _ _ Hturn). by destruct (py_truthy _).
  - by rewrite (link_book_other _ _ _ id Hturn Hne).
Qed.

Lemma link_book_get_identifier (choice : Z * dialog_answer)
    (summary summary' : link_summary) (id : Z) (key : string) :
  turn choice summary = Some summary' ->
  key <> "audiobookshelf_id" ->
  Dict.get key (md_identifiers (get_metadata (sm_db summary') id))
  = Dict.get key (md_identifiers (get_metadata (sm_db summary) id)).
Proof.
  intros Hturn Hkey. destruct (decide (id = fst choice)) as [-> | Hne].
  - rewrite (link_book_own _ _ _ Hturn). destruct (py_truthy _); [| done].
    simpl. by apply DictFacts.get_set_ne.
  - by rewrite (link_book_other _ _ _ id Hturn Hne).
Qed.

Lemma link_book_counts (choice : Z * dialog_answer) (summary summary' : link_summary) :
  turn choice summary = Some summary' ->
  (sm_linked summary' + sm_skipped summary' = S (sm_linked summary + sm_skipped summary))%nat
  /\ length (sm_details summary') = S (length (sm_details summary))
  /\ sm_failed summary' = sm_failed summary
  /\ (length (db_writes (sm_db summary')) + sm_linked summary
      = length (db_writes (sm_db summary)) + sm_linked summary')%nat.
Proof.
  intros Hturn. apply link_book_cases in Hturn.
  destruct Hturn as [(_ & how & ->) | (_ & row & ->)]; simpl;
    rewrite ?length_app; simpl; repeat split; lia.
Qed.

Lemma link_books_counts (selected : list (Z * dialog_answer))
    (summary summary' : link_summary) :
  loop selected summary = Some summary' ->
  (sm_linked summary' + sm_skipped summary'
   = sm_linked summary + sm_skipped summary + length selected)%nat
  /\ length (sm_details summary') = (length (sm_details summary) + length selected)%nat
  /\ sm_failed summary' = sm_failed summary
  /\ (length (db_writes (sm_db summary')) + sm_linked summary
      = length (db_writes (sm_db summary)) + sm_linked summary')%nat.
Proof.
  revert summary. induction selected as [| choice selected IH]; intros summary Hloop;
    simpl in Hloop.
  - injection Hloop as <-. simpl. repeat split; lia.
  - destruct (turn choice summary) as [summary1 |] eqn:E1; [| done]. simpl in Hloop.
    apply link_book_counts in E1. apply IH in Hloop. simpl. repeat split; lia.
Qed.

Lemma link_books_untouched (selected : list (Z * dialog_answer))
    (summary summary' : link_summary) (id : Z) :
  loop selected summary = Some summary' ->
  ~ In id (map fst selected) ->
  get_metadata (sm_db summary') id = get_metadata (sm_db summary) id.
Proof.
  revert summary. induction selected as [| choice selected IH]; intros summary Hloop Hnot;
    simpl in Hloop.
  - by injection Hloop as <-.
  - destruct (turn choice summary) as [summary1 |] eqn:E1; [| done]. simpl in Hloop.
    simpl in Hnot. rewrite (IH summary1 Hloop) by tauto.
    apply (link_book_other choice); [done |]. intros ->. tauto.
Qed.

Lemma link_books_fields (selected : list (Z * dialog_answer))
    (summary summary' : link_summary) (id : Z) :
  loop selected summary = Some summary' ->
  md_fields (get_metadata (sm_db summary') id) = md_fields (get_metadata (sm_db summary) id).
Proof.
  revert summary. induction selected as [| choice selected IH]; intros summary Hloop;
    simpl in Hloop.
  - by injection Hloop as <-.
  - destruct (turn choice summary) as [summary1 |] eqn:E1; [| done]. simpl in Hloop.
    rewrite (IH summary1 Hloop). by apply (link_book_fields choice).
Qed.

Lemma link_books_get_identifier (selected : list (Z * dialog_answer))
    (summary summary' : link_summary) (id : Z) (key : string) :
  loop selected summary = Some summary' ->
  key <> "audiobookshelf_id" ->
  Dict.get key (md_identifiers (get_metadata (sm_db summary') id))
  = Dict.get key (md_identifiers (get_metadata (sm_db summary) id)).
Proof.
  revert summary. induction selected as [| choice selected IH]; intros summary Hloop Hkey;
    simpl in Hloop.
  - by injection Hloop as <-.
  - destruct (turn choice summary) as [summary1 |] eqn:E1; [| done]. simpl in Hloop.
    rewrite (IH summary1 Hloop Hkey). by apply (link_book_get_identifier choice).
Qed.

(** A book selected once ends as its own dialog left it. *)
Lemma link_books_effect (selected : list (Z * dialog_answer))
    (summary summary' : link_summary) (book_id : Z) (answer : dialog_answer) :
  List.NoDup (map fst selected) ->
  In (book_id, answer) selected ->
  loop selected summary = Some summary' ->
  let metadata := get_metadata (sm_db summary) book_id in
  let item := chosen_item lower sorted_items metadata answer in
  get_metadata (sm_db summary') book_id
  = if py_truthy item then linked_to metadata item else metadata.
Proof.
  revert summary. induction selected as [| choice selected IH];
    intros summary Hnd Hin Hloop; simpl in *; [done |].
  apply List.NoDup_cons_iff in Hnd. destruct Hnd as [Hnot Hnd].
  destruct (turn choice summary) as [summary1 |] eqn:E1; [| done]. simpl in Hloop.
  destruct Hin as [-> | Hin].
  - rewrite (link_books_untouched _ _ _ book_id Hloop Hnot).
    exact (link_book_own _ _ _ E1).
  - assert (book_id <> fst choice) as Hne.
    { intros ->. apply Hnot. apply in_map_iff. by exists (fst choice, answer). }
    rewrite (IH summary1 Hnd Hin Hloop).
    by rewrite (link_book_other _ _ _ book_id E1 Hne).
Qed.
End ManualLoop.

Lemma link_audiobookshelf_book_loop (lower : string -> string) (CONFIG : gmap string string)
    (items_data me_data : pyval) (db : DB) (selected : list (Z * dialog_answer))
    (summary : link_summary) :
  link_audiobookshelf_book lower CONFIG items_data me_data db selected
  = Some (ManualCompleted summary) ->
  exists items_list sorted_items,
    py_iter (unwrap_items items_data) = Some items_list
    /\ sort_by_title lower (List.filter is_dict items_list) = Some sorted_items
    /\ link_books lower sorted_items me_data selected (mkSummary db 0 0 0 []) = Some summary.
Proof.
  unfold link_audiobookshelf_book.
  destruct (_ || _); [done |].
  destruct (is_none items_data); [done |].
  destruct (is_none me_data); [done |].
  destruct (py_iter (unwrap_items items_data)) as [items_list |]; simpl; [| done].
  destruct (sort_by_title lower _) as [sorted_items |] eqn:Hsort; simpl; [| done].
  destruct selected as [| choice selected]; [done |].
  destruct (link_books lower _ _ _ _) as [summary0 |] eqn:Hloop; simpl; [| done].
  intros [= <-]. by exists items_list, sorted_items.
Qed.

Lemma sample_manual_run :
  link_audiobookshelf_book Sample.lower Sample.CONFIG Sample.fetched Sample.me_with_progress
    Sample.mixed_shelf Sample.answers
  = Some (ManualCompleted Sample.hand_linked).
Proof. vm_compute. reflexivity. Qed.

(** X20. In the summary of a completed run of linking by hand, the linked
    count and the skipped count add up to the number of rows, there is one
    row for each selected book, the failed count is zero, and the store was
    written once for each book linked. *)
Theorem manual_link_counts (lower : string -> string) (CONFIG : gmap string string)
    (items_data me_data : pyval) (db : DB) (selected : list (Z * dialog_answer))
    (summary : link_summary) :
  link_audiobookshelf_book lower CONFIG items_data me_data db selected
  = Some (ManualCompleted summary) ->
  (sm_linked summary + sm_skipped summary)%nat = length (sm_details summary)
  /\ length (sm_details summary) = length selected
  /\ sm_failed summary = 0%nat
  /\ length (db_writes (sm_db summary)) = (length (db_writes db) + sm_linked summary)%nat.
Proof.
  intros Hrun.
  destruct (link_audiobookshelf_book_loop _ _ _ _ _ _ _ Hrun) as (l & s & _ & _ & Hloop).
  apply link_books_counts in Hloop. simpl in Hloop. repeat split; lia.
Qed.

Lemma manual_link_counts_witness :
  link_audiobookshelf_book Sample.lower Sample.CONFIG Sample.fetched Sample.me_with_progress
    Sample.mixed_shelf Sample.answers
  = Some (ManualCompleted Sample.hand_linked)
  /\ (1 + 2)%nat = length (sm_details Sample.hand_linked)
  /\ length (sm_details Sample.hand_linked) = length Sample.answers
  /\ sm_failed Sample.hand_linked = 0%nat
  /\ length (db_writes (sm_db Sample.hand_linked)) = (0 + 1)%nat.
Proof.
  split; [exact sample_manual_run |].
  exact (manual_link_counts Sample.lower Sample.CONFIG Sample.fetched Sample.me_with_progress
           Sample.mixed_shelf Sample.answers Sample.hand_linked sample_manual_run).
Defined.

(** X21. A completed run of linking by hand changes nothing but the remote
    identifier of selected books: of every book the fields are as before,
    every identifier under another key is as before, and a book that was not
    selected is as before altogether. *)
Theorem manual_link_frame (lower : string -> string) (CONFIG : gmap string string)
    (items_data me_data : pyval)
    (db : DB) (selected : list (Z * dialog_answer)) (summary : link_summary) (id : Z) :
  link_audiobookshelf_book lower CONFIG items_data me_data db selected
  = Some (ManualCompleted summary) ->
  md_fields (get_metadata (sm_db summary) id) = md_fields (get_metadata db id)
  /\ (forall key, key <> "audiobookshelf_id" ->
        Dict.get key (md_identifiers (get_metadata (sm_db summary) id))
        = Dict.get key (md_identifiers (get_metadata db id)))
  /\ (~ In id (map fst selected) -> get_metadata (sm_db summary) id = get_metadata db id).
Proof.
  intros Hrun.
  destruct (link_audiobookshelf_book_loop _ _ _ _ _ _ _ Hrun) as (l & s & _ & _ & Hloop).
  split; [| split].
  - exact (link_books_fields lower s me_data _ _ _ id Hloop).
  - intros key Hkey. exact (link_books_get_identifier lower s me_data _ _ _ id key Hloop Hkey).
  - intros Hnot. exact (link_books_untouched lower s me_data _ _ _ id Hloop Hnot).
Qed.

Lemma manual_link_frame_witness :
  link_audiobookshelf_book Sample.lower Sample.CONFIG Sample.fetched Sample.me_with_progress
    Sample.mixed_shelf Sample.answers
  = Some (ManualCompleted Sample.hand_linked)
  /\ md_fields (get_metadata (sm_db Sample.hand_linked) 1) = md_fields Sample.linked_book
  /\ (forall key, key <> "audiobookshelf_id" ->
        Dict.get key (md_identifiers (get_metadata (sm_db Sample.hand_linked) 1))
        = Dict.get key (md_identifiers Sample.linked_book))
  /\ (~ In 1 (map fst Sample.answers) ->
      get_metadata (sm_db Sample.hand_linked) 1 = Sample.linked_book).
Proof.
  split; [exact sample_manual_run |].
  exact (manual_link_frame Sample.lower Sample.CONFIG Sample.fetched Sample.me_with_progress
           Sample.mixed_shelf Sample.answers Sample.hand_linked 1 sample_manual_run).
Defined.

(** X22. After a completed run of linking by hand, a book selected once is
    as its own dialog left it, whatever the lowering of strings is. With the items of the fetch that are
    mappings, ordered as the dialog orders them for the book, and the item
    the answer picks there: when that item is truthy, the remote identifier
    of the book is the [id] of the item, whether or not the book was linked
    before; when the dialog was closed or skipped, the row was out of range
    or the item is an empty mapping, the book is as before. *)
Theorem manual_link_effect (lower : string -> string) (CONFIG : gmap string string)
    (items_data me_data : pyval)
    (db : DB) (selected : list (Z * dialog_answer)) (summary : link_summary)
    (items_list : list pyval) (book_id : Z) (answer : dialog_answer) :
  link_audiobookshelf_book lower CONFIG items_data me_data db selected
  = Some (ManualCompleted summary) ->
  py_iter (unwrap_items items_data) = Some items_list ->
  List.NoDup (map fst selected) ->
  In (book_id, answer) selected ->
  let metadata := get_metadata db book_id in
  let item := chosen_item lower (List.filter is_dict items_list) metadata answer in
  get_metadata (sm_db summary) book_id
  = if py_truthy item then linked_to metadata item else metadata.
Proof.
  intros Hrun Hiter Hnd Hin.
  destruct (link_audiobookshelf_book_loop _ _ _ _ _ _ _ Hrun) as (l & s & Hl & Hsort & Hloop).
  rewrite Hiter in Hl. injection Hl as <-.
  rewrite (link_books_effect lower s me_data _ _ _ book_id answer Hnd Hin Hloop). simpl.
  unfold chosen_item. by rewrite (sort_by_title_then_dialog _ _ _ _ Hsort).
Qed.

Lemma manual_link_effect_witness :
  link_audiobookshelf_book Sample.lower Sample.CONFIG Sample.fetched Sample.me_with_progress
    Sample.mixed_shelf Sample.answers
  = Some (ManualCompleted Sample.hand_linked)
  /\ py_iter (unwrap_items Sample.fetched) = Some [Sample.dune; Sample.emma]
  /\ List.NoDup (map fst Sample.answers)
  /\ In (1, DialogLink 1) Sample.answers
  /\ get_metadata (sm_db Sample.hand_linked) 1
     = linked_to Sample.linked_book Sample.emma.
Proof.
  assert (List.NoDup (map fst Sample.answers)) as Hnd.
  { apply NoDup_ListNoDup, (bool_decide_unpack _). vm_compute. reflexivity. }
  assert (In (1, DialogLink 1) Sample.answers) as Hin by (simpl; tauto).
  split; [exact sample_manual_run |]. split; [reflexivity |].
  split; [exact Hnd |]. split; [exact Hin |].
  exact (manual_link_effect Sample.lower Sample.CONFIG Sample.fetched Sample.me_with_progress
           Sample.mixed_shelf Sample.answers Sample.hand_linked
           [Sample.dune; Sample.emma] 1 (DialogLink 1) sample_manual_run eq_refl Hnd Hin).
Defined.


Lemma item_metadata_get_any_default (item : pyval) (key : string) (d1 d2 : pyval) :
  is_Some (item_metadata_get item key d1) -> is_Some (item_metadata_get item key d2).
Proof.
  unfold item_metadata_get.
  destruct (py_get_default item "media" (PDict [])) as [media |]; simpl; [| done].
  destruct (py_get_default media "metadata" (PDict [])) as [metadata |]; simpl; [| done].
  destruct metadata; simpl; done.
Qed.

Lemma item_lower_inv (lower : string -> string) (item : pyval) (key : string) :
  is_Some (item_lower lower item key) ->
  exists v s, item_metadata_get item key (PStr "") = Some v /\ py_lower lower v = Some s.
Proof.
  unfold item_lower. intros [s Hs].
  destruct (item_metadata_get item key (PStr "")) as [v |]; simpl in Hs; [| done].
  by exists v, s.
Qed.

Lemma selected_item_of_In (items : list pyval) (answer : dialog_answer) :
  py_truthy (selected_item_of items answer) = true ->
  In (selected_item_of items answer) items.
Proof.
  destruct answer as [| | row]; simpl; try done.
  destruct (Z.leb 0 row && Z.ltb row (Z.of_nat (length items))) eqn:E; [| done].
  intros _. apply nth_In. apply andb_true_iff in E. destruct E as [H0 H1].
  apply Z.leb_le in H0. apply Z.ltb_lt in H1. lia.
Qed.

Lemma book_comparable_fields (lower : string -> string) (md1 md2 : Metadata) :
  md_fields md1 = md_fields md2 -> book_comparable lower md1 -> book_comparable lower md2.
Proof.
  unfold book_comparable, dialog_title, dialog_authors, md_get_default.
  by intros ->.
Qed.

Lemma link_dialog_init_completes (lower : string -> string) (items : list pyval)
    (metadata : Metadata)
    (me_data : pyval) :
  Forall (item_showable lower) items ->
  book_comparable lower metadata ->
  is_Some (reading_ids me_data) ->
  exists dlg, link_dialog_init lower items (Some metadata) me_data = Some dlg
              /\ Permutation items (dlg_items dlg).
Proof.
  intros Hitems [[calibre_title Htitle] [calibre_authors Hauthors]] [ids Hids].
  unfold link_dialog_init. rewrite Htitle, Hauthors. simpl.
  destruct (proj2 (py_sorted_is_Some (sort_key lower calibre_title calibre_authors) items))
    as [sorted_items Hsorted].
  { eapply Forall_impl; [exact Hitems |]. intros item ([t Ht] & [a Ha] & _).
    unfold sort_key. unfold item_lower in Ht, Ha. rewrite Ht, Ha. simpl. by eexists. }
  rewrite Hsorted, Hids. simpl.
  pose proof (py_sorted_Permutation _ _ _ Hsorted) as Hperm.
  assert (is_Some (mapM (make_dialog_row lower calibre_title calibre_authors ids) sorted_items))
    as [table Htable].
  { apply mapM_is_Some. rewrite <- Hperm. eapply Forall_impl; [exact Hitems |].
    intros item (Ht & Ha & item_id & Hid & Hhash). simpl.
    apply item_lower_inv in Ht, Ha.
    destruct Ht as (vt & st & Hvt & Hst), Ha as (va & sa & Hva & Hsa).
    unfold make_dialog_row. rewrite Hvt, Hva. simpl. rewrite Hst, Hsa. simpl.
    rewrite Hid. simpl. rewrite Hhash. by eexists. }
  rewrite Htable. simpl. by eexists.
Qed.

Lemma link_book_completes (lower : string -> string) (sorted_items : list pyval)
    (me_data : pyval)
    (choice : Z * dialog_answer) (summary : link_summary) :
  Forall (item_showable lower) sorted_items ->
  book_comparable lower (get_metadata (sm_db summary) (fst choice)) ->
  is_Some (reading_ids me_data) ->
  is_Some (link_book lower sorted_items me_data choice summary).
Proof.
  intros Hitems Hbook Hids. unfold link_book.
  destruct (link_dialog_init_completes _ _ _ _ Hitems Hbook Hids) as (dlg & -> & Hperm).
  simpl. destruct (dialog_accepted (snd choice)); [| by eexists].
  destruct (py_truthy (selected_item_of (dlg_items dlg) (snd choice))) eqn:Ht;
    [| by eexists].
  apply selected_item_of_In in Ht.
  apply (Permutation_in _ (Permutation_sym Hperm)) in Ht.
  rewrite Forall_forall in Hitems. apply list_elem_of_In in Ht.
  destruct (Hitems _ Ht) as (Htitle & _ & item_id & -> & _). simpl.
  apply item_lower_inv in Htitle. destruct Htitle as (v & s & Hv & _).
  destruct (item_metadata_get_any_default (selected_item_of (dlg_items dlg) (snd choice))
              "title" (PStr "") (PStr "Unknown Title"))
    as [abs_title ->]; [by rewrite Hv |].
  simpl. by eexists.
Qed.

Lemma link_books_completes (lower : string -> string) (sorted_items : list pyval)
    (me_data : pyval)
    (selected : list (Z * dialog_answer)) (summary : link_summary) :
  Forall (item_showable lower) sorted_items ->
  (forall choice, In choice selected ->
     book_comparable lower (get_metadata (sm_db summary) (fst choice))) ->
  is_Some (reading_ids me_data) ->
  is_Some (link_books lower sorted_items me_data selected summary).
Proof.
  intros Hitems Hbooks Hids. revert summary Hbooks.
  induction selected as [| choice selected IH]; intros summary Hbooks; simpl;
    [by eexists |].
  destruct (link_book_completes lower sorted_items me_data choice summary Hitems)
    as [summary1 Hturn]; [apply Hbooks; by left | done |].
  rewrite Hturn. simpl. apply IH. intros c Hc.
  apply (book_comparable_fields lower (get_metadata (sm_db summary) (fst c))).
  - symmetry. by apply (link_book_fields lower sorted_items me_data choice).
  - apply Hbooks. by right.
Qed.

(** X23. A run of linking by hand over a selection that is not empty comes
    to its summary whenever the configuration has an API key and a library
    id, both payloads were fetched, every fetched item that is a mapping has
    a title and an author name that can be lowercased and an [id] that can be
    hashed, the progress records of the profile can be read, and the title
    and the authors of every selected book can be lowercased; whatever the
    user answers. *)
Theorem manual_link_completes (lower : string -> string) (CONFIG : gmap string string)
    (items_data me_data : pyval)
    (db : DB) (selected : list (Z * dialog_answer)) (items_list : list pyval) :
  config_get CONFIG "abs_key" <> "" ->
  config_get CONFIG "abs_library_id" <> "" ->
  items_data <> PNone ->
  me_data <> PNone ->
  py_iter (unwrap_items items_data) = Some items_list ->
  Forall (item_showable lower) (List.filter is_dict items_list) ->
  is_Some (reading_ids me_data) ->
  (forall choice, In choice selected -> book_comparable lower (get_metadata db (fst choice))) ->
  selected <> [] ->
  exists summary,
    link_audiobookshelf_book lower CONFIG items_data me_data db selected
    = Some (ManualCompleted summary).
Proof.
  intros Hkey Hlib Hitems Hme Hiter Hshow Hids Hbooks Hsel.
  unfold link_audiobookshelf_book.
  apply String.eqb_neq in Hkey, Hlib. rewrite Hkey, Hlib. simpl.
  apply is_none_false in Hitems, Hme. rewrite Hitems, Hme, Hiter. simpl.
  destruct (proj2 (py_sorted_is_Some
                     (fun item => title ← item_lower lower item "title"; Some (0, title))
                     (List.filter is_dict items_list))) as [sorted_items Hsorted].
  { eapply Forall_impl; [exact Hshow |]. intros item ([t Ht] & _). rewrite Ht. by eexists. }
  unfold sort_by_title. rewrite Hsorted. simpl.
  destruct selected as [| choice selected]; [done |].
  destruct (link_books_completes lower sorted_items me_data (choice :: selected)
              (mkSummary db 0 0 0 [])) as [summary Hloop]; [| done | done |].
  { rewrite <- (py_sorted_Permutation _ _ _ Hsorted). exact Hshow. }
  rewrite Hloop. simpl. by exists summary.
Qed.

Lemma sample_mixed_shelf_comparable (lower : string -> string) (choice : Z * dialog_answer) :
  In choice Sample.answers ->
  book_comparable lower (get_metadata Sample.mixed_shelf (fst choice)).
Proof.
  intros [<- | [<- | [<- | []]]]; split; vm_compute; by eexists.
Qed.

Lemma manual_link_completes_witness :
  py_iter (unwrap_items Sample.fetched) = Some [Sample.dune; Sample.emma]
  /\ exists summary,
       link_audiobookshelf_book Sample.lower Sample.CONFIG Sample.fetched Sample.me_with_progress
         Sample.mixed_shelf Sample.answers
       = Some (ManualCompleted summary).
Proof.
  split; [reflexivity |].
  apply (manual_link_completes Sample.lower Sample.CONFIG Sample.fetched Sample.me_with_progress
           Sample.mixed_shelf Sample.answers [Sample.dune; Sample.emma]).
  - vm_compute. discriminate.
  - vm_compute. discriminate.
  - discriminate.
  - discriminate.
  - reflexivity.
  - repeat constructor; by eexists.
  - vm_compute. by eexists.
  - apply sample_mixed_shelf_comparable.
  - discriminate.
Defined.


(** ** The table of a report *)

Lemma add_header_In (acc : list string) (h x : string) :
  In x (add_header acc h) <-> In x acc \/ x = h.
Proof.
  unfold add_header. destruct (existsb (String.eqb h) acc) eqn:E.
  - apply existsb_eqb_In in E. split; [by left |]. by intros [Hin | ->].
  - rewrite in_app_iff. simpl. intuition.
Qed.

Lemma add_header_NoDup (acc : list string) (h : string) :
  List.NoDup acc -> List.NoDup (add_header acc h).
Proof.
  intros Hnd. unfold add_header. destruct (existsb (String.eqb h) acc) eqn:E; [done |].
  apply List.NoDup_app; [done | repeat constructor; by intros [] |].
  intros a Hin [<- | []].
  apply existsb_eqb_In in Hin. by rewrite Hin in E.
Qed.

Lemma fold_add_header_In (keys acc : list string) (x : string) :
  In x (fold_left add_header keys acc) <-> In x acc \/ In x keys.
Proof.
  revert acc. induction keys as [| k keys IH]; intros acc; simpl; [tauto |].
  rewrite IH, add_header_In. intuition congruence.
Qed.

Lemma fold_add_header_NoDup (keys acc : list string) :
  List.NoDup acc -> List.NoDup (fold_left add_header keys acc).
Proof.
  revert acc. induction keys as [| k keys IH]; intros acc Hnd; simpl; [done |].
  by apply IH, add_header_NoDup.
Qed.

Lemma fold_rows_In (results : list (list (string * cell))) (acc : list string) (x : string) :
  In x (fold_left (fun acc result => fold_left add_header (Dict.keys result) acc)
          results acc)
  <-> In x acc \/ exists result, In result results /\ In x (Dict.keys result).
Proof.
  revert acc. induction results as [| result results IH]; intros acc; simpl.
  - split; [by left | intros [H | (r & [] & _)]; done].
  - rewrite IH, fold_add_header_In. split.
    + intros [[H | H] | (r & Hr & Hx)]; [by left | right | right].
      * exists result. split; [by left | done].
      * exists r. split; [by right | done].
    + intros [H | (r & [<- | Hr] & Hx)]; [left; by left | left; by right | right].
      by exists r.
Qed.

Lemma fold_rows_NoDup (results : list (list (string * cell))) (acc : list string) :
  List.NoDup acc ->
  List.NoDup (fold_left (fun acc result => fold_left add_header (Dict.keys result) acc)
                results acc).
Proof.
  revert acc. induction results as [| result results IH]; intros acc Hnd; simpl; [done |].
  by apply IH, fold_add_header_NoDup.
Qed.

Lemma all_headers_In (results : list (list (string * cell))) (h : string) :
  In h (all_headers results)
  <-> exists result, In result results /\ Dict.mem h result = true.
Proof.
  unfold all_headers. rewrite fold_rows_In. split.
  - intros [[] | (r & Hr & Hx)]. exists r. split; [done |].
    unfold Dict.mem. destruct (Dict.get h r) eqn:E; [done |].
    by apply DictFacts.get_None_keys in E.
  - intros (r & Hr & Hx). right. exists r. split; [done |].
    unfold Dict.mem in Hx. destruct (Dict.get h r) eqn:E; [| done].
    destruct (List.in_dec String.string_dec h (Dict.keys r)) as [Hin | Hnot]; [done |].
    apply DictFacts.get_None_keys in Hnot. congruence.
Qed.

Lemma sorted_strings_Permutation (l : list string) : Permutation l (sorted_strings l).
Proof.
  unfold sorted_strings.
  rewrite <- (sort_keyed_Permutation (map (fun h => ((0, h), h)) l)).
  rewrite map_map. simpl. by rewrite map_id.
Qed.

Lemma is_custom_column_false (h : string) :
  is_custom_column h = false ->
  h = "title" \/ h = "error" \/ h = "linked" \/ h = "skipped".
Proof.
  unfold is_custom_column. intros H. apply negb_false_iff, existsb_eqb_In in H.
  simpl in H. intuition.
Qed.

Lemma table_headers_In (results : list (list (string * cell))) (h : string) :
  In h (table_headers results)
  <-> h = "title" \/ h = "error"
      \/ exists result, In result results /\ Dict.mem h result = true.
Proof.
  unfold table_headers. cbv zeta. rewrite <- all_headers_In.
  set (all := all_headers results).
  assert (forall x, In x (sorted_strings (List.filter is_custom_column all))
                    <-> In x all /\ is_custom_column x = true) as Hcustom.
  { intros x. rewrite <- filter_In. split; apply Permutation_in;
      [symmetry |]; apply sorted_strings_Permutation. }
  cbn [app In]. rewrite !in_app_iff, Hcustom. cbn [In]. split.
  - intros [<- | [[Hin _] | [Hl | [Hs | He]]]]; auto.
    + destruct (existsb (String.eqb "linked") all) eqn:E; [| done].
      destruct Hl as [<- | []]. apply existsb_eqb_In in E. auto.
    + destruct (existsb (String.eqb "skipped") all) eqn:E; [| done].
      destruct Hs as [<- | []]. apply existsb_eqb_In in E. auto.
    + destruct He as [<- | []]. auto.
  - intros [-> | [-> | Hin]]; [by left | right; right; right; right; by left |].
    destruct (is_custom_column h) eqn:Ec; [right; left; done |].
    apply is_custom_column_false in Ec.
    destruct Ec as [-> | [-> | [-> | ->]]].
    + by left.
    + right; right; right; right; by left.
    + apply existsb_eqb_In in Hin. rewrite Hin. right; right; left; by left.
    + apply existsb_eqb_In in Hin. rewrite Hin. right; right; right; left; by left.
Qed.

Lemma table_headers_NoDup (results : list (list (string * cell))) :
  List.NoDup (table_headers results).
Proof.
  unfold table_headers. cbv zeta. set (all := all_headers results).
  set (custom := sorted_strings (List.filter is_custom_column all)).
  assert (List.NoDup custom) as Hnd.
  { apply (Permutation_NoDup (sorted_strings_Permutation _)), List.NoDup_filter.
    unfold all, all_headers. apply fold_rows_NoDup. constructor. }
  assert (forall x, In x custom -> is_custom_column x = true) as Hc.
  { intros x Hin.
    apply (Permutation_in _ (Permutation_sym (sorted_strings_Permutation _))) in Hin.
    by apply filter_In in Hin as [_ Hx]. }
  assert (forall x, In x (["linked"; "skipped"; "error"; "title"] : list string) ->
                    ~ In x custom) as Hfixed.
  { intros x Hx Hin. apply Hc in Hin. simpl in Hx.
    destruct Hx as [<- | [<- | [<- | [<- | []]]]]; discriminate Hin. }
  cbn [app]. constructor.
  - rewrite !in_app_iff. intros [Hin | [Hin | [Hin | Hin]]].
    + apply (Hfixed "title"); simpl; tauto.
    + destruct (existsb _ all); simpl in Hin; intuition discriminate.
    + destruct (existsb _ all); simpl in Hin; intuition discriminate.
    + simpl in Hin. intuition discriminate.
  - apply List.NoDup_app; [done | |].
    + destruct (existsb (String.eqb "linked") all), (existsb (String.eqb "skipped") all);
        simpl; repeat constructor; simpl; intuition discriminate.
    + intros x Hin Hx. apply (Hfixed x); [| done].
      rewrite !in_app_iff in Hx.
      destruct (existsb (String.eqb "linked") all), (existsb (String.eqb "skipped") all);
        simpl in *; intuition.
Qed.

(** X24. Every cell of every row of a report is shown in the table: in the
    table row of its report row, under a column headed by its key, and no
    other column has that header. *)
Theorem results_table_shows_every_cell (results : list (list (string * cell)))
    (i : nat) (result : list (string * cell)) (key : string) (c : cell) :
  nth_error results i = Some result ->
  Dict.get key result = Some c ->
  exists j,
    nth_error (table_headers results) j = Some key
    /\ (forall j', nth_error (table_headers results) j' = Some key -> j' = j)
    /\ (row ← nth_error (create_results_table results) i; nth_error row j) = Some (Some c).
Proof.
  intros Hrow Hcell.
  assert (In key (table_headers results)) as Hin.
  { apply table_headers_In. right. right. exists result.
    split; [by apply nth_error_In in Hrow |]. unfold Dict.mem. by rewrite Hcell. }
  apply In_nth_error in Hin. destruct Hin as [j Hj]. exists j.
  split; [done |]. split.
  - intros j' Hj'. pose proof (table_headers_NoDup results) as Hnd.
    rewrite List.NoDup_nth_error in Hnd. apply Hnd; [| congruence].
    apply nth_error_Some. by rewrite Hj'.
  - unfold create_results_table. rewrite (map_nth_error _ _ _ Hrow).
    change (nth_error (map (fun key0 => Dict.get key0 result) (table_headers results)) j
            = Some (Some c)).
    by rewrite (map_nth_error _ _ _ Hj), Hcell.
Qed.

Lemma results_table_shows_every_cell_witness :
  nth_error (link_results Sample.quick_linked) 1
  = Some [("title", CValue (PStr "Ulysses")); ("error", CText "No unique match found")]
  /\ exists j,
       nth_error (table_headers (link_results Sample.quick_linked)) j = Some "error"
       /\ (forall j', nth_error (table_headers (link_results Sample.quick_linked)) j'
                      = Some "error" -> j' = j)
       /\ (row ← nth_error (create_results_table (link_results Sample.quick_linked)) 1;
           nth_error row j) = Some (Some (CText "No unique match found")).
Proof.
  split; [reflexivity |].
  exact (results_table_shows_every_cell (link_results Sample.quick_linked) 1
           [("title", CValue (PStr "Ulysses")); ("error", CText "No unique match found")]
           "error" (CText "No unique match found") eq_refl eq_refl).
Defined.

(** X25. The columns of the table of a report are the title column, the
    error column and one column for every key that occurs in a row, each
    once: no two columns have one header, and no column is headed by a key
    that no row has, the title and the error columns apart. *)
Theorem table_headers_are_the_keys (results : list (list (string * cell))) :
  List.NoDup (table_headers results)
  /\ forall h,
       In h (table_headers results)
       <-> h = "title" \/ h = "error"
           \/ exists result, In result results /\ Dict.mem h result = true.
Proof.
  split; [apply table_headers_NoDup | intros h; apply table_headers_In].
Qed.
